(** * Kurohyou 1 PSP text extractor: a shallow embedding of the Python scripts

    The scripts under [Programa/] recover Japanese dialogue from GZIP-compressed
    ELPK/KSEQ containers and from frame-indexed CSV cue lists.  This file
    embeds the pure core of those scripts and proves what they compute.

    Conventions.
    - [bytes] objects are [list byte]; offsets and lengths are [nat], and a
      Python integer that can be negative (frame numbers, the [-1] of
      [bytes.find]) is a [Z].
    - A Python [str] is the list of its Unicode code points ([list Z]); the
      hexadecimal strings the scanners pass around are Stdlib [string]s.
    - [str.isprintable] and the decimal value of a non-ASCII digit are tables
      of the Unicode database: the functions that consult them take the table
      as their first argument.  The limit of the interpreter on the digits of
      an integer string ([sys.get_int_max_str_digits()]) is an argument too.
    - A Python [float] is an IEEE 754 binary64 number, a [spec_float] of the
      Standard Library with its correctly rounded operations; a function that
      can raise returns an [option], and [None] is the exception.
    - File input, GZIP and the user interface are outside the embedding: a
      function that reads a file takes what the read returns. *)

From Stdlib Require Import ZArith NArith List String Ascii Bool Lia QArith Sorted.
From Stdlib.Floats Require Import SpecFloat.
From Stdlib.Strings Require Import Byte.
From Stdlib Require DecimalString.
From stdpp Require Import base decidable option list countable gmap.

Import ListNotations.
Local Open Scope Z_scope.

(** ** The Python built-ins the scripts rely on *)

Module Py.

Abbreviation bytes := (list byte).
Abbreviation str := (list Z).

#[global] Instance byte_eq_decision : EqDecision byte := Byte.byte_eq_dec.

Definition byte_val (b : byte) : Z := Z.of_N (Byte.to_N b).

Definition byte_of_Z (z : Z) : byte :=
  match Byte.of_N (Z.to_N z) with Some b => b | None => x00 end.

(** [bool(s)] of a string or list, the negation of [not s]. *)
Definition truthy {A} (l : list A) : bool :=
  match l with [] => false | _ :: _ => true end.

(** [data[i:j]] for [0 <= i], [0 <= j]. *)
Definition slice {A} (l : list A) (i j : nat) : list A := take (j - i) (drop i l).

(** *** [bytes.hex().upper()] and [bytes.fromhex] *)

Definition hex_digit_upper (n : N) : ascii :=
  ascii_of_N (if (n <? 10)%N then 48 + n else 55 + n)%N.

Definition hex_byte_upper (b : byte) : string :=
  let n := Byte.to_N b in
  String (hex_digit_upper (n / 16)) (String (hex_digit_upper (n mod 16)) EmptyString).

Fixpoint hex_upper (bs : bytes) : string :=
  match bs with
  | [] => EmptyString
  | b :: rest => hex_byte_upper b ++ hex_upper rest
  end.

Definition hex_value (c : ascii) : option N :=
  let n := N_of_ascii c in
  if ((48 <=? n) && (n <=? 57))%N then Some (n - 48)%N
  else if ((65 <=? n) && (n <=? 70))%N then Some (n - 55)%N
  else if ((97 <=? n) && (n <=? 102))%N then Some (n - 87)%N
  else None.

(** ASCII whitespace, which [bytes.fromhex] skips between two bytes. *)
Definition ascii_space (c : ascii) : bool :=
  let n := N_of_ascii c in ((9 <=? n) && (n <=? 13) || (n =? 32))%N.

(** [bytes.fromhex(s)]: [None] stands for the [ValueError]. *)
Fixpoint fromhex (s : string) : option bytes :=
  match s with
  | EmptyString => Some []
  | String c rest =>
      if ascii_space c then fromhex rest
      else
        match rest with
        | EmptyString => None
        | String d rest' =>
            match hex_value c, hex_value d, fromhex rest' with
            | Some h, Some l, Some bs => Some (byte_of_Z (Z.of_N (16 * h + l)) :: bs)
            | _, _, _ => None
            end
        end
  end.

(** *** [bytes.decode('utf-16-le')], strict *)

(** The 16-bit little-endian code units; an odd byte left over is the
    decoder's "truncated data" error. *)
Fixpoint code_units (bs : bytes) : option (list Z) :=
  match bs with
  | [] => Some []
  | [_] => None
  | lo :: hi :: rest => cons (byte_val lo + 256 * byte_val hi) <$> code_units rest
  end.

Definition is_high_surrogate (u : Z) : bool := (0xD800 <=? u) && (u <=? 0xDBFF).
Definition is_low_surrogate (u : Z) : bool := (0xDC00 <=? u) && (u <=? 0xDFFF).

(** A surrogate pair is one scalar value; a surrogate without its partner is
    the decoder's "illegal encoding" error. *)
Fixpoint scalars (us : list Z) : option str :=
  match us with
  | [] => Some []
  | u :: rest =>
      if is_high_surrogate u then
        match rest with
        | v :: rest' =>
            if is_low_surrogate v
            then cons (0x10000 + (u - 0xD800) * 0x400 + (v - 0xDC00)) <$> scalars rest'
            else None
        | [] => None
        end
      else if is_low_surrogate u then None
      else cons u <$> scalars rest
  end.

Definition decode_utf16_le (raw : bytes) : option str :=
  code_units raw ≫= scalars.

(** [str.encode('utf-16-le')] on code points of the Basic Multilingual Plane. *)
Definition encode_utf16_le_bmp (s : str) : bytes :=
  flat_map (fun c => [byte_of_Z (c mod 256); byte_of_Z (c / 256)]) s.

(** *** [str.strip], [str.rstrip] *)

(** [str.isspace] on one code point: the Unicode White_Space characters and
    the four ASCII separators U+001C..U+001F. *)
Definition isspace (c : Z) : bool :=
  ((0x09 <=? c) && (c <=? 0x0D)) || ((0x1C <=? c) && (c <=? 0x20))
  || (c =? 0x85) || (c =? 0xA0) || (c =? 0x1680)
  || ((0x2000 <=? c) && (c <=? 0x200A))
  || (c =? 0x2028) || (c =? 0x2029) || (c =? 0x202F) || (c =? 0x205F)
  || (c =? 0x3000).

Fixpoint lstrip_by (p : Z -> bool) (s : str) : str :=
  match s with
  | [] => []
  | c :: rest => if p c then lstrip_by p rest else s
  end.

Definition rstrip_by (p : Z -> bool) (s : str) : str :=
  fold_right (fun c acc => if p c && negb (truthy acc) then [] else c :: acc) [] s.

Definition strip (s : str) : str := lstrip_by isspace (rstrip_by isspace s).

(** [s.rstrip('\x00')] *)
Definition rstrip_nul (s : str) : str := rstrip_by (Z.eqb 0) s.

(** *** [bytes.find] *)

Fixpoint starts_with (sub l : bytes) : bool :=
  match sub, l with
  | [], _ => true
  | _ :: _, [] => false
  | a :: sub', b :: l' => Byte.eqb a b && starts_with sub' l'
  end.

(** The first match in [l], which is [data] from offset [pos] on. *)
Fixpoint find_in (sub l : bytes) (pos : nat) : option nat :=
  if starts_with sub l then Some pos
  else match l with
       | [] => None
       | _ :: l' => find_in sub l' (S pos)
       end.

(** [data.find(sub, start)] for [0 <= start]; [None] is Python's [-1]. *)
Definition find (sub data : bytes) (start : nat) : option nat :=
  if (start <=? length data)%nat then find_in sub (drop start data) start else None.

Definition find_Z (sub data : bytes) (start : nat) : Z :=
  match find sub data start with Some p => Z.of_nat p | None => -1 end.

(** *** [str.split(sep, maxsplit)] for a one-character separator *)

Fixpoint split_once (sep : Z) (s : str) : option (str * str) :=
  match s with
  | [] => None
  | c :: rest =>
      if c =? sep then Some ([], rest)
      else prod_map (cons c) id <$> split_once sep rest
  end.

Fixpoint split (sep : Z) (maxsplit : nat) (s : str) : list str :=
  match maxsplit with
  | O => [s]
  | S m =>
      match split_once sep s with
      | None => [s]
      | Some (a, rest) => a :: split sep m rest
      end
  end.

(** *** [int(s)] for a [str], base 10

    CPython first rewrites the string to ASCII: a code point below 127 is
    kept, a non-ASCII space becomes a blank, a non-ASCII decimal digit becomes
    its ASCII digit and anything else becomes ['?'], which no number contains.
    [unicode_decimal] is the decimal-digit table of the Unicode database
    ([Py_UNICODE_TODECIMAL]), consulted from code point 127 on.  The number is
    then: blanks, an optional sign, digits with single underscores between
    them, blanks.  [None] stands for the [ValueError].

    From CPython 3.11 on a number of more than [int_max_str_digits] digits is
    a [ValueError] too (4300 unless the interpreter is told otherwise; 0, or
    an older interpreter, is no limit); the digits are counted with the
    leading zeros and without the underscores, and the limit is looked at
    for more than 640 digits only. *)

Definition to_ascii (unicode_decimal : Z -> option Z) (c : Z) : Z :=
  if c <? 127 then c
  else if isspace c then 32
  else match unicode_decimal c with Some d => 48 + d | None => 63 end.

Definition c_isspace (c : Z) : bool := ((9 <=? c) && (c <=? 13)) || (c =? 32).
Definition is_digit (c : Z) : bool := (48 <=? c) && (c <=? 57).

(** The digits after the first one: [acc] is the value read so far and
    [digits] the number of digits read; the result is the value, the number
    of digits and what follows the number. *)
Fixpoint more_digits (acc : Z) (digits : nat) (s : str) : option (Z * nat * str) :=
  match s with
  | [] => Some (acc, digits, [])
  | c :: rest =>
      if is_digit c then more_digits (10 * acc + (c - 48)) (S digits) rest
      else if c =? 95 then
        match rest with
        | d :: rest' =>
            if is_digit d then more_digits (10 * acc + (d - 48)) (S digits) rest'
            else None
        | [] => None
        end
      else Some (acc, digits, s)
  end.

(** The test of the limit on [digits] digits. *)
Definition too_many_digits (int_max_str_digits digits : nat) : bool :=
  (640 <? digits)%nat && (0 <? int_max_str_digits)%nat
  && (int_max_str_digits <? digits)%nat.

Definition unsigned_int (int_max_str_digits : nat) (s : str) : option Z :=
  match s with
  | c :: rest =>
      if is_digit c then
        match more_digits (c - 48) 1 rest with
        | Some (v, digits, tail) =>
            if truthy (lstrip_by c_isspace tail) then None
            else if too_many_digits int_max_str_digits digits then None
            else Some v
        | None => None
        end
      else None
  | [] => None
  end.

Definition int (unicode_decimal : Z -> option Z) (int_max_str_digits : nat) (s : str)
    : option Z :=
  match lstrip_by c_isspace (map (to_ascii unicode_decimal) s) with
  | 43 :: rest => unsigned_int int_max_str_digits rest
  | 45 :: rest => Z.opp <$> unsigned_int int_max_str_digits rest
  | a => unsigned_int int_max_str_digits a
  end.

(** *** Number formatting: [str(n)] and the digits of [format(x, '.Nf')]

    [format_f] writes a rational that is not negative with [prec] decimals,
    rounded half-even. *)

Definition str_of_Z (z : Z) : string := DecimalString.NilZero.string_of_int (Z.to_int z).

Definition round_half_even (q : Q) : Z :=
  let n := Qnum q in
  let d := Z.pos (Qden q) in
  let fl := n / d in
  let r2 := 2 * (n mod d) in
  if r2 <? d then fl
  else if d <? r2 then fl + 1
  else if Z.even fl then fl else fl + 1.

Fixpoint zero_pad (width : nat) (z : Z) : string :=
  match width with
  | O => EmptyString
  | S w => zero_pad w (z / 10) ++ str_of_Z (z mod 10)
  end.

Definition format_f (prec : nat) (x : Q) : string :=
  let scale := 10 ^ Z.of_nat prec in
  let scaled := round_half_even (x * inject_Z scale) in
  match prec with
  | O => str_of_Z scaled
  | S _ => str_of_Z (scaled / scale) ++ "." ++ zero_pad prec (scaled mod scale)
  end.

(** *** [float]

    IEEE 754 binary64: 53 bits of precision, exponents up to 1024, every
    operation rounded to nearest, ties to even.  An operation that raises
    ([OverflowError], [ZeroDivisionError]) gives [None]. *)

Definition float : Type := spec_float.

(** A number is an [int] or a [float]. *)
Inductive number :=
  | Int (z : Z)
  | Float (f : float).

(** The result of an operation on integers that does not fit a [float] is an
    [OverflowError]. *)
Definition finite_or_raise (f : float) : option float :=
  match f with
  | S754_infinity _ => None
  | _ => Some f
  end.

(** [float(z)], which is also what a mixed operation does to its [int]
    operand. *)
Definition float_of_int (z : Z) : option float :=
  finite_or_raise (binary_normalize 53 1024 z 0 false).

(** [a / b] for two [int]s: the quotient, rounded once. *)
Definition int_truediv (a b : Z) : option float :=
  if b =? 0 then None
  else if a =? 0 then Some (S754_zero (b <? 0))
  else finite_or_raise
         (SFdiv 53 1024 (S754_finite (a <? 0) (Z.to_pos (Z.abs a)) 0)
                        (S754_finite (b <? 0) (Z.to_pos (Z.abs b)) 0)).

(** [x / y] for two [float]s. *)
Definition float_truediv (x y : float) : option float :=
  match y with
  | S754_zero _ => None
  | _ => Some (SFdiv 53 1024 x y)
  end.

(** [x / y] for a number [x] and a [float] [y]. *)
Definition truediv (x : number) (y : float) : option float :=
  match x with
  | Int z => float_of_int z ≫= fun f => float_truediv f y
  | Float f => float_truediv f y
  end.

(** [x * z] for a [float] [x] and an [int] [z]. *)
Definition mul_int (x : float) (z : Z) : option float :=
  SFmul 53 1024 x <$> float_of_int z.

(** [x > 0] for a number and [x < 1] for a [float]. *)
Definition gt_zero (x : number) : bool :=
  match x with
  | Int z => 0 <? z
  | Float f => SFltb (S754_zero false) f
  end.

Definition lt_one (f : float) : bool := SFltb f (S754_finite false 4503599627370496 (-52)).

(** The absolute value of a finite [float], as a rational. *)
Definition float_abs_value (f : float) : Q :=
  match f with
  | S754_finite _ m e => inject_Z (Z.pos m) * Qpower 2 e
  | _ => 0
  end.

(** [format(x, '.Nf')]: the decimal digits nearest to the value of [x]. *)
Definition format_float (prec : nat) (x : float) : string :=
  match x with
  | S754_nan => "nan"
  | S754_infinity s => (if s then "-inf" else "inf")
  | S754_zero s | S754_finite s _ _ =>
      ((if s then "-" else "") ++ format_f prec (float_abs_value x))
  end%string.

(** *** String literals

    The code points of a string given in UTF-8, to write the fixtures of the
    scripts as they appear there. *)

Fixpoint utf8_points (fuel : nat) (bs : list Z) : str :=
  match fuel with
  | O => []
  | S f =>
      match bs with
      | [] => []
      | a :: rest =>
          if a <? 0x80 then a :: utf8_points f rest
          else if a <? 0xE0 then
            match rest with
            | b :: r => ((a - 0xC0) * 64 + (b - 0x80)) :: utf8_points f r
            | _ => []
            end
          else if a <? 0xF0 then
            match rest with
            | b :: c :: r =>
                ((a - 0xE0) * 4096 + (b - 0x80) * 64 + (c - 0x80)) :: utf8_points f r
            | _ => []
            end
          else
            match rest with
            | b :: c :: d :: r =>
                ((a - 0xF0) * 262144 + (b - 0x80) * 4096 + (c - 0x80) * 64 + (d - 0x80))
                  :: utf8_points f r
            | _ => []
            end
      end
  end.

Definition lit (s : string) : str :=
  let bs := map byte_val (list_byte_of_string s) in
  utf8_points (length bs) bs.

End Py.

(** ** Text recovery shared by the extractors *)

(** A recovered string: [(hex_string, decoded_text, offset)]. *)
Abbreviation recovered := (string * Py.str * nat)%type.

Definition decoded_text (r : recovered) : Py.str := r.1.2.
Definition source_offset (r : recovered) : nat := r.2.

(** The script-range test the scanners repeat inline: Hiragana, Katakana,
    Kanji. *)
Definition is_japanese (char : Z) : bool :=
  ((0x3040 <=? char) && (char <=? 0x309F))
  || ((0x30A0 <=? char) && (char <=? 0x30FF))
  || ((0x4E00 <=? char) && (char <=? 0x9FAF)).

(** [decode_utf16le_japanese], the same in [kurohyou_csv_extractor.py] and
    [correct_utf16_extractor.py]: any exception gives the empty string. *)
Definition decode_utf16le_japanese (hex_bytes : string) : Py.str :=
  match Py.fromhex hex_bytes with
  | Some raw =>
      match Py.decode_utf16_le raw with
      | Some s => Py.rstrip_nul s
      | None => []
      end
  | None => []
  end.

(** What both strategies do with a candidate byte sequence found at [offset]:
    decode, test the script ranges, drop the characters that are neither
    printable nor Japanese, strip, and keep a text of [min_len] characters or
    more. *)
Definition accept_sequence (isprintable : Z -> bool) (min_len : nat)
    (sequence : Py.bytes) (offset : nat) : option recovered :=
  let hex_string := Py.hex_upper sequence in
  let decoded := decode_utf16le_japanese hex_string in
  if Py.truthy decoded && existsb is_japanese decoded then
    let clean_text := List.filter (fun char => isprintable char || is_japanese char) decoded in
    if Py.truthy (Py.strip clean_text) && (min_len <=? length (Py.strip clean_text))%nat
    then Some (hex_string, Py.strip clean_text, offset)
    else None
  else None.

Definition candidate_lengths : list nat := [20; 40; 60; 80; 100; 150; 200]%nat.

(** The [for length in [...]] loop at offset [i]: the first length whose
    window fits and is accepted, with the text it gives. *)
Fixpoint try_lengths (isprintable : Z -> bool) (min_len : nat) (data : Py.bytes)
    (i : nat) (lengths : list nat) : option (recovered * nat) :=
  match lengths with
  | [] => None
  | length :: rest =>
      let next := try_lengths isprintable min_len data i rest in
      if (i + length <=? List.length data)%nat then
        match accept_sequence isprintable min_len (Py.slice data i (i + length)) i with
        | Some r => Some (r, length)
        | None => next
        end
      else next
  end.

(** The [while i < len(data) - 3] loop.  Every turn moves [i] forward by two
    bytes or more, so [fuel] turns are enough when [len(data) <= i + fuel]. *)
Fixpoint sliding_window_loop (fuel : nat) (isprintable : Z -> bool) (min_len : nat)
    (data : Py.bytes) (i : nat) : list recovered :=
  match fuel with
  | O => []
  | S fuel' =>
      if (Z.of_nat i <? Z.of_nat (length data) - 3) then
        match try_lengths isprintable min_len data i candidate_lengths with
        | Some (r, length) =>
            r :: sliding_window_loop fuel' isprintable min_len data (i + length)
        | None => sliding_window_loop fuel' isprintable min_len data (i + 2)
        end
      else []
  end.

(** All the matches of [sub] found by the loop
    [pos = data.find(sub, start); ...; start = pos + step]. *)
Fixpoint find_all (fuel : nat) (sub : Py.bytes) (step : nat) (data : Py.bytes)
    (start : nat) : list nat :=
  match fuel with
  | O => []
  | S fuel' =>
      match Py.find sub data start with
      | None => []
      | Some pos => pos :: find_all fuel' sub step data (pos + step)
      end
  end.

(** The loop of [extract_strings_from_data] and of [extract_strings], which
    differ in the default of [min_length] only: the state is
    [(strings, current_string)]. *)
Definition printable_byte (b : byte) : bool :=
  (32 <=? Py.byte_val b) && (Py.byte_val b <=? 126).

Definition strings_step (min_length : nat) (st : list Py.str * Py.str) (b : byte)
    : list Py.str * Py.str :=
  if printable_byte b then (st.1, st.2 ++ [Py.byte_val b])
  else ((if (min_length <=? length st.2)%nat then st.1 ++ [st.2] else st.1), []).

Definition strings_loop (min_length : nat) (data : Py.bytes) : list Py.str :=
  let st := fold_left (strings_step min_length) data ([], []) in
  if (min_length <=? length st.2)%nat then st.1 ++ [st.2] else st.1.

(** ** [code/kurohyou_csv_extractor.py] *)

Module kurohyou_csv_extractor.

(** [KUROHYOU_FPS = 30.0] *)
Definition KUROHYOU_FPS : Py.float := S754_finite false 8444249301319680 (-48).

(** [frames] is an [int] or a [float] in the callers. *)
Definition frames_to_seconds (frames : Py.number) : option Py.float :=
  if Py.gt_zero frames then Py.truediv frames KUROHYOU_FPS
  else Some (S754_zero false).

Definition frames_to_milliseconds (frames : Py.number) : option Py.float :=
  if Py.gt_zero frames
  then Py.truediv frames KUROHYOU_FPS ≫= fun q => Py.mul_int q 1000
  else Some (S754_zero false).

Definition format_duration (frames : Z) : option string :=
  if frames <=? 0 then Some "0 frames"%string
  else
    frames_to_seconds (Py.Int frames) ≫= fun seconds =>
    if Py.lt_one seconds then
      frames_to_milliseconds (Py.Int frames) ≫= fun ms =>
      Some (Py.str_of_Z frames ++ " frames (" ++ Py.format_float 0 ms ++ "ms)")%string
    else
      Some (Py.str_of_Z frames ++ " frames (" ++ Py.format_float 2 seconds ++ "s)")%string.

(** Strategy A as the main program has it: a text of one character is kept. *)
Definition find_japanese_text_in_data (isprintable : Z -> bool) (data : Py.bytes)
    : list recovered :=
  sliding_window_loop (length data) isprintable 1 data 0.

(** *** Timed cues *)

Record line_data := {
  line_id : nat;
  start_time : Z;
  end_time : Z;
  text : Py.str;
  duration : Z;
  is_pause : bool
}.

Record csv_stats := {
  total_lines : nat;
  dialogue_lines : Z;
  pause_lines : Z;
  total_chars : Z;
  avg_chars : Py.number;
  total_duration_frames : Z;
  avg_duration_frames : Py.number;
  total_duration_seconds : Py.float;
  avg_duration_seconds : Py.number
}.

Record csv_data := {
  lines : list line_data;
  stats : csv_stats
}.

(** The body of the [for] loop up to the dictionary [line_data]: [None] when
    the line is blank, has fewer than three parts, or [int] raises
    [ValueError] on one of the first two. *)
Definition parse_line (unicode_decimal : Z -> option Z) (int_max_str_digits : nat)
    (line_num : nat) (line : Py.str) : option line_data :=
  let line := Py.strip line in
  if negb (Py.truthy line) then None
  else
    match Py.split 44 2 line with
    | part0 :: part1 :: part2 :: _ =>
        match Py.int unicode_decimal int_max_str_digits part0 with
        | None => None
        | Some start_time =>
            match Py.int unicode_decimal int_max_str_digits part1 with
            | None => None
            | Some end_time =>
                Some {| line_id := line_num;
                        start_time := start_time;
                        end_time := end_time;
                        text := part2;
                        duration :=
                          if negb (start_time =? -1) && negb (end_time =? -1)
                          then end_time - start_time else 0;
                        is_pause := (start_time =? -1) && (end_time =? -1) |}
            end
        end
    | _ => None
    end.

(** The variables the loop updates. *)
Record csv_acc := {
  acc_lines : list line_data;
  acc_dialogue_lines : Z;
  acc_pause_lines : Z;
  acc_total_chars : Z;
  acc_total_duration : Z
}.

Definition csv_step (unicode_decimal : Z -> option Z) (int_max_str_digits : nat)
    (acc : csv_acc) (numbered : nat * Py.str) : csv_acc :=
  match parse_line unicode_decimal int_max_str_digits numbered.1 numbered.2 with
  | None => acc
  | Some ld =>
      if is_pause ld then
        {| acc_lines := acc_lines acc ++ [ld];
           acc_dialogue_lines := acc_dialogue_lines acc;
           acc_pause_lines := acc_pause_lines acc + 1;
           acc_total_chars := acc_total_chars acc;
           acc_total_duration := acc_total_duration acc |}
      else
        {| acc_lines := acc_lines acc ++ [ld];
           acc_dialogue_lines := acc_dialogue_lines acc + 1;
           acc_pause_lines := acc_pause_lines acc;
           acc_total_chars := acc_total_chars acc + Z.of_nat (length (text ld));
           acc_total_duration := acc_total_duration acc + duration ld |}
  end.

(** [enumerate(file, 1)] *)
Definition enumerate1 {A} (l : list A) : list (nat * A) := zip (seq 1 (length l)) l.

Definition csv_loop (unicode_decimal : Z -> option Z) (int_max_str_digits : nat)
    (file : list Py.str) : csv_acc :=
  fold_left (csv_step unicode_decimal int_max_str_digits) (enumerate1 file)
    {| acc_lines := []; acc_dialogue_lines := 0; acc_pause_lines := 0;
       acc_total_chars := 0; acc_total_duration := 0 |}.

(** [total / dialogue_lines if dialogue_lines > 0 else 0] *)
Definition average (total dialogue_lines : Z) : option Py.number :=
  if 0 <? dialogue_lines then Py.Float <$> Py.int_truediv total dialogue_lines
  else Some (Py.Int 0).

(** [_extract_csv_data] on the lines of the file.  The statistics are
    computed inside the [try] of the function: an [OverflowError] there is
    caught by its [except Exception], and the function returns [None]. *)
Definition _extract_csv_data (unicode_decimal : Z -> option Z) (int_max_str_digits : nat)
    (file : list Py.str) : option csv_data :=
  let acc := csv_loop unicode_decimal int_max_str_digits file in
  let dialogue_lines := acc_dialogue_lines acc in
  let total_chars := acc_total_chars acc in
  let total_duration := acc_total_duration acc in
  average total_chars dialogue_lines ≫= fun avg_chars =>
  average total_duration dialogue_lines ≫= fun avg_duration_frames =>
  frames_to_seconds (Py.Int total_duration) ≫= fun total_duration_seconds =>
  (if 0 <? dialogue_lines
   then Py.int_truediv total_duration dialogue_lines ≫= fun q =>
        Py.Float <$> frames_to_seconds (Py.Float q)
   else Some (Py.Int 0)) ≫= fun avg_duration_seconds =>
  Some {| lines := acc_lines acc;
          stats :=
            {| total_lines := length (acc_lines acc);
               dialogue_lines := dialogue_lines;
               pause_lines := acc_pause_lines acc;
               total_chars := total_chars;
               avg_chars := avg_chars;
               total_duration_frames := total_duration;
               avg_duration_frames := avg_duration_frames;
               total_duration_seconds := total_duration_seconds;
               avg_duration_seconds := avg_duration_seconds |} |}.

(** *** PACK files *)

Record pack_line := {
  pack_line_id : nat;
  pack_text : Py.str;
  hex_data : string;
  offset : nat;
  length_chars : nat
}.

Record pack_data := {
  pack_lines : list pack_line;
  decompressed_size : nat;
  pack_total_chars : nat
}.

(** The [for i, (...) in enumerate(japanese_texts)] loop. *)
Fixpoint pack_lines_from (i : nat) (japanese_texts : list recovered) : list pack_line :=
  match japanese_texts with
  | [] => []
  | (hex_string, decoded, off) :: rest =>
      if Py.truthy (Py.strip decoded) && (1 <=? length (Py.strip decoded))%nat then
        {| pack_line_id := i + 1;
           pack_text := Py.strip decoded;
           hex_data := hex_string;
           offset := off;
           length_chars := length (Py.strip decoded) |}
          :: pack_lines_from (S i) rest
      else pack_lines_from (S i) rest
  end.

(** [_extract_pack_data] (the definition the class keeps, the second one) on
    what [decompress_pack_file] returned: [None] when GZIP failed. *)
Definition _extract_pack_data (isprintable : Z -> bool)
    (decompressed_data : option Py.bytes) : option pack_data :=
  match decompressed_data with
  | None => None
  | Some data =>
      let japanese_texts := find_japanese_text_in_data isprintable data in
      let ls := pack_lines_from 0 japanese_texts in
      Some {| pack_lines := ls;
              decompressed_size := length data;
              pack_total_chars := list_sum (map length_chars ls) |}
  end.

(** [extract_strings_from_data] with the default [min_length]. *)
Definition extract_strings_from_data (data : Py.bytes) : list Py.str :=
  strings_loop 3 data.

End kurohyou_csv_extractor.

(** ** [correct_utf16_extractor.py] *)

Module correct_utf16_extractor.

(** Strategy A as this script has it: a text needs two characters. *)
Definition find_japanese_text_sequences (isprintable : Z -> bool) (data : Py.bytes)
    : list recovered :=
  sliding_window_loop (length data) isprintable 2 data 0.

Definition null_pattern : Py.bytes := [x00; x00].

(** The [while True] loop that collects the terminators. *)
Definition null_positions (data : Py.bytes) : list nat :=
  find_all (S (length data)) null_pattern 2 data 0.

(** The [for i in range(len(positions) - 1)] loop. *)
Fixpoint between_terminators (isprintable : Z -> bool) (data : Py.bytes)
    (positions : list nat) : list recovered :=
  match positions with
  | [] => []
  | p :: rest =>
      match rest with
      | [] => []
      | q :: _ =>
          let start_pos := (p + 2)%nat in
          let end_pos := q in
          let found :=
            if 4 <? Z.of_nat end_pos - Z.of_nat start_pos
            then option_list
                   (accept_sequence isprintable 1 (Py.slice data start_pos end_pos) start_pos)
            else [] in
          found ++ between_terminators isprintable data rest
      end
  end.

(** Strategy B. *)
Definition find_japanese_by_null_terminators (isprintable : Z -> bool) (data : Py.bytes)
    : list recovered :=
  between_terminators isprintable data (null_positions data).

(** The loop over [all_texts] with its set [seen_texts]. *)
Fixpoint unique_from (seen_texts : gset Py.str) (all_texts : list recovered)
    : list recovered :=
  match all_texts with
  | [] => []
  | (hex_str, decoded, off) :: rest =>
      if bool_decide (decoded ∉ seen_texts) && (1 <=? length decoded)%nat
      then (hex_str, decoded, off) :: unique_from ({[decoded]} ∪ seen_texts) rest
      else unique_from seen_texts rest
  end.

(** [extract_japanese_from_pack_correct] on the decompressed bytes. *)
Definition extract_japanese_from_pack_correct (isprintable : Z -> bool) (data : Py.bytes)
    : list recovered :=
  let sequences := find_japanese_text_sequences isprintable data in
  let null_texts := find_japanese_by_null_terminators isprintable data in
  let all_texts := sequences ++ null_texts in
  unique_from ∅ all_texts.

End correct_utf16_extractor.

(** What a call can do besides returning a value. *)
Inductive outcome (A : Type) : Type :=
  | Returns (a : A)
  | ReturnsNone
  | Raises.
Arguments Returns {A} a.
Arguments ReturnsNone {A}.
Arguments Raises {A}.

Definition ELPK : Py.bytes := [x45; x4c; x50; x4b].
Definition KSEQ : Py.bytes := [x4b; x53; x45; x51].

(** ** [analyze_pack_format.py] *)

Module analyze_pack_format.

Definition isalpha_ascii (c : Z) : bool :=
  ((65 <=? c) && (c <=? 90)) || ((97 <=? c) && (c <=? 122)).

Definition contains (c : Z) (text : Py.str) : bool := existsb (Z.eqb c) text.

(** [decode_special_japanese]; [text] is made of printable ASCII. *)
Definition decode_special_japanese (text : Py.str) : option Py.str :=
  if (contains 48 text && (5 <? length text)%nat)
     || existsb (fun c => contains c text) [74; 85; 77; 81; 86]
  then Some (Py.lit "[JAPONÉS_CODIFICADO] " ++ text)
  else if (3 <=? length text)%nat && existsb isalpha_ascii text then Some text
  else None.

Definition flush (min_length : nat) (texts : list Py.str) (current_text : Py.str)
    : list Py.str :=
  if (min_length <=? length current_text)%nat
  then texts ++ option_list (decode_special_japanese current_text)
  else texts.

(** [extract_japanese_from_section]: the state is [(texts, current_text)]. *)
Definition section_step (st : list Py.str * Py.str) (b : byte) : list Py.str * Py.str :=
  let byte := Py.byte_val b in
  if byte =? 0 then (flush 3 st.1 st.2, [])
  else if (32 <=? byte) && (byte <=? 126) then (st.1, st.2 ++ [byte])
  else (flush 2 st.1 st.2, []).

Definition extract_japanese_from_section (section_data : Py.bytes) : list Py.str :=
  let st := fold_left section_step section_data ([], []) in
  flush 3 st.1 st.2.

(** The [while True] loop over [data.find(b'KSEQ', pos)]. *)
Definition kseq_positions (data : Py.bytes) : list nat :=
  find_all (S (length data)) KSEQ 4 data 0.

(** The sections of the [for i, kseq_pos in enumerate(kseq_positions)] loop:
    each offset with its [section_data]. *)
Fixpoint kseq_sections (data : Py.bytes) (positions : list nat) : list (nat * Py.bytes) :=
  match positions with
  | [] => []
  | kseq_pos :: rest =>
      let section_size :=
        match rest with
        | next :: _ => (next - kseq_pos)%nat
        | [] => (length data - kseq_pos)%nat
        end in
      (kseq_pos, Py.slice data kseq_pos (kseq_pos + section_size))
        :: kseq_sections data rest
  end.

Record analysis := {
  total_size : nat;
  n_kseq_sections : nat;
  japanese_texts : list Py.str
}.

(** [analyze_elpk_structure]: [None] after the message that no ELPK header
    was found. *)
Definition analyze_elpk_structure (data : Py.bytes) : option analysis :=
  if negb (bool_decide (Py.slice data 0 4 = ELPK)) then None
  else
    let positions := kseq_positions data in
    Some {| total_size := length data;
            n_kseq_sections := length positions;
            japanese_texts :=
              flat_map (fun s => extract_japanese_from_section s.2)
                       (kseq_sections data positions) |}.

(** [analyze_pack_file] on the first two bytes of the file and on what
    [decompress_pack_file] returned.  The compression ratio it prints divides
    by the decompressed length. *)
Definition analyze_pack_file (magic : Py.bytes) (decompressed_data : option Py.bytes)
    : outcome analysis :=
  if negb (bool_decide (magic = [x1f; x8b])) then ReturnsNone
  else
    match decompressed_data with
    | None => ReturnsNone
    | Some data =>
        if (length data =? 0)%nat then Raises
        else match analyze_elpk_structure data with
             | Some r => Returns r
             | None => ReturnsNone
             end
    end.

End analyze_pack_format.

(** ** [analyze_pepe_format.py] *)

Module analyze_pepe_format.

(** One [I] of [struct.unpack('<...')]. *)
Definition u32_le (b0 b1 b2 b3 : byte) : Z :=
  Z.lor (Py.byte_val b0)
    (Z.lor (Z.shiftl (Py.byte_val b1) 8)
       (Z.lor (Z.shiftl (Py.byte_val b2) 16) (Z.shiftl (Py.byte_val b3) 24))).

(** [struct.unpack('<II', b)] and [struct.unpack('<III', b)]: [None] stands
    for [struct.error], raised unless [b] has exactly 8 or 12 bytes. *)
Definition unpack_II (b : Py.bytes) : option (Z * Z) :=
  match b with
  | [a0; a1; a2; a3; b0; b1; b2; b3] => Some (u32_le a0 a1 a2 a3, u32_le b0 b1 b2 b3)
  | _ => None
  end.

Definition unpack_III (b : Py.bytes) : option (Z * Z * Z) :=
  match b with
  | [a0; a1; a2; a3; b0; b1; b2; b3; c0; c1; c2; c3] =>
      Some (u32_le a0 a1 a2 a3, u32_le b0 b1 b2 b3, u32_le c0 c1 c2 c3)
  | _ => None
  end.

Record entry := {
  index : nat;
  hash_id : Z;
  offset : Z;
  size : Z;
  position : nat
}.

(** The test of a valid entry. *)
Definition plausible (data : Py.bytes) (offset size : Z) : bool :=
  (0 <? offset) && (offset <? Z.of_nat (length data)) && (0 <? size) && (size <? 10000).

(** The [while pos < kseq_pos and entry_count < 50] loop.  A turn that does
    not leave the loop adds an entry, so 50 turns are all it can take. *)
Fixpoint table_loop (fuel : nat) (data : Py.bytes) (kseq_pos : Z) (pos entry_count : nat)
    : list entry :=
  match fuel with
  | O => []
  | S fuel' =>
      if (Z.of_nat pos <? kseq_pos) && (entry_count <? 50)%nat then
        match unpack_III (Py.slice data pos (pos + 12)) with
        | None => []
        | Some (hash_id, offset, size) =>
            if plausible data offset size then
              {| index := entry_count; hash_id := hash_id; offset := offset;
                 size := size; position := pos |}
                :: table_loop fuel' data kseq_pos (pos + 12) (S entry_count)
            else []
        end
      else []
  end.

Definition pointer_start : nat := 20.

(** The ['entries'] of [analyze_elpk_format] on the bytes of the file.  The
    two header reads are outside any [try]: their [struct.error] leaves the
    function. *)
Definition analyze_elpk_format (data : Py.bytes) : outcome (list entry) :=
  match unpack_III (Py.slice data 8 20) with
  | None => Raises
  | Some header_values =>
      let kseq_pos := Py.find_Z KSEQ data 0 in
      let kseq_read :=
        if negb (kseq_pos =? -1)
        then bool_decide (is_Some (unpack_II (Py.slice data (Z.to_nat kseq_pos + 4)
                                                (Z.to_nat kseq_pos + 12))))
        else true in
      if kseq_read then Returns (table_loop 50 data kseq_pos pointer_start 0)
      else Raises
  end.

(** [extract_strings] with the default [min_length]. *)
Definition extract_strings (data : Py.bytes) : list Py.str := strings_loop 4 data.

(** [x in s] for a character and for a string. *)
Definition has_char (c : Z) (s : Py.str) : bool := existsb (Z.eqb c) s.

Fixpoint str_prefix (x s : Py.str) : bool :=
  match x, s with
  | [], _ => true
  | _ :: _, [] => false
  | a :: x', b :: s' => (a =? b) && str_prefix x' s'
  end.

Fixpoint str_contains (x s : Py.str) : bool :=
  str_prefix x s
  || match s with
     | [] => false
     | _ :: s' => str_contains x s'
     end.

(** [s.isupper()] for printable ASCII: a capital letter and no small one. *)
Definition isupper_ascii (s : Py.str) : bool :=
  existsb (fun c => (65 <=? c) && (c <=? 90)) s
  && negb (existsb (fun c => (97 <=? c) && (c <=? 122)) s).

Definition is_dialogue_string (s : Py.str) : bool :=
  (50 <? length s)%nat || has_char 46 s || has_char 33 s || has_char 63 s.

Definition is_command_string (s : Py.str) : bool :=
  isupper_ascii s || has_char 95 s
  || existsb (fun x => str_contains x s) [Py.lit "play"; Py.lit "bgm"; Py.lit "amb_"].

Definition is_name_string (s : Py.str) : bool :=
  (length s <? 30)%nat && (3 <? length s)%nat.

Record categories := {
  dialogue_strings : list Py.str;
  command_strings : list Py.str;
  name_strings : list Py.str
}.

(** The body of the [for s in strings] loop with its [if]/[elif] chain. *)
Definition categorize_step (acc : categories) (s : Py.str) : categories :=
  if is_dialogue_string s then
    {| dialogue_strings := dialogue_strings acc ++ [s];
       command_strings := command_strings acc;
       name_strings := name_strings acc |}
  else if is_command_string s then
    {| dialogue_strings := dialogue_strings acc;
       command_strings := command_strings acc ++ [s];
       name_strings := name_strings acc |}
  else if is_name_string s then
    {| dialogue_strings := dialogue_strings acc;
       command_strings := command_strings acc;
       name_strings := name_strings acc ++ [s] |}
  else acc.

Definition categorize (strings : list Py.str) : categories :=
  fold_left categorize_step strings
    {| dialogue_strings := []; command_strings := []; name_strings := [] |}.

(** What [analyze_hash_distribution] prints for a table that is not empty:
    the least and the greatest identifier, their difference, the number of
    neighbours that differ by one, and whether it calls the identifiers
    sequential. *)
Record hash_report := {
  least_hash : Z;
  greatest_hash : Z;
  hash_range : Z;
  consecutive_pairs : nat;
  sequential : bool
}.

(** The [for i in range(len(hash_values) - 1)] loop. *)
Fixpoint count_consecutive (hash_values : list Z) : nat :=
  match hash_values with
  | [] => 0
  | a :: rest =>
      match rest with
      | [] => 0
      | b :: _ => ((if (b - a =? 1)%Z then 1 else 0) + count_consecutive rest)%nat
      end
  end.

(** [analyze_hash_distribution]: [None] after the message that there are no
    entries. *)
Definition analyze_hash_distribution (entries : list entry) : option hash_report :=
  match map hash_id entries with
  | [] => None
  | h :: rest =>
      let hash_values := h :: rest in
      let pairs := count_consecutive hash_values in
      Some {| least_hash := fold_left Z.min rest h;
              greatest_hash := fold_left Z.max rest h;
              hash_range := fold_left Z.max rest h - fold_left Z.min rest h;
              consecutive_pairs := pairs;
              sequential :=
                negb (Qle_bool (inject_Z (Z.of_nat pairs))
                        (inject_Z (Z.of_nat (length hash_values)) * (1 # 2))) |}
  end.

End analyze_pepe_format.

(** ** [test_fotogramas.py] *)

Module test_fotogramas.

(** The category [test_analysis_thresholds] gives a duration in frames. *)
Definition category (duration : Z) : Py.str :=
  if duration <? 15 then Py.lit "muy rápido"
  else if duration <=? 60 then Py.lit "normal"
  else if duration <=? 90 then Py.lit "lento"
  else Py.lit "muy lento".

(** Its [example_timings]: a text, its duration, the category expected. *)
Definition example_timings : list (Py.str * Z * Py.str) :=
  [(Py.lit "あ？", 15, Py.lit "muy rápido");
   (Py.lit "どけ！", 18, Py.lit "muy rápido");
   (Py.lit "マジでヤル気なのかよ？", 54, Py.lit "normal");
   (Py.lit "な… 龍也 テメェ…", 95, Py.lit "muy lento")].

(** The status of one example: [true] is the check mark, [false] the cross. *)
Definition status (example : Py.str * Z * Py.str) : bool :=
  bool_decide (category example.1.2 = example.2).

(** The statuses [test_analysis_thresholds] prints, in order. *)
Definition test_analysis_thresholds : list bool := map status example_timings.

End test_fotogramas.

(** ** The vocabulary of the statements *)

(** The cue of a numbered line of the file, if it gives one. *)
Definition parse_numbered (unicode_decimal : Z -> option Z) (int_max_str_digits : nat)
    (numbered : nat * Py.str) : option kurohyou_csv_extractor.line_data :=
  kurohyou_csv_extractor.parse_line unicode_decimal int_max_str_digits numbered.1 numbered.2.

(** The cues that are not pauses. *)
Definition dialogue (ls : list kurohyou_csv_extractor.line_data)
    : list kurohyou_csv_extractor.line_data :=
  List.filter (fun ld => negb (kurohyou_csv_extractor.is_pause ld)) ls.

Definition Zsum (l : list Z) : Z := foldr Z.add 0 l.

(** [sub] occurs in [data] at offset [q]. *)
Definition occurs (sub data : Py.bytes) (q : nat) : Prop :=
  Py.starts_with sub (drop q data) = true.

(** Two occurrences of [sub], [step] bytes long, never overlap. *)
Definition border_free (sub : Py.bytes) (step : nat) : Prop :=
  forall (l : Py.bytes) (k : nat),
    (0 < k < step)%nat -> Py.starts_with sub l = true ->
    Py.starts_with sub (drop k l) = false.

(** The check that [fromhex] reads back the two digits of a byte. *)
Definition reads_back (b : byte) : bool :=
  match Py.hex_byte_upper b with
  | String c (String d EmptyString) =>
      negb (Py.ascii_space c)
      && match Py.hex_value c, Py.hex_value d with
         | Some h, Some l => Byte.eqb (Py.byte_of_Z (Z.of_N (16 * h + l))) b
         | _, _ => false
         end
  | _ => false
  end.

(** A [float] [f] for which [f < 0] is false. *)
Definition not_negative (f : Py.float) : Prop := SFltb f (S754_zero false) = false.

(** A code point that one 16-bit unit holds: in the Basic Multilingual Plane
    and not a surrogate. *)
Definition one_unit (c : Z) : Prop :=
  0 <= c < 0x10000 /\ Py.is_high_surrogate c = false /\ Py.is_low_surrogate c = false.

(** A table that answers [nul] on U+0000 and is not consulted on Japanese
    characters: every table filters like one of these. *)
Definition probe (nul : bool) (isprintable : Z -> bool) (c : Z) : bool :=
  if is_japanese c then true else if c =? 0 then nul else isprintable c.

(** [s] is a run of printable bytes of [data] that cannot be extended. *)
Definition maximal_run (data : Py.bytes) (s : Py.str) : Prop :=
  Forall (fun c => 32 <= c <= 126) s
  /\ exists before after,
       data = before ++ map Py.byte_of_Z s ++ after
       /\ (forall b, last before = Some b -> printable_byte b = false)
       /\ (forall b, head after = Some b -> printable_byte b = false).

(** The state of the loop of [extract_strings] once the bytes [done] are
    read. *)
Definition strings_invariant (min_length : nat) (done : Py.bytes)
    (st : list Py.str * Py.str) : Prop :=
  Forall (fun c => 32 <= c <= 126) st.2
  /\ (exists before,
        done = before ++ map Py.byte_of_Z st.2
        /\ (forall b, last before = Some b -> printable_byte b = false))
  /\ Forall (fun s =>
       (min_length <= length s)%nat
       /\ Forall (fun c => 32 <= c <= 126) s
       /\ exists before after,
            done = before ++ map Py.byte_of_Z s ++ after
            /\ (forall b, last before = Some b -> printable_byte b = false)
            /\ (exists b, head after = Some b /\ printable_byte b = false)) st.1.

(** The hex string of a result. *)
Definition hex_of (r : recovered) : string := r.1.1.

(** The text both strategies make of a hex string: decoded, without the
    characters that are neither printable nor Japanese, stripped. *)
Definition clean_text_of (isprintable : Z -> bool) (hex_string : string) : Py.str :=
  Py.strip (List.filter (fun char => isprintable char || is_japanese char)
              (decode_utf16le_japanese hex_string)).

(** [r] was read from the [n] bytes of [data] at its source offset. *)
Definition read_from (data : Py.bytes) (r : recovered) (n : nat) : Prop :=
  (source_offset r + n <= length data)%nat
  /\ hex_of r = Py.hex_upper (Py.slice data (source_offset r) (source_offset r + n)).

(** The window of [r] ends before [r'] starts. *)
Definition window_before (r r' : recovered) : Prop :=
  (source_offset r + String.length (hex_of r) / 2 <= source_offset r')%nat.

(** What Strategy A returns for [data]: every result read from a window of a
    candidate length at an even offset, with the text its hex string gives,
    [min_len] characters or more; the windows in order and apart. *)
Definition from_windows (isprintable : Z -> bool) (min_len : nat) (data : Py.bytes)
    (rs : list recovered) : Prop :=
  Forall (fun r =>
            Nat.Even (source_offset r)
            /\ exists n, In n candidate_lengths /\ read_from data r n
                         /\ decoded_text r = clean_text_of isprintable (hex_of r)
                         /\ (min_len <= length (decoded_text r))%nat) rs
  /\ StronglySorted window_before rs.

(** [r] was read from the bytes between the terminator at [p] and the next
    terminator found from [p + 2] on, at [q]: more than four bytes, with no
    pair of zero bytes at any offset from [p + 2] up to [q]. *)
Definition between_zero_pairs (isprintable : Z -> bool) (data : Py.bytes)
    (r : recovered) (p q : nat) : Prop :=
  occurs correct_utf16_extractor.null_pattern data p
  /\ occurs correct_utf16_extractor.null_pattern data q
  /\ (p + 2 + 4 < q)%nat
  /\ (forall k, (p + 2 <= k < q)%nat -> ~ occurs correct_utf16_extractor.null_pattern data k)
  /\ source_offset r = (p + 2)%nat
  /\ read_from data r (q - (p + 2))
  /\ decoded_text r = clean_text_of isprintable (hex_of r)
  /\ (1 <= length (decoded_text r))%nat.

(** A Unicode scalar value: a code point that is not a surrogate. *)
Definition scalar_value (c : Z) : Prop :=
  0 <= c <= 0x10FFFF /\ ~ (0xD800 <= c <= 0xDFFF).

(** The line [_extract_pack_data] makes of the result [r] when it numbers it
    [line_id]. *)
Definition line_of (line_id : nat) (r : recovered) : kurohyou_csv_extractor.pack_line :=
  {| kurohyou_csv_extractor.pack_line_id := line_id;
     kurohyou_csv_extractor.pack_text := decoded_text r;
     kurohyou_csv_extractor.hex_data := hex_of r;
     kurohyou_csv_extractor.offset := source_offset r;
     kurohyou_csv_extractor.length_chars := length (decoded_text r) |}.

(** ** Fixtures *)

(** Ten kana. *)
Definition kana : Py.str := Eval vm_compute in Py.lit "あいうえおかきくけこ".

(** Ten kana, 20 bytes: a buffer without the root tag. *)
Definition kana_buffer : Py.bytes := Eval vm_compute in Py.encode_utf16_le_bmp kana.

(** Two copies of [kana]: the first between two terminators at offset
    2, the second at offset 40, where a window of Strategy A starts. *)
Definition two_copies : Py.bytes :=
  Eval vm_compute in
    [x00; x00] ++ Py.encode_utf16_le_bmp kana
    ++ [x00; x00] ++ Py.encode_utf16_le_bmp (Py.lit "んんんんんんんん")
    ++ Py.encode_utf16_le_bmp kana.

(** A container without [KSEQ]: the 20-byte header, then the record
    (identifier 1, offset 20, length 12). *)
Definition table_without_kseq : Py.bytes :=
  ELPK ++ [x00; x01; x00; x00]
  ++ [x01; x00; x00; x00; x02; x00; x00; x00; x03; x00; x00; x00]
  ++ [x01; x00; x00; x00; x14; x00; x00; x00; x0c; x00; x00; x00].

(** A container with two records before its [KSEQ] tag: (1, 20, 12) and
    (2, 44, 8); the tag is at offset 44 and 8 bytes follow it. *)
Definition small_table : Py.bytes :=
  ELPK ++ [x00; x01; x00; x00]
  ++ [x01; x00; x00; x00; x02; x00; x00; x00; x03; x00; x00; x00]
  ++ [x01; x00; x00; x00; x14; x00; x00; x00; x0c; x00; x00; x00]
  ++ [x02; x00; x00; x00; x2c; x00; x00; x00; x08; x00; x00; x00]
  ++ KSEQ ++ [x01; x00; x00; x00; x02; x00; x00; x00].

(** * Properties *)

(** ** Timed cues and their statistics *)

Section TimedCues.

Import kurohyou_csv_extractor.

Variable unicode_decimal : Z -> option Z.
Variable int_max_str_digits : nat.

Local Abbreviation parse_cue := (parse_numbered unicode_decimal int_max_str_digits).

Lemma omap_cons {A B} (f : A -> option B) (x : A) (l : list A) :
  omap f (x :: l) = match f x with Some y => y :: omap f l | None => omap f l end.
Proof. reflexivity. Qed.

Lemma dialogue_app ls ls' : dialogue (ls ++ ls') = dialogue ls ++ dialogue ls'.
Proof. apply List.filter_app. Qed.

Lemma Zsum_app l l' : Zsum (l ++ l') = Zsum l + Zsum l'.
Proof. induction l as [|x l IH]; simpl; [reflexivity | rewrite IH; lia]. Qed.

(** The loop, whatever the values its variables start from: the cues of the
    well-formed lines are appended in order and each counter grows by what
    these cues contribute. *)
Lemma csv_fold_spec (numbered : list (nat * Py.str)) (acc : csv_acc) :
  let new := omap parse_cue numbered in
  let acc' := fold_left (csv_step unicode_decimal int_max_str_digits) numbered acc in
  acc_lines acc' = acc_lines acc ++ new
  /\ acc_dialogue_lines acc' = acc_dialogue_lines acc + Z.of_nat (length (dialogue new))
  /\ acc_pause_lines acc'
     = acc_pause_lines acc + Z.of_nat (length new) - Z.of_nat (length (dialogue new))
  /\ acc_total_chars acc'
     = acc_total_chars acc + Zsum (map (fun ld => Z.of_nat (length (text ld))) (dialogue new))
  /\ acc_total_duration acc' = acc_total_duration acc + Zsum (map duration (dialogue new)).
Proof.
  revert acc. induction numbered as [|nl rest IH]; intros acc.
  - simpl. rewrite app_nil_r. repeat split; lia.
  - cbn zeta in IH |- *. cbn [fold_left].
    destruct (IH (csv_step unicode_decimal int_max_str_digits acc nl))
      as (Hl & Hd & Hp & Hc & Ht).
    rewrite Hl, Hd, Hp, Hc, Ht. clear Hl Hd Hp Hc Ht IH.
    rewrite omap_cons. unfold csv_step.
    change (parse_line unicode_decimal int_max_str_digits nl.1 nl.2)
      with (parse_cue nl).
    generalize (omap parse_cue rest). intros new.
    destruct (parse_cue nl) as [ld|]; [|repeat split; lia].
    unfold dialogue.
    destruct (is_pause ld) eqn:Hpause; cbn [acc_lines acc_dialogue_lines
      acc_pause_lines acc_total_chars acc_total_duration List.filter length map Zsum foldr];
      rewrite Hpause; cbn [negb length map Zsum foldr];
      rewrite <- app_assoc; repeat split; try reflexivity; unfold Zsum; try lia.
Qed.

(** The function in terms of the cues of the well-formed lines: the
    statistics are computed from their counts and sums, and the function
    returns when none of these computations raises. *)
Lemma extract_csv_data_unfold (file : list Py.str) :
  let new := omap parse_cue (enumerate1 file) in
  let n := Z.of_nat (length (dialogue new)) in
  let chars := Zsum (map (fun ld => Z.of_nat (length (text ld))) (dialogue new)) in
  let total := Zsum (map duration (dialogue new)) in
  _extract_csv_data unicode_decimal int_max_str_digits file
  = (average chars n ≫= fun avg_chars =>
     average total n ≫= fun avg_duration_frames =>
     frames_to_seconds (Py.Int total) ≫= fun total_duration_seconds =>
     (if 0 <? n
      then Py.int_truediv total n ≫= fun q => Py.Float <$> frames_to_seconds (Py.Float q)
      else Some (Py.Int 0)) ≫= fun avg_duration_seconds =>
     Some {| lines := new;
             stats :=
               {| total_lines := length new;
                  dialogue_lines := n;
                  pause_lines := Z.of_nat (length new) - n;
                  total_chars := chars;
                  avg_chars := avg_chars;
                  total_duration_frames := total;
                  avg_duration_frames := avg_duration_frames;
                  total_duration_seconds := total_duration_seconds;
                  avg_duration_seconds := avg_duration_seconds |} |}).
Proof.
  cbv zeta. unfold _extract_csv_data, csv_loop. cbv zeta.
  destruct (csv_fold_spec (enumerate1 file)
              {| acc_lines := []; acc_dialogue_lines := 0; acc_pause_lines := 0;
                 acc_total_chars := 0; acc_total_duration := 0 |})
    as (Hl & Hd & Hp & Hc & Ht).
  cbn [acc_lines acc_dialogue_lines acc_pause_lines acc_total_chars acc_total_duration app]
    in Hl, Hd, Hp, Hc, Ht.
  rewrite Hl, Hd, Hp, Hc, Ht, !Z.add_0_l. reflexivity.
Qed.

(** What a result of the function holds. *)
Lemma extract_csv_data_Some (file : list Py.str) (d : csv_data) :
  _extract_csv_data unicode_decimal int_max_str_digits file = Some d ->
  let new := omap parse_cue (enumerate1 file) in
  let n := Z.of_nat (length (dialogue new)) in
  let chars := Zsum (map (fun ld => Z.of_nat (length (text ld))) (dialogue new)) in
  let total := Zsum (map duration (dialogue new)) in
  lines d = new
  /\ total_lines (stats d) = length new
  /\ dialogue_lines (stats d) = n
  /\ pause_lines (stats d) = Z.of_nat (length new) - n
  /\ total_chars (stats d) = chars
  /\ total_duration_frames (stats d) = total
  /\ average chars n = Some (avg_chars (stats d))
  /\ average total n = Some (avg_duration_frames (stats d))
  /\ frames_to_seconds (Py.Int total) = Some (total_duration_seconds (stats d))
  /\ (if 0 <? n
      then Py.int_truediv total n ≫= fun q => Py.Float <$> frames_to_seconds (Py.Float q)
      else Some (Py.Int 0)) = Some (avg_duration_seconds (stats d)).
Proof.
  rewrite extract_csv_data_unfold. cbv zeta.
  destruct (average (Zsum (map (fun ld => Z.of_nat _) _)) _) as [a|];
    [|intros H; discriminate H].
  destruct (average (Zsum (map duration _)) _) as [b|]; [|intros H; discriminate H].
  destruct (frames_to_seconds _) as [c|]; [|intros H; discriminate H].
  cbn [mbind option_bind].
  destruct (if 0 <? _ then _ else _) as [e|]; [|intros H; discriminate H].
  intros H. apply (inj Some) in H. subst d.
  cbn [lines stats total_lines dialogue_lines pause_lines total_chars avg_chars
         total_duration_frames avg_duration_frames total_duration_seconds
         avg_duration_seconds].
  split_and!; reflexivity.
Qed.

Lemma enumerate1_lookup {A} (l : list A) (i n : nat) (x : A) :
  enumerate1 l !! i = Some (n, x) <-> n = S i /\ l !! i = Some x.
Proof.
  unfold enumerate1. split.
  - intros H. apply lookup_zip_with_Some in H as (a & b & Heq & Ha & Hb).
    inversion Heq; subst. apply lookup_seq in Ha as [-> _]. auto.
  - intros [-> Hx]. apply lookup_zip_with_Some. exists (S i), x.
    repeat split; [|exact Hx].
    apply lookup_seq. split; [reflexivity|]. eapply lookup_lt_Some; eauto.
Qed.

(** The numbered lines of a file around one of its lines. *)
Lemma enumerate1_middle {A} (before after : list A) (x : A) :
  exists numbered_before numbered_after,
    forall y, enumerate1 (before ++ y :: after)
              = numbered_before ++ (S (length before), y) :: numbered_after.
Proof.
  exists (zip (seq 1 (length before)) before),
         (zip (seq (S (S (length before))) (length after)) after).
  intros y. unfold enumerate1. rewrite length_app. cbn [length].
  rewrite seq_app. cbn [seq Nat.add].
  rewrite zip_with_app by (rewrite length_seq; reflexivity).
  reflexivity.
Qed.

(** What [parse_line] puts in a cue. *)
Lemma parse_line_fields (n : nat) (line : Py.str) (ld : line_data) :
  parse_line unicode_decimal int_max_str_digits n line = Some ld ->
  line_id ld = n
  /\ is_pause ld = (start_time ld =? -1) && (end_time ld =? -1)
  /\ duration ld
     = (if negb (start_time ld =? -1) && negb (end_time ld =? -1)
        then end_time ld - start_time ld else 0)
  /\ exists part0 part1 rest,
       Py.split 44 2 (Py.strip line) = part0 :: part1 :: text ld :: rest
       /\ Py.int unicode_decimal int_max_str_digits part0 = Some (start_time ld)
       /\ Py.int unicode_decimal int_max_str_digits part1 = Some (end_time ld).
Proof.
  unfold parse_line. intros H.
  destruct (negb (Py.truthy (Py.strip line))); [discriminate|].
  destruct (Py.split 44 2 (Py.strip line)) as [|p0 [|p1 [|p2 rest]]] eqn:Hs;
    try discriminate.
  destruct (Py.int unicode_decimal int_max_str_digits p0) as [s|] eqn:H0; [|discriminate].
  destruct (Py.int unicode_decimal int_max_str_digits p1) as [e|] eqn:H1; [|discriminate].
  inversion H; subst; simpl. repeat split; eauto 10.
Qed.

(** A line that splits in three parts whose first two are integers gives its
    cue. *)
Lemma parse_line_accepts (n : nat) (line part0 part1 part2 : Py.str) (rest : list Py.str)
    (s e : Z) :
  Py.strip line <> [] ->
  Py.split 44 2 (Py.strip line) = part0 :: part1 :: part2 :: rest ->
  Py.int unicode_decimal int_max_str_digits part0 = Some s ->
  Py.int unicode_decimal int_max_str_digits part1 = Some e ->
  parse_line unicode_decimal int_max_str_digits n line
  = Some {| line_id := n; start_time := s; end_time := e; text := part2;
            duration := if negb (s =? -1) && negb (e =? -1) then e - s else 0;
            is_pause := (s =? -1) && (e =? -1) |}.
Proof.
  intros Hne Hs H0 H1. unfold parse_line. cbv zeta.
  destruct (Py.strip line) as [|c l] eqn:E; [congruence|].
  cbn [Py.truthy negb]. rewrite Hs, H0, H1. reflexivity.
Qed.

End TimedCues.

Section TimedCueClaims.

Import kurohyou_csv_extractor.

Variable unicode_decimal : Z -> option Z.
Variable int_max_str_digits : nat.

Local Abbreviation parse := (parse_line unicode_decimal int_max_str_digits).
Local Abbreviation parse_cue := (parse_numbered unicode_decimal int_max_str_digits).
Local Abbreviation extract := (_extract_csv_data unicode_decimal int_max_str_digits).
Local Abbreviation int_of := (Py.int unicode_decimal int_max_str_digits).


Lemma frames_to_seconds_int (z : Z) :
  frames_to_seconds (Py.Int z)
  = if 0 <? z
    then (fun f => SFdiv 53 1024 f KUROHYOU_FPS) <$> Py.float_of_int z
    else Some (S754_zero false).
Proof.
  unfold frames_to_seconds. cbn [Py.gt_zero]. destruct (0 <? z); [|reflexivity].
  unfold Py.truediv. destruct (Py.float_of_int z); reflexivity.
Qed.

(** The cues of a file do not depend on a line that gives no cue. *)
Lemma skipped_line_changes_nothing (before after : list Py.str) (line : Py.str) :
  parse (S (length before)) line = None ->
  extract (before ++ line :: after) = extract (before ++ [] :: after).
Proof.
  intros Hnone.
  rewrite !extract_csv_data_unfold. cbv zeta.
  destruct (enumerate1_middle before after (@nil Z)) as (nb & na & Hen).
  assert (Hcues : forall y, parse (S (length before)) y = None ->
            omap parse_cue (enumerate1 (before ++ y :: after))
            = omap parse_cue nb ++ omap parse_cue na).
  { intros y Hy. rewrite Hen, omap_app, omap_cons. unfold parse_numbered at 2.
    cbn [fst snd]. rewrite Hy. reflexivity. }
  rewrite (Hcues line Hnone), (Hcues [] eq_refl). reflexivity.
Qed.

(** C8.  The line ["542,596,マジでヤル気なのかよ？"] gives the cue with start 542,
    end 596, duration 54 that is not a pause; ["-1,-1,……"] gives a pause of
    duration 0; ["abc,def,text"] gives no cue.  In general a line with fewer
    than three comma-separated parts, or whose first or second part is not an
    integer, gives no cue; nothing is raised for it: the file gives what it
    gives with a blank line in its place, and what the function returns holds
    exactly the cues of the other lines, in file order. *)
Theorem cue_normalization_accepts_and_skips :
  (forall n, parse n (Py.lit "542,596,マジでヤル気なのかよ？")
             = Some {| line_id := n; start_time := 542; end_time := 596;
                       text := Py.lit "マジでヤル気なのかよ？";
                       duration := 54; is_pause := false |})
  /\ (forall n, parse n (Py.lit "-1,-1,……")
                = Some {| line_id := n; start_time := -1; end_time := -1;
                          text := Py.lit "……"; duration := 0; is_pause := true |})
  /\ (forall n, parse n (Py.lit "abc,def,text") = None)
  /\ (forall n line,
        (length (Py.split 44 2 (Py.strip line)) < 3)%nat -> parse n line = None)
  /\ (forall n line part0 part1 rest,
        Py.split 44 2 (Py.strip line) = part0 :: part1 :: rest ->
        int_of part0 = None \/ int_of part1 = None ->
        parse n line = None)
  /\ (forall before line after,
        parse (S (length before)) line = None ->
        extract (before ++ line :: after) = extract (before ++ [] :: after))
  /\ (forall file d,
        extract file = Some d -> lines d = omap parse_cue (enumerate1 file))
  /\ (exists d,
        extract [Py.lit "542,596,マジでヤル気なのかよ？"; Py.lit "abc,def,text";
                 Py.lit "-1,-1,……"] = Some d
        /\ lines d
           = [{| line_id := 1; start_time := 542; end_time := 596;
                 text := Py.lit "マジでヤル気なのかよ？";
                 duration := 54; is_pause := false |};
              {| line_id := 3; start_time := -1; end_time := -1;
                 text := Py.lit "……"; duration := 0; is_pause := true |}]).
Proof.
  split_and!.
  - intros n. vm_compute. reflexivity.
  - intros n. vm_compute. reflexivity.
  - intros n. vm_compute. reflexivity.
  - intros n line Hlen. unfold parse_line.
    destruct (negb (Py.truthy (Py.strip line))); [reflexivity|].
    destruct (Py.split 44 2 (Py.strip line)) as [|p0 [|p1 [|p2 rest]]];
      try reflexivity. simpl in Hlen. lia.
  - intros n line part0 part1 rest Hs Hint. unfold parse_line.
    destruct (negb (Py.truthy (Py.strip line))); [reflexivity|].
    rewrite Hs. destruct rest as [|p2 rest]; [reflexivity|].
    destruct Hint as [-> | H1]; [reflexivity|].
    rewrite H1. destruct (int_of part0); reflexivity.
  - intros before line after. apply skipped_line_changes_nothing.
  - intros file d H. apply extract_csv_data_Some in H. apply H.
  - eexists. split; vm_compute; reflexivity.
Qed.

(** C3, as the code has it.  For every cue of a result: it is a pause
    exactly when both frames are -1; its duration is end minus start when
    neither frame is -1 and 0 otherwise.  No line is rejected for its
    duration: every line that is not blank and splits in three parts whose
    first two are integers gives its cue, also when its end frame precedes
    its start frame, and the cue is in the result the function returns. *)
Theorem cue_duration_as_computed (file : list Py.str) :
  (forall d cue, extract file = Some d -> In cue (lines d) ->
     (is_pause cue = true <-> start_time cue = -1 /\ end_time cue = -1)
     /\ (start_time cue <> -1 -> end_time cue <> -1 ->
         duration cue = end_time cue - start_time cue)
     /\ (start_time cue = -1 \/ end_time cue = -1 -> duration cue = 0))
  /\ (forall i line part0 part1 part2 rest s e,
        file !! i = Some line ->
        Py.strip line <> [] ->
        Py.split 44 2 (Py.strip line) = part0 :: part1 :: part2 :: rest ->
        int_of part0 = Some s -> int_of part1 = Some e ->
        let cue := {| line_id := S i; start_time := s; end_time := e; text := part2;
                      duration := if negb (s =? -1) && negb (e =? -1) then e - s else 0;
                      is_pause := (s =? -1) && (e =? -1) |} in
        parse (S i) line = Some cue
        /\ (s <> -1 -> e <> -1 -> e < s -> duration cue < 0)
        /\ forall d, extract file = Some d -> In cue (lines d)).
Proof.
  split.
  - intros d cue Hd Hin. apply extract_csv_data_Some in Hd as (Hl & _).
    rewrite Hl in Hin.
    apply list_elem_of_In, list_elem_of_omap in Hin as ([n line] & _ & Hp).
    apply parse_line_fields in Hp as (_ & Hpause & Hdur & _).
    rewrite Hpause, Hdur. clear Hpause Hdur.
    destruct (Z.eqb_spec (start_time cue) (-1)), (Z.eqb_spec (end_time cue) (-1));
      simpl; repeat split; try tauto; try lia; intros [? ?]; try lia; discriminate.
  - intros i line part0 part1 part2 rest s e Hline Hne Hs H0 H1. cbv zeta.
    pose proof (parse_line_accepts unicode_decimal int_max_str_digits (S i) line
                  part0 part1 part2 rest s e Hne Hs H0 H1) as Hp.
    split_and!.
    + exact Hp.
    + intros Hs1 He1 Hlt. cbn [duration].
      destruct (Z.eqb_spec s (-1)); [lia|]. destruct (Z.eqb_spec e (-1)); [lia|].
      cbn [negb andb]. lia.
    + intros d Hd. apply extract_csv_data_Some in Hd as (Hl & _). rewrite Hl.
      apply list_elem_of_In, list_elem_of_omap. exists (S i, line). split; [|exact Hp].
      apply list_elem_of_lookup. exists i. apply enumerate1_lookup. auto.
Qed.


End TimedCueClaims.

(** The witness of C8: the second line of the script's own malformed-data
    test has two parts only. *)
Lemma cue_normalization_accepts_and_skips_witness :
  kurohyou_csv_extractor.parse_line (fun _ => None) 4300 2 (Py.lit "malformado,sin") = None.
Proof.
  apply (proj1 (proj2 (proj2 (proj2
           (cue_normalization_accepts_and_skips (fun _ => None) 4300))))).
  vm_compute. lia.
Defined.



(** The statistics of the two cues that the export test of the repository
    uses as its data: the averages are the floats 11.0 and 54.0, the
    durations in seconds the float nearest to 1.8. *)
Example export_test_statistics :
  kurohyou_csv_extractor._extract_csv_data (fun _ => None) 4300
    [Py.lit "542,596,マジでヤル気なのかよ？"; Py.lit "-1,-1,……"]
  = Some
      {| kurohyou_csv_extractor.lines :=
           [{| kurohyou_csv_extractor.line_id := 1;
               kurohyou_csv_extractor.start_time := 542;
               kurohyou_csv_extractor.end_time := 596;
               kurohyou_csv_extractor.text := Py.lit "マジでヤル気なのかよ？";
               kurohyou_csv_extractor.duration := 54;
               kurohyou_csv_extractor.is_pause := false |};
            {| kurohyou_csv_extractor.line_id := 2;
               kurohyou_csv_extractor.start_time := -1;
               kurohyou_csv_extractor.end_time := -1;
               kurohyou_csv_extractor.text := Py.lit "……";
               kurohyou_csv_extractor.duration := 0;
               kurohyou_csv_extractor.is_pause := true |}];
         kurohyou_csv_extractor.stats :=
           {| kurohyou_csv_extractor.total_lines := 2;
              kurohyou_csv_extractor.dialogue_lines := 1;
              kurohyou_csv_extractor.pause_lines := 1;
              kurohyou_csv_extractor.total_chars := 11;
              kurohyou_csv_extractor.avg_chars :=
                Py.Float (S754_finite false 6192449487634432 (-49));
              kurohyou_csv_extractor.total_duration_frames := 54;
              kurohyou_csv_extractor.avg_duration_frames :=
                Py.Float (S754_finite false 7599824371187712 (-47));
              kurohyou_csv_extractor.total_duration_seconds :=
                S754_finite false 8106479329266893 (-52);
              kurohyou_csv_extractor.avg_duration_seconds :=
                Py.Float (S754_finite false 8106479329266893 (-52)) |} |}.
Proof. vm_compute. reflexivity. Qed.

(** The witness of C3: a file whose one line runs backwards. *)
Lemma cue_duration_as_computed_witness :
  kurohyou_csv_extractor.parse_line (fun _ => None) 4300 1 (Py.lit "10,5,x")
  = Some {| kurohyou_csv_extractor.line_id := 1;
            kurohyou_csv_extractor.start_time := 10;
            kurohyou_csv_extractor.end_time := 5;
            kurohyou_csv_extractor.text := Py.lit "x";
            kurohyou_csv_extractor.duration := -5;
            kurohyou_csv_extractor.is_pause := false |}.
Proof.
  apply (proj2 (cue_duration_as_computed (fun _ => None) 4300 [Py.lit "10,5,x"]) 0%nat
           (Py.lit "10,5,x") (Py.lit "10") (Py.lit "5") (Py.lit "x") [] 10 5);
    vm_compute; first [reflexivity | discriminate].
Defined.

(** C3 as stated fails: the line ["10,5,x"] is kept with duration -5, and the
    line ["-1,7,y"] is not a pause and has duration 0, not 8. *)
Lemma negative_duration_is_not_rejected :
  ~ (exists unicode_decimal int_max_str_digits,
       forall d cue,
         kurohyou_csv_extractor._extract_csv_data unicode_decimal int_max_str_digits
           [Py.lit "10,5,x"; Py.lit "-1,7,y"] = Some d ->
         In cue (kurohyou_csv_extractor.lines d) ->
         kurohyou_csv_extractor.is_pause cue = false ->
         kurohyou_csv_extractor.duration cue
           = kurohyou_csv_extractor.end_time cue - kurohyou_csv_extractor.start_time cue
         /\ 0 <= kurohyou_csv_extractor.duration cue).
Proof.
  intros (ud & m & H).
  assert (E : exists d,
            kurohyou_csv_extractor._extract_csv_data ud m
              [Py.lit "10,5,x"; Py.lit "-1,7,y"] = Some d
            /\ kurohyou_csv_extractor.lines d
               = [{| kurohyou_csv_extractor.line_id := 1;
                     kurohyou_csv_extractor.start_time := 10;
                     kurohyou_csv_extractor.end_time := 5;
                     kurohyou_csv_extractor.text := Py.lit "x";
                     kurohyou_csv_extractor.duration := -5;
                     kurohyou_csv_extractor.is_pause := false |};
                  {| kurohyou_csv_extractor.line_id := 2;
                     kurohyou_csv_extractor.start_time := -1;
                     kurohyou_csv_extractor.end_time := 7;
                     kurohyou_csv_extractor.text := Py.lit "y";
                     kurohyou_csv_extractor.duration := 0;
                     kurohyou_csv_extractor.is_pause := false |}])
    by (eexists; split; vm_compute; reflexivity).
  destruct E as (d & E & Hl).
  destruct (H d _ E ltac:(rewrite Hl; left; reflexivity) eq_refl) as [_ Hneg].
  cbn [kurohyou_csv_extractor.duration] in Hneg. lia.
Qed.

(** ** Frames to wall-clock time *)

Section FrameConversions.

Import kurohyou_csv_extractor.

Lemma string_append_assoc (a b c : string) : ((a ++ b) ++ c = a ++ (b ++ c))%string.
Proof.
  induction a as [|x a IH]; [reflexivity|].
  change (String x ((a ++ b) ++ c) = String x (a ++ (b ++ c)))%string.
  rewrite IH. reflexivity.
Qed.

(** A result that is rounded with the sign [+] is not negative, and one
    rounded with the sign [-] is not positive. *)
Lemma binary_round_aux_plus (m e : Z) (l : location) :
  not_negative (binary_round_aux 53 1024 false m e l).
Proof.
  unfold not_negative, binary_round_aux.
  destruct (shr_fexp 53 1024 m e l) as [mrs' e'].
  destruct (shr_fexp 53 1024 _ e' loc_Exact) as [mrs'' e''].
  destruct (shr_m mrs''); [reflexivity | | reflexivity].
  destruct (_ <=? _)%Z; reflexivity.
Qed.

Lemma binary_round_aux_minus (m e : Z) (l : location) :
  Py.gt_zero (Py.Float (binary_round_aux 53 1024 true m e l)) = false.
Proof.
  unfold binary_round_aux. cbn [Py.gt_zero].
  destruct (shr_fexp 53 1024 m e l) as [mrs' e'].
  destruct (shr_fexp 53 1024 _ e' loc_Exact) as [mrs'' e''].
  destruct (shr_m mrs''); [reflexivity | | reflexivity].
  destruct (_ <=? _)%Z; reflexivity.
Qed.

Lemma finite_or_raise_Some (f g : Py.float) :
  Py.finite_or_raise f = Some g -> g = f.
Proof. destruct f; cbn; congruence. Qed.

(** The [float] of a positive [int] is positive or +0.0. *)
Lemma float_of_int_plus (z : Z) (f : Py.float) :
  0 < z -> Py.float_of_int z = Some f ->
  not_negative f /\ exists m e l, f = binary_round_aux 53 1024 false m e l.
Proof.
  intros Hz H. apply finite_or_raise_Some in H. subst f.
  destruct z as [|p|p]; try lia. cbn [binary_normalize]. unfold binary_round.
  destruct (shl_align _ _ _) as [mz ez].
  split; [apply binary_round_aux_plus | eauto].
Qed.

(** Dividing and multiplying what is not negative by a positive constant. *)
Lemma div_by_fps_plus (m e : Z) (l : location) :
  not_negative (SFdiv 53 1024 (binary_round_aux 53 1024 false m e l) KUROHYOU_FPS).
Proof.
  destruct (binary_round_aux 53 1024 false m e l) as [s|s| |s mx ex] eqn:E.
  - destruct s; reflexivity.
  - destruct s; [|reflexivity].
    pose proof (binary_round_aux_plus m e l) as H. rewrite E in H. discriminate H.
  - reflexivity.
  - destruct s.
    + pose proof (binary_round_aux_plus m e l) as H. rewrite E in H. discriminate H.
    + unfold SFdiv, KUROHYOU_FPS.
      destruct (SFdiv_core_binary _ _ _ _ _ _) as [[mz ez] lz].
      apply binary_round_aux_plus.
Qed.

Lemma mul_by_thousand_plus (f g : Py.float) :
  not_negative f -> Py.mul_int f 1000 = Some g -> not_negative g.
Proof.
  intros Hf. unfold Py.mul_int.
  change (Py.float_of_int 1000) with (Some (S754_finite false 8796093022208000 (-43))).
  cbn [fmap option_fmap option_map]. intros H. apply (inj Some) in H. subst g.
  destruct f as [[|]|[|]| |[|] mx ex]; try discriminate Hf; try reflexivity.
  unfold SFmul. cbn [xorb]. apply binary_round_aux_plus.
Qed.

(** The seconds of any number are not negative. *)
Lemma frames_to_seconds_not_negative (frames : Py.number) (f : Py.float) :
  frames_to_seconds frames = Some f -> not_negative f.
Proof.
  unfold frames_to_seconds.
  destruct (Py.gt_zero frames) eqn:Hpos;
    [|intros H; apply (inj Some) in H; subst f; reflexivity].
  destruct frames as [z|q].
  - cbn [Py.gt_zero] in Hpos. apply Z.ltb_lt in Hpos. unfold Py.truediv.
    destruct (Py.float_of_int z) as [x|] eqn:Ex; [|discriminate].
    destruct (float_of_int_plus z x Hpos Ex) as (_ & m & e & l & ->).
    cbn [mbind option_bind Py.float_truediv KUROHYOU_FPS].
    intros H. apply (inj Some) in H. subst f. apply div_by_fps_plus.
  - cbn [Py.gt_zero] in Hpos. cbn [Py.truediv Py.float_truediv KUROHYOU_FPS].
    intros H. apply (inj Some) in H. subst f.
    destruct q as [[|]|[|]| |[|] mx ex]; try discriminate Hpos; try reflexivity.
    unfold SFdiv, KUROHYOU_FPS.
    destruct (SFdiv_core_binary _ _ _ _ _ _) as [[mz ez] lz].
    apply binary_round_aux_plus.
Qed.

(** The quotient of a total that is not positive by a positive count is not
    positive, and its seconds are 0.0. *)
Lemma int_truediv_not_positive (total n : Z) (q : Py.float) :
  total <= 0 -> 0 < n -> Py.int_truediv total n = Some q ->
  frames_to_seconds (Py.Float q) = Some (S754_zero false).
Proof.
  intros Ht Hn. unfold Py.int_truediv.
  destruct (Z.eqb_spec n 0); [lia|].
  destruct (Z.eqb_spec total 0) as [->|Hne].
  - intros Hq. apply (inj Some) in Hq. subst q.
    destruct (Z.ltb_spec n 0); [lia|]. reflexivity.
  - destruct (Z.ltb_spec total 0); [|lia]. destruct (Z.ltb_spec n 0); [lia|].
    intros Hq. apply finite_or_raise_Some in Hq. subst q.
    unfold frames_to_seconds, SFdiv.
    destruct (SFdiv_core_binary _ _ _ _ _ _) as [[mz ez] lz].
    cbn [xorb]. rewrite binary_round_aux_minus. reflexivity.
Qed.

(** The conversions of a positive [int]. *)
Lemma frames_to_seconds_positive (n : Z) :
  0 < n ->
  frames_to_seconds (Py.Int n)
  = (fun f => SFdiv 53 1024 f KUROHYOU_FPS) <$> Py.float_of_int n.
Proof.
  intros Hn. unfold frames_to_seconds. cbn [Py.gt_zero].
  destruct (Z.ltb_spec 0 n); [|lia]. unfold Py.truediv.
  destruct (Py.float_of_int n); reflexivity.
Qed.

Lemma frames_to_milliseconds_positive (n : Z) :
  0 < n ->
  frames_to_milliseconds (Py.Int n)
  = frames_to_seconds (Py.Int n) ≫= fun q => Py.mul_int q 1000.
Proof.
  intros Hn. unfold frames_to_milliseconds, frames_to_seconds. cbn [Py.gt_zero].
  destruct (Z.ltb_spec 0 n); [reflexivity | lia].
Qed.

(** C10, as the code has it.  For a frame count [n <= 0] the conversions give
    0.0 seconds, 0.0 milliseconds and the text ["0 frames"].  For [n > 0]
    that has a [float] they give the floats [n / 30.0] and
    [(n / 30.0) * 1000], neither of them negative, and the count followed by
    a time: in milliseconds for [n < 30], and as the test of the repository
    shows for its seven counts.  For [n > 0] that has no [float] all three
    raise. *)
Theorem frame_conversions_clamp_at_zero (n : Z) :
  (n <= 0 ->
   frames_to_seconds (Py.Int n) = Some (S754_zero false)
   /\ frames_to_milliseconds (Py.Int n) = Some (S754_zero false)
   /\ format_duration n = Some "0 frames"%string)
  /\ (0 < n ->
      match Py.float_of_int n with
      | Some f =>
          let seconds := SFdiv 53 1024 f KUROHYOU_FPS in
          frames_to_seconds (Py.Int n) = Some seconds
          /\ Py.mul_int seconds 1000 = frames_to_milliseconds (Py.Int n)
          /\ not_negative seconds
          /\ (exists ms, frames_to_milliseconds (Py.Int n) = Some ms /\ not_negative ms)
          /\ (exists time,
                format_duration n
                = Some (Py.str_of_Z n ++ " frames (" ++ time ++ ")")%string)
      | None =>
          frames_to_seconds (Py.Int n) = None
          /\ frames_to_milliseconds (Py.Int n) = None
          /\ format_duration n = None
      end)
  /\ (0 < n < 30 ->
      exists ms,
        frames_to_milliseconds (Py.Int n) = Some ms
        /\ format_duration n
           = Some (Py.str_of_Z n ++ " frames (" ++ Py.format_float 0 ms ++ "ms)")%string)
  /\ map format_duration [5; 15; 30; 60; 90; 54; 95]
     = map Some ["5 frames (167ms)"; "15 frames (500ms)"; "30 frames (1.00s)";
                 "60 frames (2.00s)"; "90 frames (3.00s)"; "54 frames (1.80s)";
                 "95 frames (3.17s)"]%string.
Proof.
  split_and!.
  - intros Hn. unfold frames_to_seconds, frames_to_milliseconds, format_duration.
    cbn [Py.gt_zero].
    destruct (Z.ltb_spec 0 n); [lia|]. destruct (Z.leb_spec n 0); [|lia].
    split_and!; reflexivity.
  - intros Hn.
    rewrite (frames_to_milliseconds_positive n Hn).
    unfold format_duration. destruct (Z.leb_spec n 0) as [|_]; [lia|].
    rewrite (frames_to_milliseconds_positive n Hn), (frames_to_seconds_positive n Hn).
    destruct (Py.float_of_int n) as [f|] eqn:Ef; cbn [fmap option_fmap option_map
      mbind option_bind]; [|split_and!; reflexivity].
    cbv zeta.
    destruct (float_of_int_plus n f Hn Ef) as (_ & m & e & l & ->).
    pose proof (div_by_fps_plus m e l) as Hs.
    set (seconds := SFdiv 53 1024 _ KUROHYOU_FPS) in *.
    assert (Hms : exists ms, Py.mul_int seconds 1000 = Some ms /\ not_negative ms).
    { unfold Py.mul_int.
      change (Py.float_of_int 1000) with (Some (S754_finite false 8796093022208000 (-43))).
      cbn [fmap option_fmap option_map]. eexists. split; [reflexivity|].
      eapply mul_by_thousand_plus; [exact Hs|]. unfold Py.mul_int.
      change (Py.float_of_int 1000) with (Some (S754_finite false 8796093022208000 (-43))).
      reflexivity. }
    destruct Hms as (ms & Hms & Hmsn).
    split_and!; [reflexivity | reflexivity | exact Hs | eauto|].
    rewrite Hms. cbn [option_bind].
    destruct (Py.lt_one seconds).
    + exists (Py.format_float 0 ms ++ "ms")%string.
      rewrite (string_append_assoc (Py.format_float 0 ms)). reflexivity.
    + exists (Py.format_float 2 seconds ++ "s")%string.
      rewrite (string_append_assoc (Py.format_float 2 seconds)). reflexivity.
  - intros Hn.
    assert (Hin : In n (map Z.of_nat (seq 1 29))).
    { apply in_map_iff. exists (Z.to_nat n). split; [lia|]. apply in_seq. lia. }
    assert (Hall : forallb
              (fun k => match frames_to_milliseconds (Py.Int k), format_duration k with
                        | Some ms, Some shown =>
                            String.eqb shown
                              (Py.str_of_Z k ++ " frames ("
                               ++ Py.format_float 0 ms ++ "ms)")%string
                        | _, _ => false
                        end) (map Z.of_nat (seq 1 29)) = true)
      by (vm_compute; reflexivity).
    rewrite forallb_forall in Hall. specialize (Hall n Hin).
    destruct (frames_to_milliseconds (Py.Int n)) as [ms|]; [|discriminate].
    destruct (format_duration n) as [shown|]; [|discriminate].
    apply String.eqb_eq in Hall. subst shown. eauto.
  - vm_compute. reflexivity.
Qed.

End FrameConversions.

(** C10 as stated fails for the counts that are not multiples the [float]
    holds: the seconds of one frame are [0x1.1111111111111p-5], which is not
    1/30; and for the count 2^1024 no value is returned at all. *)
Lemma conversions_are_rounded_and_can_raise :
  ~ (forall n f, 0 < n ->
       kurohyou_csv_extractor.frames_to_seconds (Py.Int n) = Some f ->
       (Py.float_abs_value f == n # 30)%Q)
  /\ ~ (forall n, 0 < n ->
          exists f, kurohyou_csv_extractor.frames_to_seconds (Py.Int n) = Some f).
Proof.
  split.
  - intros H.
    specialize (H 1 (S754_finite false 4803839602528529 (-57)) ltac:(lia)
                  ltac:(vm_compute; reflexivity)).
    vm_compute in H. discriminate H.
  - intros H. destruct (H (2 ^ 1024) ltac:(lia)) as [f Hf].
    assert (E : kurohyou_csv_extractor.frames_to_seconds (Py.Int (2 ^ 1024)) = None)
      by (vm_compute; reflexivity).
    rewrite E in Hf. discriminate Hf.
Qed.

(** ** Searching a buffer for a tag *)

Section Find.

Lemma starts_with_take (sub l : Py.bytes) :
  Py.starts_with sub l = true <-> take (length sub) l = sub.
Proof.
  revert l. induction sub as [|a sub IH]; intros l; simpl.
  - rewrite take_0. tauto.
  - destruct l as [|b l]; simpl; [split; discriminate|].
    rewrite andb_true_iff, IH. split.
    + intros [Hab ->]. apply Byte.byte_dec_bl in Hab. congruence.
    + intros H. injection H as Hb Hl.
      split; [apply Byte.byte_dec_lb; congruence | exact Hl].
Qed.

Lemma occurs_slice (sub data : Py.bytes) (q : nat) :
  occurs sub data q <-> Py.slice data q (q + length sub) = sub.
Proof.
  unfold occurs, Py.slice. rewrite starts_with_take.
  replace (q + length sub - q)%nat with (length sub) by lia. tauto.
Qed.

Lemma occurs_fits (sub data : Py.bytes) (q : nat) :
  sub <> [] -> occurs sub data q -> (q + length sub <= length data)%nat.
Proof.
  intros Hne H. apply starts_with_take in H.
  apply (f_equal length) in H. rewrite length_take, length_drop in H.
  destruct sub; [congruence|]. cbn [length] in *. lia.
Qed.

Lemma find_in_Some (sub l : Py.bytes) (pos p : nat) :
  Py.find_in sub l pos = Some p ->
  (pos <= p)%nat
  /\ Py.starts_with sub (drop (p - pos) l) = true
  /\ forall k, (k < p - pos)%nat -> Py.starts_with sub (drop k l) = false.
Proof.
  revert pos. induction l as [|b l IH]; intros pos; simpl.
  - destruct (Py.starts_with sub []) eqn:E; [|discriminate].
    intros [= <-]. rewrite Nat.sub_diag. simpl. split_and!; [lia | exact E | intros; lia].
  - destruct (Py.starts_with sub (b :: l)) eqn:E.
    + intros [= <-]. rewrite Nat.sub_diag. simpl. split_and!; [lia | exact E | intros; lia].
    + intros H. apply IH in H as (Hle & Hocc & Hnone).
      split_and!; [lia | |].
      * replace (p - pos)%nat with (S (p - S pos)) by lia. exact Hocc.
      * intros [|k] Hk; [exact E|]. simpl. apply Hnone. lia.
Qed.

Lemma find_in_None (sub l : Py.bytes) (pos : nat) :
  Py.find_in sub l pos = None -> forall k, Py.starts_with sub (drop k l) = false.
Proof.
  revert pos. induction l as [|b l IH]; intros pos; simpl.
  - destruct (Py.starts_with sub []) eqn:E; [discriminate|].
    intros _ k. rewrite drop_nil. exact E.
  - destruct (Py.starts_with sub (b :: l)) eqn:E; [discriminate|].
    intros H [|k]; [exact E|]. simpl. eapply IH; eauto.
Qed.

(** [data.find(sub, start)] returns the first occurrence from [start] on. *)
Lemma find_Some (sub data : Py.bytes) (start p : nat) :
  Py.find sub data start = Some p ->
  (start <= p)%nat /\ occurs sub data p
  /\ forall q, (start <= q < p)%nat -> ~ occurs sub data q.
Proof.
  unfold Py.find, occurs. destruct (start <=? length data)%nat; [|discriminate].
  intros H. apply find_in_Some in H as (Hle & Hocc & Hnone).
  rewrite drop_drop in Hocc. replace (start + (p - start))%nat with p in Hocc by lia.
  split_and!; [exact Hle | exact Hocc |].
  intros q Hq. specialize (Hnone (q - start)%nat). rewrite drop_drop in Hnone.
  replace (start + (q - start))%nat with q in Hnone by lia.
  rewrite Hnone; [discriminate | lia].
Qed.

Lemma find_None (sub data : Py.bytes) (start : nat) :
  sub <> [] -> Py.find sub data start = None ->
  forall q, (start <= q)%nat -> ~ occurs sub data q.
Proof.
  unfold Py.find. intros Hne H q Hq Hocc.
  destruct (Nat.leb_spec start (length data)) as [Hle | Hgt].
  - pose proof (find_in_None _ _ _ H (q - start)%nat) as Hn.
    rewrite drop_drop in Hn. replace (start + (q - start))%nat with q in Hn by lia.
    unfold occurs in Hocc. congruence.
  - apply occurs_fits in Hocc; [lia | exact Hne].
Qed.

Variable sub : Py.bytes.
Variable step : nat.
Hypothesis step_positive : (0 < step)%nat.

(** The offsets the loop records go up by [step] or more. *)
Lemma find_all_sorted (data : Py.bytes) (fuel start : nat) :
  StronglySorted (fun p q => (p + step <= q)%nat) (find_all fuel sub step data start)
  /\ Forall (fun p => (start <= p)%nat) (find_all fuel sub step data start).
Proof.
  revert start. induction fuel as [|fuel IH]; intros start; simpl.
  - split; constructor.
  - destruct (Py.find sub data start) as [p|] eqn:E; [|split; constructor].
    apply find_Some in E as (Hle & _).
    destruct (IH (p + step)%nat) as [Hs Hf]. split.
    + constructor; [exact Hs | exact Hf].
    + constructor; [exact Hle|].
      eapply Forall_impl; [exact Hf|]. intros q Hq. simpl in Hq. lia.
Qed.

(** Every recorded offset is an occurrence. *)
Lemma find_all_sound (data : Py.bytes) (fuel start q : nat) :
  In q (find_all fuel sub step data start) -> (start <= q)%nat /\ occurs sub data q.
Proof.
  revert start. induction fuel as [|fuel IH]; intros start; simpl; [tauto|].
  destruct (Py.find sub data start) as [p|] eqn:E; [|simpl; tauto].
  apply find_Some in E as (Hle & Hocc & _).
  intros [<- | Hin]; [auto|]. apply IH in Hin as [? ?]. split; [lia | assumption].
Qed.

(** The turns given to the loop are enough: more turns change nothing. *)
Lemma find_all_fuel (data : Py.bytes) (fuel start : nat) :
  (length data < fuel + start)%nat ->
  find_all (S fuel) sub step data start = find_all fuel sub step data start.
Proof.
  revert start. induction fuel as [|fuel IH]; intros start Hfuel.
  - cbn [find_all]. unfold Py.find.
    destruct (Nat.leb_spec start (length data)); [lia | reflexivity].
  - change (find_all (S (S fuel)) sub step data start)
      with (match Py.find sub data start with
            | None => []
            | Some pos => pos :: find_all (S fuel) sub step data (pos + step)
            end).
    change (find_all (S fuel) sub step data start)
      with (match Py.find sub data start with
            | None => []
            | Some pos => pos :: find_all fuel sub step data (pos + step)
            end).
    destruct (Py.find sub data start) as [p|] eqn:E; [|reflexivity].
    apply find_Some in E as (Hle & _). rewrite IH by lia. reflexivity.
Qed.

Hypothesis sub_nonempty : sub <> [].
Hypothesis sub_border_free : border_free sub step.

(** With enough turns the loop records every occurrence from [start] on. *)
Lemma find_all_complete (data : Py.bytes) (fuel start q : nat) :
  (length data < fuel + start)%nat ->
  (start <= q)%nat -> occurs sub data q ->
  In q (find_all fuel sub step data start).
Proof.
  revert start. induction fuel as [|fuel IH]; intros start Hfuel Hq Hocc.
  - apply occurs_fits in Hocc; [|exact sub_nonempty]. lia.
  - simpl. destruct (Py.find sub data start) as [p|] eqn:E.
    + apply find_Some in E as (Hle & Hp & Hfirst).
      destruct (Nat.eq_dec p q) as [-> | Hne]; [left; reflexivity|]. right.
      assert (Hpq : (p < q)%nat).
      { destruct (Nat.lt_ge_cases q p) as [Hlt | Hge]; [|lia].
        exfalso. apply (Hfirst q); [lia | exact Hocc]. }
      apply IH; [lia | | exact Hocc].
      destruct (Nat.lt_ge_cases q (p + step)) as [Hlt | Hge]; [|exact Hge].
      exfalso. unfold occurs in Hp, Hocc.
      pose proof (sub_border_free (drop p data) (q - p)%nat) as Hb.
      rewrite drop_drop in Hb. replace (p + (q - p))%nat with q in Hb by lia.
      rewrite Hb in Hocc; [discriminate | lia | exact Hp].
    + exfalso. eapply find_None; eauto.
Qed.

End Find.

(** ** The KSEQ blocks of a container *)

Section ContainerStructure.

Import analyze_pack_format.

Lemma KSEQ_border_free : border_free KSEQ 4.
Proof.
  intros l k Hk H. apply starts_with_take in H.
  destruct l as [|a [|b [|c [|d l]]]]; try discriminate.
  injection H as -> -> -> ->.
  destruct k as [|[|[|[|k]]]]; try lia; reflexivity.
Qed.

Lemma KSEQ_nonempty : KSEQ <> [].
Proof. discriminate. Qed.

Lemma kseq_positions_spec (data : Py.bytes) (q : nat) :
  In q (kseq_positions data) <-> occurs KSEQ data q.
Proof.
  unfold kseq_positions. split.
  - intros H. apply find_all_sound in H; [tauto | lia].
  - intros H. apply find_all_complete;
      first [exact KSEQ_nonempty | exact KSEQ_border_free | exact H | lia].
Qed.

Lemma kseq_sections_lookup (data : Py.bytes) (positions : list nat) (i : nat) :
  kseq_sections data positions !! i
  = (fun p => (p, Py.slice data p
                    (p + (default (length data) (positions !! S i) - p))))
      <$> positions !! i.
Proof.
  revert i. induction positions as [|p rest IH]; intros i; [reflexivity|].
  destruct i as [|i]; [|apply IH].
  simpl. destruct rest; reflexivity.
Qed.

Lemma sorted_lookup_lt (positions : list nat) (i : nat) (p q : nat) :
  StronglySorted (fun a b => (a + 4 <= b)%nat) positions ->
  positions !! i = Some p -> positions !! S i = Some q -> (p + 4 <= q)%nat.
Proof.
  intros Hs. revert i. induction Hs as [|a l Hs IH Hall]; intros i Hp Hq; [discriminate|].
  destruct i as [|i].
  - injection Hp as ->. simpl in Hq.
    rewrite Forall_forall in Hall. apply Hall.
    apply list_elem_of_lookup. eauto.
  - eapply IH; eauto.
Qed.

Lemma StronglySorted_weaken {A} (R R' : A -> A -> Prop) (l : list A) :
  (forall a b, R a b -> R' a b) -> StronglySorted R l -> StronglySorted R' l.
Proof.
  intros HR Hs. induction Hs as [|a l Hs IH Hall]; constructor; [exact IH|].
  eapply Forall_impl; [exact Hall|]. intros b. apply HR.
Qed.

(** C7.  The scanner records the offsets of the tag [KSEQ] in ascending
    order, four bytes or more apart; an offset is recorded exactly when the
    four bytes there are [KSEQ], so no occurrence is missed.  Block [i] runs
    from its offset to the next recorded offset, the last one to the end of
    the buffer.  A buffer without [KSEQ] gives no block, and the analysis of
    an ELPK container without [KSEQ] returns its result with no section. *)
Theorem kseq_scan_records_every_block (data : Py.bytes) :
  let positions := kseq_positions data in
  StronglySorted lt positions
  /\ StronglySorted (fun p q => (p + 4 <= q)%nat) positions
  /\ (forall q, In q positions <-> Py.slice data q (q + 4) = KSEQ)
  /\ (forall i p,
        positions !! i = Some p ->
        kseq_sections data positions !! i
        = Some (p, Py.slice data p (default (length data) (positions !! S i))))
  /\ ((forall q, Py.slice data q (q + 4) <> KSEQ) ->
      positions = []
      /\ kseq_sections data positions = []
      /\ (Py.slice data 0 4 = ELPK ->
          analyze_elpk_structure data
          = Some {| total_size := length data;
                    n_kseq_sections := 0;
                    japanese_texts := [] |})).
Proof.
  cbn zeta.
  assert (Hsorted : StronglySorted (fun p q => (p + 4 <= q)%nat) (kseq_positions data)).
  { apply find_all_sorted. lia. }
  assert (Hspec : forall q, In q (kseq_positions data) <-> Py.slice data q (q + 4) = KSEQ).
  { intros q. rewrite kseq_positions_spec. apply (occurs_slice KSEQ). }
  split_and!.
  - eapply StronglySorted_weaken; [|exact Hsorted]. intros p q Hpq. simpl in Hpq. lia.
  - exact Hsorted.
  - exact Hspec.
  - intros i p Hp. rewrite kseq_sections_lookup, Hp. simpl. do 3 f_equal.
    destruct (kseq_positions data !! S i) as [q|] eqn:Hq; simpl.
    + pose proof (sorted_lookup_lt _ _ _ _ Hsorted Hp Hq). lia.
    + assert (Hocc : occurs KSEQ data p).
      { apply kseq_positions_spec, list_elem_of_In, list_elem_of_lookup. eauto. }
      apply occurs_fits in Hocc; [|exact KSEQ_nonempty]. lia.
  - intros Hnone.
    assert (Hnil : kseq_positions data = []).
    { destruct (kseq_positions data) as [|q rest] eqn:E; [reflexivity|].
      exfalso. apply (Hnone q), Hspec. left. reflexivity. }
    rewrite Hnil. split_and!; [reflexivity | reflexivity |].
    intros Hmagic. unfold analyze_elpk_structure.
    rewrite bool_decide_eq_true_2 by exact Hmagic. rewrite Hnil. reflexivity.
Qed.

End ContainerStructure.

(** The witness of C7: the tag at offset 8 of a small container is recorded. *)
Lemma kseq_scan_records_every_block_witness :
  In 8%nat (analyze_pack_format.kseq_positions
              (ELPK ++ [x00; x01; x00; x00] ++ KSEQ ++ [x41; x42; x43; x00] ++ KSEQ)).
Proof.
  apply (proj1 (proj2 (proj2 (kseq_scan_records_every_block
           (ELPK ++ [x00; x01; x00; x00] ++ KSEQ ++ [x41; x42; x43; x00] ++ KSEQ))))).
  vm_compute. reflexivity.
Defined.

Example small_container_sections :
  let data := ELPK ++ [x00; x01; x00; x00] ++ KSEQ ++ [x41; x42; x43; x00] ++ KSEQ in
  analyze_pack_format.kseq_positions data = [8; 16]%nat
  /\ analyze_pack_format.kseq_sections data [8; 16]%nat
     = [(8%nat, KSEQ ++ [x41; x42; x43; x00]); (16%nat, KSEQ)]
  /\ analyze_pack_format.analyze_elpk_structure data
     = Some {| analyze_pack_format.total_size := 20;
               analyze_pack_format.n_kseq_sections := 2;
               analyze_pack_format.japanese_texts :=
                 [Py.lit "[JAPONÉS_CODIFICADO] KSEQABC";
                  Py.lit "[JAPONÉS_CODIFICADO] KSEQ"] |}.
Proof. vm_compute. split_and!; reflexivity. Qed.

(** ** Hexadecimal and UTF-16 round trips *)

Section Codecs.

Lemma byte_of_Z_val (b : byte) : Py.byte_of_Z (Py.byte_val b) = b.
Proof.
  unfold Py.byte_of_Z, Py.byte_val. rewrite N2Z.id, Byte.of_to_N. reflexivity.
Qed.

Lemma reads_back_all (b : byte) : reads_back b = true.
Proof.
  assert (H : forallb reads_back (map (fun n => Py.byte_of_Z (Z.of_nat n)) (seq 0 256)) = true)
    by (vm_compute; reflexivity).
  rewrite forallb_forall in H. apply H.
  apply in_map_iff. exists (N.to_nat (Byte.to_N b)). split.
  - rewrite N_nat_Z. apply byte_of_Z_val.
  - apply in_seq. pose proof (Byte.to_N_bounded b). lia.
Qed.

Lemma fromhex_two_digits (c d : ascii) (rest : string) :
  Py.fromhex (String c (String d rest))
  = if Py.ascii_space c then Py.fromhex (String d rest)
    else match Py.hex_value c, Py.hex_value d, Py.fromhex rest with
         | Some h, Some l, Some bs => Some (Py.byte_of_Z (Z.of_N (16 * h + l)) :: bs)
         | _, _, _ => None
         end.
Proof. reflexivity. Qed.

Lemma fromhex_hex_byte (b : byte) (rest : string) :
  Py.fromhex (Py.hex_byte_upper b ++ rest)
  = match Py.fromhex rest with Some bs => Some (b :: bs) | None => None end.
Proof.
  pose proof (reads_back_all b) as H. unfold reads_back in H.
  unfold Py.hex_byte_upper in *. cbv zeta in *.
  change (Py.fromhex (String (Py.hex_digit_upper (to_N b / 16))
                        (String (Py.hex_digit_upper (to_N b mod 16)) rest)) = 
          match Py.fromhex rest with Some bs => Some (b :: bs) | None => None end).
  rewrite fromhex_two_digits.
  apply andb_true_iff in H as [Hsp Hv]. apply negb_true_iff in Hsp. rewrite Hsp.
  destruct (Py.hex_value _) as [h|]; [|discriminate].
  destruct (Py.hex_value _) as [l|]; [|discriminate].
  apply Byte.byte_dec_bl in Hv. rewrite Hv. reflexivity.
Qed.

(** [bytes.fromhex(b.hex().upper()) == b] *)
Lemma fromhex_hex_upper (bs : Py.bytes) : Py.fromhex (Py.hex_upper bs) = Some bs.
Proof.
  induction bs as [|b bs IH]; [reflexivity|].
  cbn [Py.hex_upper]. rewrite fromhex_hex_byte, IH. reflexivity.
Qed.

Lemma byte_val_of_Z (z : Z) : 0 <= z < 256 -> Py.byte_val (Py.byte_of_Z z) = z.
Proof.
  intros Hz. unfold Py.byte_val, Py.byte_of_Z.
  destruct (Byte.of_N (Z.to_N z)) as [b|] eqn:E.
  - apply Byte.to_of_N in E. rewrite E. lia.
  - apply Byte.of_N_None_iff in E. lia.
Qed.

Lemma code_units_encode (s : Py.str) :
  Forall (fun c => 0 <= c < 0x10000) s ->
  Py.code_units (Py.encode_utf16_le_bmp s) = Some s.
Proof.
  induction 1 as [|c s Hc Hs IH]; [reflexivity|].
  cbn [Py.encode_utf16_le_bmp flat_map app Py.code_units].
  fold (Py.encode_utf16_le_bmp s). rewrite IH. simpl.
  rewrite !byte_val_of_Z.
  - do 2 f_equal. pose proof (Z.div_mod c 256). lia.
  - split; [apply Z.div_pos; lia | apply Z.div_lt_upper_bound; lia].
  - apply Z.mod_pos_bound. lia.
Qed.

Lemma scalars_one_unit (s : Py.str) : Forall one_unit s -> Py.scalars s = Some s.
Proof.
  induction 1 as [|c s (_ & Hh & Hl) Hs IH]; [reflexivity|].
  cbn [Py.scalars]. rewrite Hh, Hl, IH. reflexivity.
Qed.

(** [s.encode('utf-16-le').decode('utf-16-le') == s] *)
Lemma decode_encode (s : Py.str) :
  Forall one_unit s -> Py.decode_utf16_le (Py.encode_utf16_le_bmp s) = Some s.
Proof.
  intros Hs. unfold Py.decode_utf16_le. rewrite code_units_encode.
  - simpl. apply scalars_one_unit, Hs.
  - eapply Forall_impl; [exact Hs|]. intros c Hc. apply Hc.
Qed.

Lemma length_encode (s : Py.str) :
  length (Py.encode_utf16_le_bmp s) = (2 * length s)%nat.
Proof.
  induction s as [|c s IH]; [reflexivity|].
  cbn [Py.encode_utf16_le_bmp flat_map app length].
  fold (Py.encode_utf16_le_bmp s). rewrite IH. lia.
Qed.

Lemma take_encode (s : Py.str) (k : nat) :
  take (2 * k) (Py.encode_utf16_le_bmp s) = Py.encode_utf16_le_bmp (take k s).
Proof.
  revert k. induction s as [|c s IH]; intros k.
  - change (Py.encode_utf16_le_bmp []) with (@nil byte). rewrite !take_nil. reflexivity.
  - destruct k as [|k]; [reflexivity|].
    replace (2 * S k)%nat with (S (S (2 * k))) by lia.
    cbn [Py.encode_utf16_le_bmp flat_map app take].
    fold (Py.encode_utf16_le_bmp s). fold (Py.encode_utf16_le_bmp (take k s)).
    rewrite IH. reflexivity.
Qed.

End Codecs.

(** The fixture of [test_with_user_example]. *)
Example user_example_decodes :
  decode_utf16le_japanese
    "8D9F5F4E0000000008FF4F3063302620262055637E30633061307E3063305F3001FF09FF00000000"
  = Py.lit "龍也" ++ [0; 0] ++ Py.lit "（くっ……捕まっちまった！）".
Proof. vm_compute. reflexivity. Qed.

(** ** Stripping *)

Section Strip.

Variable p : Z -> bool.

Lemma rstrip_by_prefix (s : Py.str) :
  exists t, s = Py.rstrip_by p s ++ t /\ Forall (fun c => p c = true) t.
Proof.
  induction s as [|c s (t & Hs & Ht)]; [exists []; split; [reflexivity | constructor]|].
  unfold Py.rstrip_by in *. cbn [fold_right].
  destruct (p c) eqn:Hc; cbn [andb].
  - destruct (fold_right _ [] s) as [|d r] eqn:E; cbn [Py.truthy negb].
    + exists (c :: t). split; [simpl in *; congruence | constructor; assumption].
    + exists t. split; [simpl in *; congruence | assumption].
  - exists t. split; [simpl in *; congruence | assumption].
Qed.

Lemma rstrip_by_In (s : Py.str) (c : Z) : In c (Py.rstrip_by p s) -> In c s.
Proof.
  destruct (rstrip_by_prefix s) as (t & Hs & _). intros H.
  rewrite Hs. apply in_or_app. left. exact H.
Qed.

Lemma rstrip_by_keeps (s : Py.str) (c : Z) :
  In c s -> p c = false -> In c (Py.rstrip_by p s).
Proof.
  destruct (rstrip_by_prefix s) as (t & Hs & Ht). intros H Hc.
  rewrite Hs in H. apply in_app_or in H as [H | H]; [exact H|].
  rewrite Forall_forall in Ht. apply list_elem_of_In, Ht in H. congruence.
Qed.

Lemma lstrip_by_In (s : Py.str) (c : Z) : In c (Py.lstrip_by p s) -> In c s.
Proof.
  induction s as [|d s IH]; simpl; [tauto|].
  destruct (p d); [intros H; right; apply IH, H | tauto].
Qed.

Lemma lstrip_by_keeps (s : Py.str) (c : Z) :
  In c s -> p c = false -> In c (Py.lstrip_by p s).
Proof.
  induction s as [|d s IH]; simpl; [tauto|].
  intros [-> | H] Hc.
  - rewrite Hc. left. reflexivity.
  - destruct (p d); [apply IH; assumption | right; exact H].
Qed.

(** A string that does not end in a stripped character is left alone. *)
Lemma rstrip_by_id (s : Py.str) :
  (forall c, last s = Some c -> p c = false) -> Py.rstrip_by p s = s.
Proof.
  induction s as [|c s IH]; [reflexivity|]. intros Hlast.
  unfold Py.rstrip_by in *. cbn [fold_right].
  destruct s as [|d s].
  - simpl. rewrite (Hlast c) by reflexivity. reflexivity.
  - rewrite IH by (intros e He; apply Hlast; exact He).
    cbn [Py.truthy negb]. rewrite andb_false_r. reflexivity.
Qed.

Lemma lstrip_by_id (s : Py.str) :
  (forall c, head s = Some c -> p c = false) -> Py.lstrip_by p s = s.
Proof.
  destruct s as [|c s]; [reflexivity|]. intros H. simpl.
  rewrite (H c) by reflexivity. reflexivity.
Qed.

End Strip.

Lemma strip_keeps (s : Py.str) (c : Z) :
  In c s -> Py.isspace c = false -> In c (Py.strip s).
Proof.
  intros H Hc. unfold Py.strip.
  apply lstrip_by_keeps; [apply rstrip_by_keeps|]; assumption.
Qed.

Lemma strip_In (s : Py.str) (c : Z) : In c (Py.strip s) -> In c s.
Proof. intros H. unfold Py.strip in H. eapply rstrip_by_In, lstrip_by_In, H. Qed.

Lemma is_japanese_not_space (c : Z) : is_japanese c = true -> Py.isspace c = false.
Proof.
  intros H. apply not_true_is_false. intros Hs.
  unfold is_japanese, Py.isspace in *.
  rewrite ?orb_true_iff, ?andb_true_iff, ?Z.leb_le, ?Z.eqb_eq in *. lia.
Qed.

Lemma existsb_In (q : Z -> bool) (s : Py.str) :
  existsb q s = true <-> exists c, In c s /\ q c = true.
Proof. apply existsb_exists. Qed.

(** ** The two recovery strategies *)

Section TextRecovery.

Variable isprintable : Z -> bool.

Let keep (char : Z) : bool := isprintable char || is_japanese char.

Lemma decode_hex_upper (raw : Py.bytes) :
  decode_utf16le_japanese (Py.hex_upper raw)
  = match Py.decode_utf16_le raw with Some s => Py.rstrip_nul s | None => [] end.
Proof. unfold decode_utf16le_japanese. rewrite fromhex_hex_upper. reflexivity. Qed.

(** What an accepted sequence gives. *)
Lemma accept_sequence_Some (min_len : nat) (sequence : Py.bytes) (offset : nat)
    (r : recovered) :
  accept_sequence isprintable min_len sequence offset = Some r ->
  let decoded := decode_utf16le_japanese (Py.hex_upper sequence) in
  r = (Py.hex_upper sequence, Py.strip (List.filter keep decoded), offset)
  /\ existsb is_japanese decoded = true
  /\ (1 <= length (decoded_text r))%nat
  /\ (min_len <= length (decoded_text r))%nat.
Proof.
  unfold accept_sequence. cbv zeta.
  destruct (Py.truthy _ && existsb is_japanese _) eqn:E; [|discriminate].
  apply andb_true_iff in E as [_ Hjp].
  fold keep.
  destruct (Py.truthy (Py.strip _) && _) eqn:E'; [|discriminate].
  apply andb_true_iff in E' as [Ht Hlen]. apply Nat.leb_le in Hlen.
  intros [= <-]. unfold decoded_text. simpl.
  split_and!; [reflexivity | exact Hjp | | exact Hlen].
  destruct (Py.strip _); [discriminate | simpl; lia].
Qed.

(** An accepted text holds a Japanese character, and still does when it is
    stripped again. *)
Lemma accept_sequence_japanese (min_len : nat) (sequence : Py.bytes) (offset : nat)
    (r : recovered) :
  accept_sequence isprintable min_len sequence offset = Some r ->
  existsb is_japanese (decoded_text r) = true
  /\ existsb is_japanese (Py.strip (decoded_text r)) = true.
Proof.
  intros H. apply accept_sequence_Some in H as (-> & Hjp & _).
  apply existsb_In in Hjp as (c & Hin & Hc).
  pose proof (is_japanese_not_space c Hc) as Hsp.
  assert (Hclean : In c (Py.strip (List.filter keep
                     (decode_utf16le_japanese (Py.hex_upper sequence))))).
  { apply strip_keeps; [|exact Hsp]. apply filter_In. split; [exact Hin|].
    unfold keep. rewrite Hc. apply orb_true_r. }
  unfold decoded_text. simpl. split; apply existsb_In; exists c; split; auto.
  apply strip_keeps; assumption.
Qed.

Lemma try_lengths_Some (min_len : nat) (data : Py.bytes) (i : nat) (lengths : list nat)
    (r : recovered) (n : nat) :
  try_lengths isprintable min_len data i lengths = Some (r, n) ->
  In n lengths
  /\ (i + n <= length data)%nat
  /\ accept_sequence isprintable min_len (Py.slice data i (i + n)) i = Some r.
Proof.
  induction lengths as [|l rest IH]; [discriminate|]. cbn [try_lengths].
  destruct (Nat.leb_spec (i + l) (length data)) as [Hfit | Hfit].
  - destruct (accept_sequence isprintable min_len (Py.slice data i (i + l)) i)
      as [r'|] eqn:E.
    + intros H. inversion H; subst. split_and!; [left; reflexivity | exact Hfit | exact E].
    + intros H. apply IH in H as (? & ? & ?). split_and!; [right|..]; assumption.
  - intros H. apply IH in H as (? & ? & ?). split_and!; [right|..]; assumption.
Qed.

Lemma candidate_lengths_positive (n : nat) :
  In n candidate_lengths -> (20 <= n <= 200)%nat.
Proof. unfold candidate_lengths. simpl. intros H. decompose [or] H; lia. Qed.

(** Every text Strategy A returns was accepted for some window. *)
Lemma sliding_window_loop_In (fuel min_len : nat) (data : Py.bytes) (i : nat)
    (r : recovered) :
  In r (sliding_window_loop fuel isprintable min_len data i) ->
  exists j n,
    (i <= j)%nat /\ In n candidate_lengths
    /\ (j + n <= length data)%nat
    /\ accept_sequence isprintable min_len (Py.slice data j (j + n)) j = Some r.
Proof.
  revert i. induction fuel as [|fuel IH]; intros i; cbn [sliding_window_loop];
    [simpl; tauto|].
  destruct (_ <? _); [|simpl; tauto].
  destruct (try_lengths _ _ _ _ _) as [[r' l]|] eqn:E.
  - apply try_lengths_Some in E as (Hl & Hfit & Hacc).
    intros [<- | H].
    + exists i, l. split_and!; [lia | assumption..].
    + apply IH in H as (j & l' & Hj & ?). exists j, l'. split; [lia | assumption].
  - intros H. apply IH in H as (j & l' & Hj & ?). exists j, l'. split; [lia | assumption].
Qed.

Lemma sliding_window_loop_S (fuel min_len : nat) (data : Py.bytes) (i : nat) :
  sliding_window_loop (S fuel) isprintable min_len data i
  = if Z.of_nat i <? Z.of_nat (length data) - 3 then
      match try_lengths isprintable min_len data i candidate_lengths with
      | Some (r, n) => r :: sliding_window_loop fuel isprintable min_len data (i + n)
      | None => sliding_window_loop fuel isprintable min_len data (i + 2)
      end
    else [].
Proof. reflexivity. Qed.

(** The turns given to the loop are enough: more turns change nothing. *)
Lemma sliding_window_loop_fuel (fuel min_len : nat) (data : Py.bytes) (i : nat) :
  (length data <= i + fuel)%nat ->
  sliding_window_loop (S fuel) isprintable min_len data i
  = sliding_window_loop fuel isprintable min_len data i.
Proof.
  revert i. induction fuel as [|fuel IH]; intros i Hfuel.
  - rewrite sliding_window_loop_S.
    destruct (Z.ltb_spec (Z.of_nat i) (Z.of_nat (length data) - 3)); [lia | reflexivity].
  - rewrite (sliding_window_loop_S (S fuel) min_len data i),
      (sliding_window_loop_S fuel min_len data i).
    destruct (_ <? _); [|reflexivity].
    destruct (try_lengths _ _ _ _ _) as [[r l]|] eqn:E.
    + apply try_lengths_Some in E as (Hl & _). apply candidate_lengths_positive in Hl.
      rewrite IH by lia. reflexivity.
    + rewrite IH by lia. reflexivity.
Qed.

Lemma sliding_window_loop_more_fuel (extra min_len : nat) (data : Py.bytes) :
  sliding_window_loop (length data + extra) isprintable min_len data 0
  = sliding_window_loop (length data) isprintable min_len data 0.
Proof.
  induction extra as [|extra IH]; [rewrite Nat.add_0_r; reflexivity|].
  rewrite Nat.add_succ_r, sliding_window_loop_fuel by lia. exact IH.
Qed.

(** Every text Strategy B returns was accepted for some run of bytes. *)
Lemma between_terminators_In (data : Py.bytes) (positions : list nat) (r : recovered) :
  In r (correct_utf16_extractor.between_terminators isprintable data positions) ->
  exists start_pos end_pos,
    accept_sequence isprintable 1 (Py.slice data start_pos end_pos) start_pos = Some r.
Proof.
  induction positions as [|p rest IH]; [simpl; tauto|].
  cbn [correct_utf16_extractor.between_terminators].
  destruct rest as [|q rest']; [simpl; tauto|].
  intros H. apply in_app_or in H as [H | H]; [|apply IH, H].
  destruct (_ <? _); [|contradiction].
  destruct (accept_sequence _ _ _ _) as [r'|] eqn:E; [|contradiction].
  destruct H as [<- | []]. eauto.
Qed.

Lemma unique_from_In (seen : gset Py.str) (all_texts : list recovered) (r : recovered) :
  In r (correct_utf16_extractor.unique_from seen all_texts) -> In r all_texts.
Proof.
  revert seen. induction all_texts as [|[[h d] o] rest IH]; intros seen; [simpl; tauto|].
  cbn [correct_utf16_extractor.unique_from].
  destruct (_ && _); [intros [<- | H]; [left; reflexivity | right; eapply IH, H]|].
  intros H. right. eapply IH, H.
Qed.

(** C6.  Every text recovered by Strategy A (in either script), by Strategy B
    or kept by the merge holds, after trimming, a character of the Hiragana,
    Katakana or Kanji ranges. *)
Theorem recovered_text_holds_japanese (data : Py.bytes) (r : recovered) :
  In r (kurohyou_csv_extractor.find_japanese_text_in_data isprintable data)
  \/ In r (correct_utf16_extractor.find_japanese_text_sequences isprintable data)
  \/ In r (correct_utf16_extractor.find_japanese_by_null_terminators isprintable data)
  \/ In r (correct_utf16_extractor.extract_japanese_from_pack_correct isprintable data) ->
  existsb is_japanese (Py.strip (decoded_text r)) = true.
Proof.
  assert (HA : forall m, In r (sliding_window_loop (length data) isprintable m data 0) ->
                         existsb is_japanese (Py.strip (decoded_text r)) = true).
  { intros m H. apply sliding_window_loop_In in H as (j & l & _ & _ & _ & Hacc).
    eapply accept_sequence_japanese, Hacc. }
  assert (HB : In r (correct_utf16_extractor.find_japanese_by_null_terminators
                       isprintable data) ->
               existsb is_japanese (Py.strip (decoded_text r)) = true).
  { intros H. apply between_terminators_In in H as (s & e & Hacc).
    eapply accept_sequence_japanese, Hacc. }
  intros [H | [H | [H | H]]].
  - apply (HA 1%nat), H.
  - apply (HA 2%nat), H.
  - apply HB, H.
  - apply unique_from_In, in_app_or in H as [H | H]; [apply (HA 2%nat), H | apply HB, H].
Qed.

End TextRecovery.

(** ** The printable table matters only off the Japanese ranges *)

Section PrintableTable.

Variables isprintable isprintable' : Z -> bool.

Hypothesis same_filter :
  forall c, isprintable c || is_japanese c = isprintable' c || is_japanese c.

Lemma accept_sequence_ext (min_len : nat) (sequence : Py.bytes) (offset : nat) :
  accept_sequence isprintable min_len sequence offset
  = accept_sequence isprintable' min_len sequence offset.
Proof.
  unfold accept_sequence.
  rewrite (List.filter_ext _ _ same_filter). reflexivity.
Qed.

Lemma try_lengths_ext (min_len : nat) (data : Py.bytes) (i : nat) (lengths : list nat) :
  try_lengths isprintable min_len data i lengths
  = try_lengths isprintable' min_len data i lengths.
Proof.
  induction lengths as [|l rest IH]; [reflexivity|].
  cbn [try_lengths]. rewrite IH, accept_sequence_ext. reflexivity.
Qed.

Lemma sliding_window_loop_ext (fuel min_len : nat) (data : Py.bytes) (i : nat) :
  sliding_window_loop fuel isprintable min_len data i
  = sliding_window_loop fuel isprintable' min_len data i.
Proof.
  revert i. induction fuel as [|fuel IH]; intros i; [reflexivity|].
  rewrite !sliding_window_loop_S, try_lengths_ext.
  destruct (_ <? _); [|reflexivity].
  destruct (try_lengths _ _ _ _ _) as [[r n]|]; rewrite IH; reflexivity.
Qed.

Lemma between_terminators_ext (data : Py.bytes) (positions : list nat) :
  correct_utf16_extractor.between_terminators isprintable data positions
  = correct_utf16_extractor.between_terminators isprintable' data positions.
Proof.
  induction positions as [|p rest IH]; [reflexivity|].
  cbn [correct_utf16_extractor.between_terminators].
  destruct rest as [|q rest']; [reflexivity|].
  rewrite IH, accept_sequence_ext. reflexivity.
Qed.

End PrintableTable.

Lemma probe_same_filter (isprintable : Z -> bool) (c : Z) :
  isprintable c || is_japanese c
  = probe (isprintable 0) isprintable c || is_japanese c.
Proof.
  unfold probe. destruct (is_japanese c); [rewrite orb_true_r; reflexivity|].
  destruct (Z.eqb_spec c 0) as [-> | _]; reflexivity.
Qed.

(** ** Merge and deduplication *)

Section Dedup.

Import correct_utf16_extractor.

Lemma unique_from_cons (seen : gset Py.str) (r : recovered) (rest : list recovered) :
  unique_from seen (r :: rest)
  = if bool_decide (decoded_text r ∉ seen) && (1 <=? length (decoded_text r))%nat
    then r :: unique_from ({[decoded_text r]} ∪ seen) rest
    else unique_from seen rest.
Proof. destruct r as [[h d] o]. reflexivity. Qed.

Lemma kept_condition (seen : gset Py.str) (d : Py.str) :
  bool_decide (d ∉ seen) && (1 <=? length d)%nat = true
  <-> (d ∉ seen) /\ (1 <= length d)%nat.
Proof. rewrite andb_true_iff, bool_decide_eq_true, Nat.leb_le. tauto. Qed.

(** The loop keeps a result exactly when its text is new: not in the set the
    loop started with, not the text of an earlier result of the list, and not
    empty. *)
Lemma unique_from_spec (seen : gset Py.str) (all_texts : list recovered) (r : recovered) :
  In r (unique_from seen all_texts)
  <-> exists pre post,
        all_texts = pre ++ r :: post
        /\ (decoded_text r ∉ seen)
        /\ ~ In (decoded_text r) (map decoded_text pre)
        /\ (1 <= length (decoded_text r))%nat.
Proof.
  revert seen. induction all_texts as [|x rest IH]; intros seen.
  - simpl. split; [tauto|]. intros (pre & post & H & _). destruct pre; discriminate.
  - rewrite unique_from_cons.
    destruct (bool_decide _ && _) eqn:E.
    + apply kept_condition in E as [Hnew Hlen]. split.
      * intros [<- | H].
        -- exists [], rest. simpl. tauto.
        -- apply IH in H as (pre & post & -> & Hn & Hpre & Hl).
           exists (x :: pre), post. simpl. split_and!; [reflexivity | | | exact Hl].
           ++ intros Hin. apply Hn, elem_of_union. right. exact Hin.
           ++ intros [Heq | Hin]; [|tauto].
              apply Hn, elem_of_union. left. apply elem_of_singleton. congruence.
      * intros (pre & post & Heq & Hn & Hpre & Hl).
        destruct pre as [|y pre]; simpl in Heq; injection Heq as <- ->; [left; reflexivity|].
        right. apply IH. exists pre, post. simpl in Hpre.
        split_and!; [reflexivity | | tauto | exact Hl].
        intros Hin. apply elem_of_union in Hin as [Hin | Hin]; [|tauto].
        apply elem_of_singleton in Hin. auto.
    + assert (Hx : ~ ((decoded_text x ∉ seen) /\ (1 <= length (decoded_text x))%nat)).
      { rewrite <- kept_condition, E. discriminate. }
      rewrite IH. split.
      * intros (pre & post & -> & Hn & Hpre & Hl).
        exists (x :: pre), post. simpl. split_and!; [reflexivity | exact Hn | | exact Hl].
        intros [Heq | Hin]; [|tauto]. apply Hx. rewrite Heq. tauto.
      * intros (pre & post & Heq & Hn & Hpre & Hl).
        destruct pre as [|y pre]; simpl in Heq; injection Heq as <- ->; [tauto|].
        exists pre, post. simpl in Hpre. tauto.
Qed.

Lemma unique_from_NoDup (seen : gset Py.str) (all_texts : list recovered) :
  NoDup (map decoded_text (unique_from seen all_texts)).
Proof.
  revert seen. induction all_texts as [|x rest IH]; intros seen; [constructor|].
  rewrite unique_from_cons. destruct (_ && _); [|apply IH].
  cbn [map]. constructor; [|apply IH].
  intros Hin. apply list_elem_of_In, in_map_iff in Hin as (r & Heq & Hr).
  apply unique_from_spec in Hr as (_ & _ & _ & Hn & _).
  apply Hn, elem_of_union. left. apply elem_of_singleton. exact Heq.
Qed.

Lemma unique_from_sublist (seen : gset Py.str) (all_texts : list recovered) :
  sublist (unique_from seen all_texts) all_texts.
Proof.
  revert seen. induction all_texts as [|x rest IH]; intros seen; [constructor|].
  rewrite unique_from_cons. destruct (_ && _); [apply sublist_skip | apply sublist_cons];
    apply IH.
Qed.

(** Every text of the list that is new and not empty is kept once. *)
Lemma unique_from_covers (seen : gset Py.str) (all_texts : list recovered) (r : recovered) :
  In r all_texts -> (decoded_text r ∉ seen) -> (1 <= length (decoded_text r))%nat ->
  exists r', In r' (unique_from seen all_texts) /\ decoded_text r' = decoded_text r.
Proof.
  revert seen. induction all_texts as [|x rest IH]; intros seen; [simpl; tauto|].
  intros Hin Hn Hl. rewrite unique_from_cons.
  destruct (bool_decide _ && _) eqn:E.
  - destruct (decide (decoded_text x = decoded_text r)) as [Heq | Hne].
    + exists x. split; [left; reflexivity | exact Heq].
    + destruct Hin as [-> | Hin]; [congruence|].
      destruct (IH ({[decoded_text x]} ∪ seen) Hin) as (r' & Hr' & Ht);
        [|exact Hl|].
      { intros H. apply elem_of_union in H as [H | H]; [|tauto].
        apply elem_of_singleton in H. congruence. }
      exists r'. split; [right; exact Hr' | exact Ht].
  - destruct Hin as [-> | Hin].
    + exfalso. assert (true = false) by (rewrite <- E; symmetry; apply kept_condition; tauto).
      discriminate.
    + destruct (IH seen Hin Hn Hl) as (r' & Hr' & Ht). eauto.
Qed.

End Dedup.

Section MergeClaims.

Import correct_utf16_extractor.

Variable isprintable : Z -> bool.

(** What the merge is given comes from an accepted sequence. *)
Lemma all_texts_accepted (data : Py.bytes) (r : recovered) :
  In r (find_japanese_text_sequences isprintable data
        ++ find_japanese_by_null_terminators isprintable data) ->
  exists min_len sequence offset,
    accept_sequence isprintable min_len sequence offset = Some r.
Proof.
  intros H. apply in_app_or in H as [H | H].
  - apply sliding_window_loop_In in H as (j & n & _ & _ & _ & Hacc). eauto.
  - apply between_terminators_In in H as (s & e & Hacc). eauto.
Qed.

(** C2, as the code has it.  The merge keeps one result for every decoded
    text: the first one in the concatenation of the Strategy A results (in
    scan order) followed by the Strategy B results, whatever the source
    offsets; the results kept stay in that order, and none has a text that is
    empty after trimming. *)
Theorem merge_keeps_first_of_concatenation (data : Py.bytes) :
  let all_texts :=
    find_japanese_text_sequences isprintable data
    ++ find_japanese_by_null_terminators isprintable data in
  let unique_texts := extract_japanese_from_pack_correct isprintable data in
  NoDup (map decoded_text unique_texts)
  /\ sublist unique_texts all_texts
  /\ (forall r,
        In r unique_texts
        <-> exists pre post,
              all_texts = pre ++ r :: post
              /\ ~ In (decoded_text r) (map decoded_text pre))
  /\ (forall r, In r all_texts ->
        exists r', In r' unique_texts /\ decoded_text r' = decoded_text r)
  /\ (forall r, In r unique_texts -> Py.strip (decoded_text r) <> []).
Proof.
  cbv zeta. unfold extract_japanese_from_pack_correct.
  assert (Hlen : forall r,
            In r (find_japanese_text_sequences isprintable data
                  ++ find_japanese_by_null_terminators isprintable data) ->
            (1 <= length (decoded_text r))%nat).
  { intros r H. apply all_texts_accepted in H as (m & s & o & Hacc).
    apply accept_sequence_Some in Hacc. tauto. }
  split_and!.
  - apply unique_from_NoDup.
  - apply unique_from_sublist.
  - intros r. rewrite unique_from_spec. split.
    + intros (pre & post & Heq & _ & Hpre & _). eauto.
    + intros (pre & post & Heq & Hpre). exists pre, post.
      split_and!; [exact Heq | apply not_elem_of_empty | exact Hpre |].
      apply Hlen. rewrite Heq. apply in_or_app. right. left. reflexivity.
  - intros r Hr. apply unique_from_covers; [exact Hr | apply not_elem_of_empty | auto].
  - intros r Hr Hempty. apply unique_from_In, all_texts_accepted in Hr as (m & s & o & Hacc).
    apply accept_sequence_japanese in Hacc as [_ Hjp].
    rewrite Hempty in Hjp. discriminate.
Qed.

End MergeClaims.

Lemma extract_probe (isprintable : Z -> bool) (data : Py.bytes) :
  correct_utf16_extractor.extract_japanese_from_pack_correct isprintable data
  = correct_utf16_extractor.extract_japanese_from_pack_correct
      (probe (isprintable 0) isprintable) data.
Proof.
  unfold correct_utf16_extractor.extract_japanese_from_pack_correct,
    correct_utf16_extractor.find_japanese_text_sequences,
    correct_utf16_extractor.find_japanese_by_null_terminators.
  rewrite (sliding_window_loop_ext _ _ (probe_same_filter isprintable)),
    (between_terminators_ext _ _ (probe_same_filter isprintable)).
  reflexivity.
Qed.

Lemma null_texts_probe (isprintable : Z -> bool) (data : Py.bytes) :
  correct_utf16_extractor.find_japanese_by_null_terminators isprintable data
  = correct_utf16_extractor.find_japanese_by_null_terminators
      (probe (isprintable 0) isprintable) data.
Proof.
  unfold correct_utf16_extractor.find_japanese_by_null_terminators.
  apply between_terminators_ext, probe_same_filter.
Qed.

(** C2 as stated fails: on [two_copies] Strategy B finds the sentence at
    offset 2 and Strategy A finds it at offset 40; the merge keeps the result
    of Strategy A, which is not the one with the least source offset. *)
Lemma merge_does_not_order_by_offset :
  ~ (exists isprintable,
       forall r r',
         In r (correct_utf16_extractor.extract_japanese_from_pack_correct
                 isprintable two_copies) ->
         In r' (correct_utf16_extractor.find_japanese_text_sequences isprintable two_copies
                ++ correct_utf16_extractor.find_japanese_by_null_terminators
                     isprintable two_copies) ->
         decoded_text r' = decoded_text r ->
         (source_offset r <= source_offset r')%nat).
Proof.
  intros [ip H].
  pose (hex := Py.hex_upper (Py.encode_utf16_le_bmp kana)).
  specialize (H (hex, kana, 40%nat) (hex, kana, 2%nat)).
  rewrite extract_probe, null_texts_probe in H.
  assert (Hle : (40 <= 2)%nat); [|lia].
  apply H.
  - destruct (ip 0); vm_compute; right; right; left; reflexivity.
  - apply in_or_app. right. destruct (ip 0); vm_compute; left; reflexivity.
  - unfold decoded_text. cbn [fst snd]. reflexivity.
Qed.

(** The witness of C2: on [two_copies] the sentence found by Strategy B at
    offset 2 is represented in the result by some result with its text. *)
Lemma merge_keeps_first_of_concatenation_witness :
  exists r',
    In r' (correct_utf16_extractor.extract_japanese_from_pack_correct (fun _ => false)
             two_copies)
    /\ decoded_text r' = kana.
Proof.
  apply (proj1 (proj2 (proj2 (proj2
           (merge_keeps_first_of_concatenation (fun _ => false) two_copies))))
           (Py.hex_upper kana_buffer, kana, 2%nat)).
  vm_compute. right. right. right. left. reflexivity.
Defined.

(** ** Stripping twice *)

Lemma rstrip_by_last (p : Z -> bool) (s : Py.str) (c : Z) :
  last (Py.rstrip_by p s) = Some c -> p c = false.
Proof.
  induction s as [|d s IH]; [discriminate|].
  unfold Py.rstrip_by in *. cbn [fold_right].
  destruct (fold_right _ [] s) as [|e r] eqn:E; cbn [Py.truthy negb].
  - rewrite andb_true_r. destruct (p d) eqn:Hd; [discriminate|].
    intros [= <-]. exact Hd.
  - rewrite andb_false_r. exact IH.
Qed.

Lemma lstrip_by_head (p : Z -> bool) (s : Py.str) (c : Z) :
  head (Py.lstrip_by p s) = Some c -> p c = false.
Proof.
  induction s as [|d s IH]; [discriminate|]. simpl.
  destruct (p d) eqn:Hd; [exact IH|]. intros [= <-]. exact Hd.
Qed.

Lemma lstrip_by_last (p : Z -> bool) (s : Py.str) (c : Z) :
  last (Py.lstrip_by p s) = Some c -> last s = Some c.
Proof.
  induction s as [|d s IH]; [discriminate|]. simpl.
  destruct (p d); [|tauto]. intros H. apply IH in H.
  destruct s; [discriminate | exact H].
Qed.

Lemma strip_idempotent (s : Py.str) : Py.strip (Py.strip s) = Py.strip s.
Proof.
  unfold Py.strip.
  rewrite (rstrip_by_id Py.isspace (Py.lstrip_by Py.isspace (Py.rstrip_by Py.isspace s))).
  - apply lstrip_by_id. intros c. apply lstrip_by_head.
  - intros c H. eapply rstrip_by_last, lstrip_by_last, H.
Qed.

(** ** The root tag *)

Section RootTag.

Import kurohyou_csv_extractor.

Variable isprintable : Z -> bool.

(** A result of Strategy A is already stripped and not empty, so the loop of
    [_extract_pack_data] keeps it as it is. *)
Lemma pack_lines_from_accepted (i : nat) (japanese_texts : list recovered) :
  Forall (fun r => exists min_len sequence offset,
                     accept_sequence isprintable min_len sequence offset = Some r)
         japanese_texts ->
  map pack_text (pack_lines_from i japanese_texts) = map decoded_text japanese_texts
  /\ map offset (pack_lines_from i japanese_texts) = map source_offset japanese_texts
  /\ map hex_data (pack_lines_from i japanese_texts) = map (fun r => r.1.1) japanese_texts
  /\ map pack_line_id (pack_lines_from i japanese_texts)
     = seq (i + 1) (length japanese_texts).
Proof.
  intros H. revert i. induction H as [|r rest (m & s & o & Hacc) _ IH]; intros i.
  - repeat split.
  - destruct (IH (S i)) as (Ht & Ho & Hh & Hid).
    apply accept_sequence_Some in Hacc as (Hr & _ & Hlen & _).
    assert (Hstrip : Py.strip (decoded_text r) = decoded_text r).
    { rewrite Hr. unfold decoded_text. simpl. apply strip_idempotent. }
    destruct r as [[h d] off]. unfold decoded_text, source_offset in *. simpl in *.
    rewrite Hstrip.
    destruct d as [|c d]; [simpl in Hlen; lia|]. simpl.
    rewrite Ht, Ho, Hh, Hid. replace (i + 1)%nat with (S i) by lia.
    replace (S i + 1)%nat with (S (S i)) by lia. repeat split.
Qed.

Lemma find_japanese_text_in_data_accepted (data : Py.bytes) :
  Forall (fun r => exists min_len sequence offset,
                     accept_sequence isprintable min_len sequence offset = Some r)
         (find_japanese_text_in_data isprintable data).
Proof.
  apply Forall_forall. intros r H. apply list_elem_of_In in H.
  apply sliding_window_loop_In in H as (j & n & _ & _ & _ & Hacc). eauto.
Qed.

(** C1, as the code has it.  For a decompressed buffer that does not begin
    with [ELPK], the structure analysis returns nothing ([analyze_elpk_structure]
    on every such buffer, [analyze_pack_file] on every such buffer that is not
    empty).  The extraction path of the main program makes no such test: for
    every decompressed buffer, with the tag or without it, it returns a result
    whose lines are the texts Strategy A recovers from the buffer, one line
    for each. *)
Theorem root_tag_is_checked_by_the_analysis_alone (data : Py.bytes) :
  (Py.slice data 0 4 <> ELPK ->
   analyze_pack_format.analyze_elpk_structure data = None
   /\ (data <> [] ->
       analyze_pack_format.analyze_pack_file [x1f; x8b] (Some data) = ReturnsNone))
  /\ exists d,
       _extract_pack_data isprintable (Some data) = Some d
       /\ length (pack_lines d) = length (find_japanese_text_in_data isprintable data)
       /\ map pack_text (pack_lines d)
          = map decoded_text (find_japanese_text_in_data isprintable data)
       /\ map offset (pack_lines d)
          = map source_offset (find_japanese_text_in_data isprintable data).
Proof.
  split.
  - intros Hmagic.
    assert (Hnone : analyze_pack_format.analyze_elpk_structure data = None).
    { unfold analyze_pack_format.analyze_elpk_structure.
      rewrite bool_decide_eq_false_2 by exact Hmagic. reflexivity. }
    split; [exact Hnone|].
    intros Hne. unfold analyze_pack_format.analyze_pack_file.
    rewrite bool_decide_eq_true_2 by reflexivity. cbn [negb].
    destruct data; [congruence|]. cbn [length Nat.eqb]. rewrite Hnone. reflexivity.
  - eexists. split; [reflexivity|]. cbn [pack_lines].
    destruct (pack_lines_from_accepted 0 _ (find_japanese_text_in_data_accepted data))
      as (Ht & Ho & _).
    split_and!; [|exact Ht | exact Ho].
    apply (f_equal length) in Ht. rewrite !length_map in Ht. exact Ht.
Qed.

End RootTag.

(** The lines of [_extract_pack_data] are those built from the results of
    Strategy A. *)
Lemma extract_pack_data_lines (isprintable : Z -> bool) (data : Py.bytes) :
  kurohyou_csv_extractor.pack_lines_from 0
    (sliding_window_loop (length data) isprintable 1 data 0) <> [] ->
  ~ match kurohyou_csv_extractor._extract_pack_data isprintable (Some data) with
    | Some d => kurohyou_csv_extractor.pack_lines d = []
    | None => True
    end.
Proof. intros H. exact H. Qed.

(** The witness of C1. *)
Lemma root_tag_is_checked_by_the_analysis_alone_witness :
  Py.slice kana_buffer 0 4 <> ELPK
  /\ analyze_pack_format.analyze_elpk_structure kana_buffer = None
  /\ analyze_pack_format.analyze_pack_file [x1f; x8b] (Some kana_buffer) = ReturnsNone.
Proof.
  assert (Hmagic : Py.slice kana_buffer 0 4 <> ELPK) by (vm_compute; discriminate).
  destruct (root_tag_is_checked_by_the_analysis_alone (fun _ => false) kana_buffer)
    as [Hanalysis _].
  destruct (Hanalysis Hmagic) as [Hs Hf].
  split_and!; [exact Hmagic | exact Hs | apply Hf; vm_compute; discriminate].
Defined.

(** C1 as stated fails: [kana_buffer] does not begin with [ELPK], and the
    extraction path returns a line for it whatever the printable table. *)
Lemma extraction_ignores_the_root_tag :
  Py.slice kana_buffer 0 4 <> ELPK
  /\ ~ (exists isprintable,
          match kurohyou_csv_extractor._extract_pack_data isprintable (Some kana_buffer) with
          | Some d => kurohyou_csv_extractor.pack_lines d = []
          | None => True
          end).
Proof.
  split; [vm_compute; discriminate|].
  assert (Hlines : forall nul ip,
            kurohyou_csv_extractor.pack_lines_from 0
              (sliding_window_loop (length kana_buffer) (probe nul ip) 1 kana_buffer 0)
            <> []).
  { intros nul ip. destruct nul; vm_compute; discriminate. }
  intros [ip H]. revert H. apply extract_pack_data_lines.
  rewrite (sliding_window_loop_ext _ _ (probe_same_filter ip)).
  apply Hlines.
Qed.

(** The witness of C6: the ten kana are recovered, and hold kana. *)
Lemma recovered_text_holds_japanese_witness :
  existsb is_japanese
    (Py.strip (decoded_text (Py.hex_upper kana_buffer, kana, 0%nat)))
  = true.
Proof.
  apply (recovered_text_holds_japanese (fun _ => false) kana_buffer).
  left. vm_compute. left. reflexivity.
Defined.

(** ** The round trip through Strategy A *)

Section RoundTrip.

Import kurohyou_csv_extractor.

Variable isprintable : Z -> bool.

Lemma filter_all {A} (f : A -> bool) (l : list A) :
  Forall (fun x => f x = true) l -> List.filter f l = l.
Proof.
  induction 1 as [|x l Hx _ IH]; [reflexivity|]. simpl. rewrite Hx, IH. reflexivity.
Qed.

Lemma existsb_nonempty {A} (f : A -> bool) (l : list A) :
  existsb f l = true -> Py.truthy l = true.
Proof. destruct l; [discriminate | reflexivity]. Qed.

(** The loop is over once fewer than four bytes are left. *)
Lemma sliding_window_loop_end (fuel min_len : nat) (data : Py.bytes) (i : nat) :
  (length data <= i + 3)%nat ->
  sliding_window_loop fuel isprintable min_len data i = [].
Proof.
  intros H. destruct fuel as [|fuel]; [reflexivity|]. rewrite sliding_window_loop_S.
  destruct (Z.ltb_spec (Z.of_nat i) (Z.of_nat (length data) - 3)); [lia | reflexivity].
Qed.

(** The first length of the list that is accepted is the one taken. *)
Lemma try_lengths_hit (min_len : nat) (data : Py.bytes) (i : nat)
    (pre : list nat) (n : nat) (post : list nat) (r : recovered) :
  (forall m, In m pre ->
     accept_sequence isprintable min_len (Py.slice data i (i + m)) i = None) ->
  (i + n <= length data)%nat ->
  accept_sequence isprintable min_len (Py.slice data i (i + n)) i = Some r ->
  try_lengths isprintable min_len data i (pre ++ n :: post) = Some (r, n).
Proof.
  intros Hpre Hfit Hacc. induction pre as [|m pre IH]; cbn [app try_lengths].
  - rewrite (proj2 (Nat.leb_le _ _) Hfit), Hacc. reflexivity.
  - rewrite (Hpre m) by (left; reflexivity).
    rewrite IH by (intros m' Hm'; apply Hpre; right; exact Hm').
    destruct (_ <=? _)%nat; reflexivity.
Qed.

Variable s : Py.str.

Hypothesis one_unit_each : Forall one_unit s.
Hypothesis holds_japanese : existsb is_japanese s = true.
Hypothesis all_kept : Forall (fun c => isprintable c || is_japanese c = true) s.
Hypothesis stripped : Py.strip s = s.
Hypothesis no_trailing_nul : Py.rstrip_nul s = s.

(** The whole string is accepted. *)
Lemma accept_encoded (min_len offset : nat) :
  (min_len <= length s)%nat ->
  accept_sequence isprintable min_len (Py.encode_utf16_le_bmp s) offset
  = Some (Py.hex_upper (Py.encode_utf16_le_bmp s), s, offset).
Proof.
  intros Hlen. unfold accept_sequence.
  rewrite decode_hex_upper, (decode_encode s one_unit_each), no_trailing_nul.
  rewrite holds_japanese, (existsb_nonempty _ _ holds_japanese). cbn [andb].
  rewrite (filter_all _ _ all_kept), stripped.
  rewrite (existsb_nonempty _ _ holds_japanese), (proj2 (Nat.leb_le _ _) Hlen).
  reflexivity.
Qed.

(** A shorter window without a Japanese character is not. *)
Lemma reject_prefix (min_len offset k : nat) :
  existsb is_japanese (take k s) = false ->
  accept_sequence isprintable min_len (Py.encode_utf16_le_bmp (take k s)) offset = None.
Proof.
  intros Hnone. unfold accept_sequence.
  rewrite decode_hex_upper, decode_encode by (apply Forall_take, one_unit_each).
  assert (H : existsb is_japanese (Py.rstrip_nul (take k s)) = false).
  { apply not_true_is_false. intros H. apply existsb_In in H as (c & Hin & Hc).
    apply rstrip_by_In in Hin.
    assert (existsb is_japanese (take k s) = true)
      by (apply existsb_In; exists c; split; assumption).
    congruence. }
  rewrite H, andb_false_r. reflexivity.
Qed.

End RoundTrip.

(** C4, as the code has it.  Strategy A gives back a string whose encoding
    fills one candidate window (20, 40, 60, 80, 100, 150 or 200 bytes), when
    every character is one 16-bit unit and is printable or Japanese, at least
    one is Japanese, the string has no white space at its ends and no NUL at
    its end, and no shorter candidate window already holds a Japanese
    character.  The bytes [8D 9F] decode to the single Kanji U+9F8D. *)
Theorem strategy_A_round_trip (isprintable : Z -> bool) (s : Py.str) (n : nat) :
  In n candidate_lengths ->
  (2 * length s)%nat = n ->
  Forall one_unit s ->
  existsb is_japanese s = true ->
  Forall (fun c => isprintable c || is_japanese c = true) s ->
  Py.strip s = s ->
  Py.rstrip_nul s = s ->
  (forall m, In m candidate_lengths -> (m < n)%nat ->
             existsb is_japanese (take (m / 2) s) = false) ->
  kurohyou_csv_extractor.find_japanese_text_in_data isprintable (Py.encode_utf16_le_bmp s)
  = [(Py.hex_upper (Py.encode_utf16_le_bmp s), s, 0%nat)]
  /\ decode_utf16le_japanese "8D9F" = [0x9F8D]
  /\ is_japanese 0x9F8D = true.
Proof.
  intros Hn Hlen Hunit Hjp Hkept Hstrip Hnul Hshort.
  split; [|split; vm_compute; reflexivity].
  pose proof (candidate_lengths_positive n Hn) as Hrange.
  pose proof (length_encode s) as Hdata. rewrite Hlen in Hdata.
  set (data := Py.encode_utf16_le_bmp s) in *.
  set (r := (Py.hex_upper data, s, 0%nat)).
  assert (Hacc : accept_sequence isprintable 1 (Py.slice data 0 (0 + n)) 0 = Some r).
  { unfold Py.slice. rewrite drop_0, take_ge by lia.
    apply accept_encoded; try assumption. lia. }
  assert (Hrej : forall m, In m candidate_lengths -> (m < n)%nat ->
            accept_sequence isprintable 1 (Py.slice data 0 (0 + m)) 0 = None).
  { intros m Hm Hlt. unfold Py.slice. rewrite drop_0.
    assert (Heven : (0 + m - 0)%nat = (2 * (m / 2))%nat).
    { unfold candidate_lengths in Hm. simpl in Hm. decompose [or] Hm; subst;
        try reflexivity; contradiction. }
    rewrite Heven. unfold data. rewrite take_encode.
    apply reject_prefix; [assumption|]. apply Hshort; assumption. }
  assert (Htry : try_lengths isprintable 1 data 0 candidate_lengths = Some (r, n)).
  { assert (Hfit : (0 + n <= length data)%nat) by lia.
    assert (Hpre : forall pre post, candidate_lengths = pre ++ n :: post ->
              (forall m, In m pre -> (m < n)%nat) ->
              try_lengths isprintable 1 data 0 candidate_lengths = Some (r, n)).
    { intros pre post Heq Hlt. rewrite Heq.
      apply try_lengths_hit; [|exact Hfit | exact Hacc].
      intros m Hm. apply Hrej; [|apply Hlt, Hm].
      rewrite Heq. apply in_or_app. left. exact Hm. }
    unfold candidate_lengths in Hn. simpl in Hn.
    destruct Hn as [<- | [<- | [<- | [<- | [<- | [<- | [<- | []]]]]]]].
    - apply (Hpre [] [40; 60; 80; 100; 150; 200]%nat); [reflexivity|]. simpl. tauto.
    - apply (Hpre [20]%nat [60; 80; 100; 150; 200]%nat); [reflexivity|].
      simpl. intros m Hm. decompose [or] Hm; subst; try lia; contradiction.
    - apply (Hpre [20; 40]%nat [80; 100; 150; 200]%nat); [reflexivity|].
      simpl. intros m Hm. decompose [or] Hm; subst; try lia; contradiction.
    - apply (Hpre [20; 40; 60]%nat [100; 150; 200]%nat); [reflexivity|].
      simpl. intros m Hm. decompose [or] Hm; subst; try lia; contradiction.
    - apply (Hpre [20; 40; 60; 80]%nat [150; 200]%nat); [reflexivity|].
      simpl. intros m Hm. decompose [or] Hm; subst; try lia; contradiction.
    - apply (Hpre [20; 40; 60; 80; 100]%nat [200]%nat); [reflexivity|].
      simpl. intros m Hm. decompose [or] Hm; subst; try lia; contradiction.
    - apply (Hpre [20; 40; 60; 80; 100; 150]%nat []); [reflexivity|].
      simpl. intros m Hm. decompose [or] Hm; subst; try lia; contradiction. }
  unfold kurohyou_csv_extractor.find_japanese_text_in_data. rewrite Hdata.
  destruct n as [|n']; [lia|].
  rewrite sliding_window_loop_S, Htry, Hdata.
  destruct (Z.ltb_spec (Z.of_nat 0) (Z.of_nat (S n') - 3)); [|lia].
  rewrite sliding_window_loop_end by lia. reflexivity.
Qed.

Lemma kana_one_unit : Forall one_unit kana.
Proof.
  repeat (constructor; [unfold one_unit; split_and!; [lia | lia | reflexivity..]|]).
  constructor.
Qed.

(** The witness of C4: ten kana, 20 bytes. *)
Lemma strategy_A_round_trip_witness :
  kurohyou_csv_extractor.find_japanese_text_in_data (fun _ => false)
    (Py.encode_utf16_le_bmp kana)
  = [(Py.hex_upper (Py.encode_utf16_le_bmp kana), kana, 0%nat)]
  /\ decode_utf16le_japanese "8D9F" = [0x9F8D]
  /\ is_japanese 0x9F8D = true.
Proof.
  apply (strategy_A_round_trip (fun _ => false) kana 20).
  - left. reflexivity.
  - vm_compute. reflexivity.
  - exact kana_one_unit.
  - vm_compute. reflexivity.
  - repeat (constructor; [vm_compute; reflexivity|]). constructor.
  - vm_compute. reflexivity.
  - vm_compute. reflexivity.
  - intros m Hm Hlt. apply candidate_lengths_positive in Hm. lia.
Defined.

(** C4 as stated fails: the two characters 龍也 of the script's own fixture
    encode to 4 bytes, fewer than the shortest window, and Strategy A
    recovers nothing from them, whatever the printable table. *)
Lemma short_string_is_not_recovered :
  Py.encode_utf16_le_bmp (Py.lit "龍也") = [x8d; x9f; x5f; x4e]
  /\ ~ (exists isprintable r,
          In r (kurohyou_csv_extractor.find_japanese_text_in_data isprintable
                  (Py.encode_utf16_le_bmp (Py.lit "龍也")))).
Proof.
  split; [vm_compute; reflexivity|].
  intros (ip & r & H).
  apply sliding_window_loop_In in H as (j & n & _ & Hn & Hfit & _).
  apply candidate_lengths_positive in Hn.
  assert (Hlen : length (Py.encode_utf16_le_bmp (Py.lit "龍也")) = 4%nat)
    by (vm_compute; reflexivity).
  lia.
Qed.

(** ** The entry table *)

Section EntryTable.

Import analyze_pepe_format.

Lemma table_loop_S (fuel : nat) (data : Py.bytes) (kseq_pos : Z) (pos entry_count : nat) :
  table_loop (S fuel) data kseq_pos pos entry_count
  = if (Z.of_nat pos <? kseq_pos) && (entry_count <? 50)%nat then
      match unpack_III (Py.slice data pos (pos + 12)) with
      | None => []
      | Some (hash_id, offset, size) =>
          if plausible data offset size then
            {| index := entry_count; hash_id := hash_id; offset := offset;
               size := size; position := pos |}
              :: table_loop fuel data kseq_pos (pos + 12) (S entry_count)
          else []
      end
    else [].
Proof. reflexivity. Qed.

(** Every entry the loop returns passed the test, lies before [kseq_pos],
    and there are at most 50. *)
Lemma table_loop_entries (fuel : nat) (data : Py.bytes) (kseq_pos : Z)
    (pos entry_count : nat) (e : entry) :
  In e (table_loop fuel data kseq_pos pos entry_count) ->
  0 < offset e < Z.of_nat (length data)
  /\ 0 < size e < 10000
  /\ Z.of_nat (position e) < kseq_pos
  /\ (index e < 50)%nat
  /\ (pos <= position e)%nat.
Proof.
  revert pos entry_count. induction fuel as [|fuel IH]; intros pos entry_count;
    [simpl; tauto|].
  rewrite table_loop_S.
  destruct (_ && _) eqn:Hcond; [|simpl; tauto].
  apply andb_true_iff in Hcond as [Hpos Hcount].
  apply Z.ltb_lt in Hpos. apply Nat.ltb_lt in Hcount.
  destruct (unpack_III _) as [[[h o] sz]|]; [|simpl; tauto].
  destruct (plausible data o sz) eqn:Hp; [|simpl; tauto].
  intros [<- | H].
  - unfold plausible in Hp.
    rewrite !andb_true_iff, !Z.ltb_lt in Hp. simpl. lia.
  - apply IH in H. lia.
Qed.

(** Without a [KSEQ] tag [kseq_pos] is -1 and the loop is never entered. *)
Lemma table_loop_no_kseq (fuel : nat) (data : Py.bytes) (pos entry_count : nat) :
  table_loop fuel data (-1) pos entry_count = [].
Proof.
  destruct fuel as [|fuel]; [reflexivity|]. rewrite table_loop_S.
  destruct (Z.ltb_spec (Z.of_nat pos) (-1)); [lia | reflexivity].
Qed.

(** The 50 turns are enough: a turn that goes on adds an entry. *)
Lemma table_loop_fuel (fuel : nat) (data : Py.bytes) (kseq_pos : Z)
    (pos entry_count : nat) :
  (50 <= fuel + entry_count)%nat ->
  table_loop (S fuel) data kseq_pos pos entry_count
  = table_loop fuel data kseq_pos pos entry_count.
Proof.
  revert pos entry_count. induction fuel as [|fuel IH]; intros pos entry_count Hfuel.
  - rewrite table_loop_S.
    destruct (Nat.ltb_spec entry_count 50); [lia|]. rewrite andb_false_r. reflexivity.
  - rewrite (table_loop_S (S fuel) data kseq_pos pos entry_count),
      (table_loop_S fuel data kseq_pos pos entry_count).
    destruct (_ && _); [|reflexivity].
    destruct (unpack_III _) as [[[h o] sz]|]; [|reflexivity].
    destruct (plausible data o sz); [|reflexivity].
    rewrite IH by lia. reflexivity.
Qed.

End EntryTable.

(** C5, where the code departs from it.  [table_without_kseq] holds no
    [KSEQ] tag and one plausible record after the header; the reader returns
    no entry, because the -1 of [find] is used as the stop offset.  With the
    end of the buffer as the stop offset the same loop reads the record. *)
Theorem entry_table_without_kseq_is_not_read :
  Py.find KSEQ table_without_kseq 0 = None
  /\ analyze_pepe_format.analyze_elpk_format table_without_kseq = Returns []
  /\ analyze_pepe_format.table_loop 50 table_without_kseq
       (Z.of_nat (length table_without_kseq)) analyze_pepe_format.pointer_start 0
     = [{| analyze_pepe_format.index := 0;
           analyze_pepe_format.hash_id := 1;
           analyze_pepe_format.offset := 20;
           analyze_pepe_format.size := 12;
           analyze_pepe_format.position := 20 |}].
Proof. vm_compute. split_and!; reflexivity. Qed.

(** * More of the code *)

(** ** The text of a cue and the numbering of the cues *)

Section CueLines.

Import kurohyou_csv_extractor.

Variable unicode_decimal : Z -> option Z.
Variable int_max_str_digits : nat.

Local Abbreviation parse_cue := (parse_numbered unicode_decimal int_max_str_digits).

Lemma split_once_Some (sep : Z) (s a rest : Py.str) :
  Py.split_once sep s = Some (a, rest) -> s = a ++ sep :: rest /\ ~ In sep a.
Proof.
  revert a. induction s as [|c s IH]; intros a; [discriminate|]. cbn [Py.split_once].
  destruct (Z.eqb_spec c sep) as [-> | Hne].
  - intros H. inversion H; subst. split; [reflexivity | tauto].
  - destruct (Py.split_once sep s) as [[a' r']|]; [|discriminate].
    intros H. inversion H; subst. destruct (IH a' eq_refl) as [-> Hin].
    split; [reflexivity|]. intros [Heq | H']; [congruence | tauto].
Qed.

(** X1.  The text of a cue is what follows the second comma of its line once
    the line is stripped, with the commas it may hold; the two parts before
    it hold no comma and are the integers read. *)
Theorem cue_text_is_rest_of_line (n : nat) (line : Py.str) (cue : line_data) :
  parse_line unicode_decimal int_max_str_digits n line = Some cue ->
  exists part0 part1,
    Py.strip line = part0 ++ 44 :: part1 ++ 44 :: text cue
    /\ ~ In 44 part0 /\ ~ In 44 part1
    /\ Py.int unicode_decimal int_max_str_digits part0 = Some (start_time cue)
    /\ Py.int unicode_decimal int_max_str_digits part1 = Some (end_time cue).
Proof.
  intros H. apply parse_line_fields in H as (_ & _ & _ & p0 & p1 & rest & Hs & H0 & H1).
  exists p0, p1. cbn [Py.split] in Hs.
  destruct (Py.split_once 44 (Py.strip line)) as [[a r]|] eqn:E1; [|discriminate].
  destruct (Py.split_once 44 r) as [[b r']|] eqn:E2; [|discriminate].
  injection Hs as <- <- <- <-.
  apply split_once_Some in E1 as [-> Ha]. apply split_once_Some in E2 as [-> Hb].
  auto.
Qed.

Lemma parsed_ids_sublist (numbered : list (nat * Py.str)) :
  sublist (map line_id (omap parse_cue numbered)) (map fst numbered).
Proof.
  induction numbered as [|[n l] rest IH]; [constructor|].
  rewrite omap_cons. unfold parse_numbered at 1. cbn [fst snd map].
  destruct (parse_line unicode_decimal int_max_str_digits n l) as [ld|] eqn:E.
  - apply parse_line_fields in E as (Hid & _). cbn [map]. rewrite Hid.
    apply sublist_skip, IH.
  - apply sublist_cons, IH.
Qed.

Lemma enumerate1_fst {A} (l : list A) : map fst (enumerate1 l) = seq 1 (length l).
Proof. unfold enumerate1. apply fst_zip. rewrite length_seq. lia. Qed.

(** X2.  The cues of a result keep the order of the file: their identifiers
    are line numbers between 1 and the number of lines, in ascending order
    without repetition; and every cue is counted once, as a pause or as a
    dialogue line. *)
Theorem cues_are_numbered_by_line (file : list Py.str) (d : csv_data) :
  _extract_csv_data unicode_decimal int_max_str_digits file = Some d ->
  sublist (map line_id (lines d)) (seq 1 (length file))
  /\ total_lines (stats d) = length (lines d)
  /\ Z.of_nat (total_lines (stats d)) = dialogue_lines (stats d) + pause_lines (stats d)
  /\ (total_lines (stats d) <= length file)%nat
  /\ 0 <= dialogue_lines (stats d)
  /\ 0 <= pause_lines (stats d).
Proof.
  intros H. apply extract_csv_data_Some in H as (Hl & Htl & Hd & Hp & _).
  cbv zeta in Hl, Htl, Hd, Hp. rewrite Hl, Htl, Hd, Hp.
  assert (Hsub : sublist (map line_id (omap parse_cue (enumerate1 file)))
                         (seq 1 (length file))).
  { rewrite <- enumerate1_fst. apply parsed_ids_sublist. }
  pose proof (sublist_length _ _ Hsub) as Hlen.
  rewrite length_map, length_seq in Hlen.
  pose proof (filter_length_le (fun ld => negb (is_pause ld))
                (omap parse_cue (enumerate1 file))) as Hdl.
  fold (dialogue (omap parse_cue (enumerate1 file))) in Hdl.
  split_and!; [exact Hsub | reflexivity | lia..].
Qed.

(** X4.  In the statistics of a result neither duration in seconds is
    negative.  When the durations of the dialogue lines add up to 0 or less,
    the total in seconds is 0.0 and the average in seconds is 0.0, or the
    integer 0 when there is no dialogue line; and without a dialogue line
    the durations add up to 0. *)
Theorem seconds_of_the_statistics_are_clamped (file : list Py.str) (d : csv_data) :
  _extract_csv_data unicode_decimal int_max_str_digits file = Some d ->
  not_negative (total_duration_seconds (stats d))
  /\ match avg_duration_seconds (stats d) with
     | Py.Float f => not_negative f /\ 0 < dialogue_lines (stats d)
     | Py.Int z => z = 0 /\ dialogue_lines (stats d) = 0
     end
  /\ (total_duration_frames (stats d) <= 0 ->
      total_duration_seconds (stats d) = S754_zero false
      /\ (0 < dialogue_lines (stats d) ->
          avg_duration_seconds (stats d) = Py.Float (S754_zero false)))
  /\ (dialogue_lines (stats d) = 0 -> total_duration_frames (stats d) = 0).
Proof.
  intros H. apply extract_csv_data_Some in H as (_ & _ & Hd & _ & _ & Ht & _ & _ & Hts & Has).
  cbv zeta in Hd, Ht, Hts, Has. rewrite Hd, Ht.
  set (new := omap parse_cue (enumerate1 file)) in *.
  set (total := Zsum (map duration (dialogue new))) in *.
  assert (Hempty : Z.of_nat (length (dialogue new)) = 0 -> total = 0).
  { unfold total. destruct (dialogue new); [reflexivity | discriminate]. }
  set (n := Z.of_nat (length (dialogue new))) in *.
  assert (Hn : 0 <= n) by (unfold n; lia).
  clearbody n total. clear new Hd Ht.
  rewrite frames_to_seconds_int in Hts.
  assert (Htotal : not_negative (total_duration_seconds (stats d))
                   /\ (total <= 0 -> total_duration_seconds (stats d) = S754_zero false)).
  { destruct (Z.ltb_spec 0 total) as [Hpos|Hneg].
    - split; [|lia].
      destruct (Py.float_of_int total) as [f|] eqn:Ef; [|discriminate Hts].
      cbn [fmap option_fmap option_map] in Hts. apply (inj Some) in Hts.
      destruct (float_of_int_plus total f Hpos Ef) as (_ & m & e & l & ->).
      rewrite <- Hts. apply div_by_fps_plus.
    - apply (inj Some) in Hts. rewrite <- Hts. split; [reflexivity | reflexivity]. }
  destruct Htotal as [Htn Htz].
  split_and!; [exact Htn | | | exact Hempty].
  - destruct (Z.ltb_spec 0 n) as [Hpos|Hzero].
    + destruct (Py.int_truediv total n) as [q|]; [|discriminate Has].
      cbn [mbind option_bind] in Has.
      destruct (frames_to_seconds (Py.Float q)) as [f|] eqn:Ef; [|discriminate Has].
      cbn [fmap option_fmap option_map] in Has. apply (inj Some) in Has.
      rewrite <- Has. split; [|exact Hpos].
      apply (frames_to_seconds_not_negative (Py.Float q) f Ef).
    + apply (inj Some) in Has. rewrite <- Has. split; [reflexivity | lia].
  - intros Hle. split; [apply Htz, Hle|]. intros Hpos.
    destruct (Z.ltb_spec 0 n) as [_|]; [|lia].
    destruct (Py.int_truediv total n) as [q|] eqn:Eq; [|discriminate Has].
    cbn [mbind option_bind] in Has.
    rewrite (int_truediv_not_positive total n q Hle Hpos Eq) in Has.
    cbn [fmap option_fmap option_map] in Has. apply (inj Some) in Has.
    symmetry. exact Has.
Qed.

End CueLines.

(** The witness of X1: a text with a comma of its own. *)
Lemma cue_text_is_rest_of_line_witness :
  exists part0 part1,
    Py.strip (Py.lit " 12,+30 ,a,b ") = part0 ++ 44 :: part1 ++ 44 :: Py.lit "a,b"
    /\ ~ In 44 part0 /\ ~ In 44 part1
    /\ Py.int (fun _ => None) 4300 part0 = Some 12
    /\ Py.int (fun _ => None) 4300 part1 = Some 30.
Proof.
  apply (cue_text_is_rest_of_line (fun _ => None) 4300 1 (Py.lit " 12,+30 ,a,b ")
           {| kurohyou_csv_extractor.line_id := 1;
              kurohyou_csv_extractor.start_time := 12;
              kurohyou_csv_extractor.end_time := 30;
              kurohyou_csv_extractor.text := Py.lit "a,b";
              kurohyou_csv_extractor.duration := 18;
              kurohyou_csv_extractor.is_pause := false |}).
  vm_compute. reflexivity.
Defined.

(** The witness of X2: the file of the export test, a cue and a pause. *)
Lemma cues_are_numbered_by_line_witness :
  sublist [1; 2]%nat (seq 1 2).
Proof.
  destruct (cues_are_numbered_by_line (fun _ => None) 4300 _ _ export_test_statistics)
    as [H _].
  exact H.
Defined.

(** The witness of X4: a file whose one cue runs backwards has a total of
    0.0 seconds. *)
Lemma seconds_of_the_statistics_are_clamped_witness :
  exists d,
    kurohyou_csv_extractor._extract_csv_data (fun _ => None) 4300 [Py.lit "10,5,x"] = Some d
    /\ kurohyou_csv_extractor.total_duration_frames (kurohyou_csv_extractor.stats d) = -5
    /\ kurohyou_csv_extractor.total_duration_seconds (kurohyou_csv_extractor.stats d)
       = S754_zero false.
Proof.
  assert (E : exists d,
            kurohyou_csv_extractor._extract_csv_data (fun _ => None) 4300
              [Py.lit "10,5,x"] = Some d
            /\ kurohyou_csv_extractor.total_duration_frames
                 (kurohyou_csv_extractor.stats d) = -5)
    by (eexists; split; vm_compute; reflexivity).
  destruct E as (d & E & Ht). exists d. split_and!; [exact E | exact Ht|].
  apply (seconds_of_the_statistics_are_clamped (fun _ => None) 4300 _ d E). lia.
Defined.

(** ** Milliseconds and seconds *)

Section Milliseconds.

Import kurohyou_csv_extractor.

(** X3.  The milliseconds follow the seconds.  For a number that is not
    above 0 both conversions are 0.0.  For one above 0 the milliseconds are
    the seconds times 1000 as a [float]: they are returned exactly when the
    seconds are, and neither is negative.  The product can be [inf] where
    the seconds are finite. *)
Theorem milliseconds_follow_seconds (frames : Py.number) :
  (Py.gt_zero frames = false ->
   frames_to_seconds frames = Some (S754_zero false)
   /\ frames_to_milliseconds frames = Some (S754_zero false))
  /\ (Py.gt_zero frames = true ->
      frames_to_milliseconds frames
      = frames_to_seconds frames ≫= fun seconds => Py.mul_int seconds 1000)
  /\ (frames_to_seconds frames = None <-> frames_to_milliseconds frames = None)
  /\ (forall seconds,
        frames_to_seconds frames = Some seconds ->
        not_negative seconds
        /\ exists ms, frames_to_milliseconds frames = Some ms /\ not_negative ms)
  /\ frames_to_seconds (Py.Int (10 ^ 307))
     = Some (S754_finite false 8551118336038284 962)
  /\ frames_to_milliseconds (Py.Int (10 ^ 307)) = Some (S754_infinity false).
Proof.
  assert (Hmul : forall q, not_negative q ->
            exists ms, Py.mul_int q 1000 = Some ms /\ not_negative ms).
  { intros q Hq. unfold Py.mul_int.
    change (Py.float_of_int 1000) with (Some (S754_finite false 8796093022208000 (-43))).
    cbn [fmap option_fmap option_map]. eexists. split; [reflexivity|].
    eapply mul_by_thousand_plus; [exact Hq|]. unfold Py.mul_int.
    change (Py.float_of_int 1000) with (Some (S754_finite false 8796093022208000 (-43))).
    reflexivity. }
  assert (Hms : frames_to_milliseconds frames
                = if Py.gt_zero frames
                  then frames_to_seconds frames ≫= fun seconds => Py.mul_int seconds 1000
                  else Some (S754_zero false)).
  { unfold frames_to_milliseconds, frames_to_seconds.
    destruct (Py.gt_zero frames); reflexivity. }
  split_and!.
  - intros Hz. rewrite Hms. unfold frames_to_seconds. rewrite Hz. auto.
  - intros Hp. rewrite Hms, Hp. reflexivity.
  - rewrite Hms. destruct (Py.gt_zero frames) eqn:Hp.
    + destruct (frames_to_seconds frames) as [q|] eqn:Eq; [|tauto].
      destruct (Hmul q (frames_to_seconds_not_negative _ _ Eq)) as (ms & E & _).
      cbn [mbind option_bind]. rewrite E. split; intros H; discriminate H.
    + unfold frames_to_seconds. rewrite Hp. split; intros H; discriminate H.
  - intros seconds Hs. pose proof (frames_to_seconds_not_negative _ _ Hs) as Hn.
    split; [exact Hn|]. rewrite Hms. destruct (Py.gt_zero frames).
    + rewrite Hs. cbn [mbind option_bind]. apply Hmul, Hn.
    + exists (S754_zero false). split; reflexivity.
  - vm_compute. reflexivity.
  - vm_compute. reflexivity.
Qed.

End Milliseconds.

(** ** Printable strings of a buffer *)

Section PrintableStrings.

Variable min_length : nat.

Lemma strings_step_invariant (done : Py.bytes) (st : list Py.str * Py.str) (b : byte) :
  strings_invariant min_length done st ->
  strings_invariant min_length (done ++ [b]) (strings_step min_length st b).
Proof.
  intros (Hcur & (before & Hdone & Hbefore) & Hstrings).
  assert (Hmove : Forall (fun s =>
       (min_length <= length s)%nat
       /\ Forall (fun c => 32 <= c <= 126) s
       /\ exists before after,
            done ++ [b] = before ++ map Py.byte_of_Z s ++ after
            /\ (forall b, last before = Some b -> printable_byte b = false)
            /\ (exists b, head after = Some b /\ printable_byte b = false)) st.1).
  { eapply Forall_impl; [exact Hstrings|].
    intros s (Hlen & Hs & pre & post & Hd & Hpre & c & Hc & Hnp).
    split_and!; [exact Hlen | exact Hs|].
    exists pre, (post ++ [b]). split_and!; [|exact Hpre|].
    - rewrite Hd, <- !app_assoc. reflexivity.
    - exists c. split; [|exact Hnp]. destruct post; [discriminate | exact Hc]. }
  unfold strings_step, strings_invariant.
  destruct (printable_byte b) eqn:Hb; cbn [fst snd].
  - split_and!; [| |exact Hmove].
    + apply Forall_app. split; [exact Hcur|]. constructor; [|constructor].
      unfold printable_byte in Hb. apply andb_true_iff in Hb as [H1 H2].
      apply Z.leb_le in H1, H2. lia.
    + exists before. split; [|exact Hbefore].
      rewrite map_app, Hdone, <- app_assoc. cbn [map]. rewrite byte_of_Z_val. reflexivity.
  - split_and!; [constructor | |].
    + exists (done ++ [b]). split; [rewrite app_nil_r; reflexivity|].
      intros c Hc. rewrite last_snoc in Hc. injection Hc as <-. exact Hb.
    + destruct (Nat.leb_spec min_length (length st.2)) as [Hlen | _]; [|exact Hmove].
      apply Forall_app. split; [exact Hmove|]. constructor; [|constructor].
      split_and!; [exact Hlen | exact Hcur|].
      exists before, [b]. split_and!; [|exact Hbefore|].
      * rewrite Hdone, <- app_assoc. reflexivity.
      * exists b. split; [reflexivity | exact Hb].
Qed.

Lemma strings_fold_invariant (data done : Py.bytes) (st : list Py.str * Py.str) :
  strings_invariant min_length done st ->
  strings_invariant min_length (done ++ data) (fold_left (strings_step min_length) data st).
Proof.
  revert done st. induction data as [|b data IH]; intros done st H.
  - rewrite app_nil_r. exact H.
  - cbn [fold_left]. replace (done ++ b :: data) with ((done ++ [b]) ++ data)
      by (rewrite <- app_assoc; reflexivity).
    apply IH, strings_step_invariant, H.
Qed.

(** Every string the loop returns has [min_length] characters or more and is
    a run of printable bytes that cannot be extended on either side. *)
Lemma strings_loop_sound (data : Py.bytes) (s : Py.str) :
  In s (strings_loop min_length data) ->
  (min_length <= length s)%nat /\ maximal_run data s.
Proof.
  unfold strings_loop. cbv zeta.
  destruct (strings_fold_invariant data [] ([], []))
    as (Hcur & (before & Hdone & Hbefore) & Hs).
  { split_and!; [constructor | | constructor].
    exists []. split; [reflexivity | discriminate]. }
  cbn [app] in Hdone, Hs.
  assert (Hold : In s (fold_left (strings_step min_length) data ([], [])).1 ->
                 (min_length <= length s)%nat /\ maximal_run data s).
  { intros Hin. rewrite Forall_forall in Hs. apply list_elem_of_In in Hin.
    destruct (Hs s Hin) as (Hlen & Hchars & pre & post & Hd & Hpre & c & Hc & Hnp).
    split; [exact Hlen|]. split; [exact Hchars|].
    exists pre, post. split_and!; [exact Hd | exact Hpre|].
    intros c' Hc'. congruence. }
  destruct (Nat.leb_spec min_length
              (length (fold_left (strings_step min_length) data ([], [])).2))
    as [Hlen | _]; [|exact Hold].
  intros Hin. apply in_app_or in Hin as [Hin | [<- | []]]; [apply Hold, Hin|].
  split; [exact Hlen|]. split; [exact Hcur|].
  exists before, []. split_and!; [rewrite app_nil_r; exact Hdone | exact Hbefore | discriminate].
Qed.

(** The strings found so far stay. *)
Lemma strings_fold_keeps (data : Py.bytes) (st : list Py.str * Py.str) (s : Py.str) :
  In s st.1 -> In s (fold_left (strings_step min_length) data st).1.
Proof.
  revert st. induction data as [|b data IH]; intros st H; [exact H|].
  cbn [fold_left]. apply IH. unfold strings_step.
  destruct (printable_byte b); cbn [fst]; [exact H|].
  destruct (_ <=? _)%nat; [apply in_or_app; left|]; exact H.
Qed.

Lemma strings_fold_printable (s : Py.str) (st : list Py.str * Py.str) :
  Forall (fun c => 32 <= c <= 126) s ->
  fold_left (strings_step min_length) (map Py.byte_of_Z s) st = (st.1, st.2 ++ s).
Proof.
  intros Hs. revert st. induction Hs as [|c s Hc _ IH]; intros st.
  - rewrite app_nil_r. destruct st; reflexivity.
  - cbn [map fold_left]. rewrite IH. unfold strings_step, printable_byte.
    rewrite (byte_val_of_Z c) by lia.
    destruct (Z.leb_spec 32 c); [|lia]. destruct (Z.leb_spec c 126); [|lia].
    cbn [andb fst snd]. rewrite <- app_assoc. reflexivity.
Qed.

Lemma strings_fold_after_separator (before : Py.bytes) (st : list Py.str * Py.str) :
  st.2 = [] ->
  (forall b, last before = Some b -> printable_byte b = false) ->
  (fold_left (strings_step min_length) before st).2 = [].
Proof.
  intros Hst Hlast. destruct before as [|b0 before _] using rev_ind; [exact Hst|].
  rewrite fold_left_app. cbn [fold_left]. unfold strings_step.
  rewrite (Hlast b0) by apply last_snoc. reflexivity.
Qed.

(** No run of [min_length] characters or more is missed. *)
Lemma strings_loop_complete (data : Py.bytes) (s : Py.str) :
  (min_length <= length s)%nat -> maximal_run data s ->
  In s (strings_loop min_length data).
Proof.
  intros Hlen (Hchars & before & after & -> & Hbefore & Hafter).
  unfold strings_loop. cbv zeta. rewrite !fold_left_app.
  set (st := fold_left (strings_step min_length) before ([], [])).
  assert (Hst : st.2 = []) by (apply strings_fold_after_separator; auto).
  rewrite (strings_fold_printable s st Hchars), Hst. cbn [app].
  destruct after as [|b after].
  - cbn [fold_left snd fst]. rewrite (proj2 (Nat.leb_le _ _) Hlen).
    apply in_or_app. right. left. reflexivity.
  - cbn [fold_left].
    match goal with
    | |- In s (if ?c then ?l ++ _ else ?l) =>
        assert (H : In s l); [|destruct c; [apply in_or_app; left|]; exact H]
    end.
    apply strings_fold_keeps. unfold strings_step.
    rewrite (Hafter b eq_refl). cbn [fst snd].
    rewrite (proj2 (Nat.leb_le _ _) Hlen).
    apply in_or_app. right. left. reflexivity.
Qed.

End PrintableStrings.

(** X5.  The strings [extract_strings_from_data] returns are exactly the runs
    of printable ASCII bytes of the buffer that cannot be extended on either
    side and have 3 characters or more; those [extract_strings] returns are
    the ones of 4 characters or more.  No such run is missed and nothing else
    is returned. *)
Theorem strings_are_the_maximal_runs (data : Py.bytes) (s : Py.str) :
  (In s (kurohyou_csv_extractor.extract_strings_from_data data)
   <-> (3 <= length s)%nat /\ maximal_run data s)
  /\ (In s (analyze_pepe_format.extract_strings data)
      <-> (4 <= length s)%nat /\ maximal_run data s).
Proof.
  unfold kurohyou_csv_extractor.extract_strings_from_data,
    analyze_pepe_format.extract_strings.
  split; (split; [apply strings_loop_sound | intros [? ?]; apply strings_loop_complete; auto]).
Qed.

(** The loop with a bound is the loop without one, filtered. *)
Lemma strings_loop_filter (min_length : nat) (data : Py.bytes) :
  strings_loop min_length data
  = List.filter (fun s => (min_length <=? length s)%nat) (strings_loop 0 data).
Proof.
  unfold strings_loop. cbv zeta.
  assert (H : forall st st0,
            st.2 = st0.2 ->
            st.1 = List.filter (fun s => (min_length <=? length s)%nat) st0.1 ->
            let r := fold_left (strings_step min_length) data st in
            let r0 := fold_left (strings_step 0) data st0 in
            r.2 = r0.2
            /\ r.1 = List.filter (fun s => (min_length <=? length s)%nat) r0.1).
  { induction data as [|b data IH]; intros st st0 H2 H1; [split; assumption|].
    cbn [fold_left]. apply IH; unfold strings_step;
      destruct (printable_byte b); cbn [fst snd Nat.leb]; try congruence.
    rewrite List.filter_app, <- H1, <- H2. cbn [List.filter].
    destruct (min_length <=? length st.2)%nat; [reflexivity | rewrite app_nil_r; reflexivity]. }
  destruct (H ([], []) ([], []) eq_refl eq_refl) as [H2 H1]. cbv zeta in H2, H1.
  rewrite H1, H2. cbn [Nat.leb]. rewrite List.filter_app. cbn [List.filter].
  destruct (min_length <=? _)%nat; [reflexivity | rewrite app_nil_r; reflexivity].
Qed.

Lemma filter_of_weaker_filter {A} (f g : A -> bool) (l : list A) :
  (forall x, f x = true -> g x = true) ->
  List.filter f (List.filter g l) = List.filter f l.
Proof.
  intros Hfg. induction l as [|x l IH]; [reflexivity|]. cbn [List.filter].
  destruct (g x) eqn:Hg; cbn [List.filter].
  - rewrite IH. reflexivity.
  - destruct (f x) eqn:Hf; [rewrite (Hfg x Hf) in Hg; discriminate | exact IH].
Qed.

(** X6.  The strings [extract_strings] of the analysis script returns are the
    strings [extract_strings_from_data] of the main program returns, less
    those of three characters, in the same order; a buffer without a
    printable ASCII byte gives no string. *)
Theorem extract_strings_refines_the_main_program (data : Py.bytes) :
  analyze_pepe_format.extract_strings data
  = List.filter (fun s => (4 <=? length s)%nat)
      (kurohyou_csv_extractor.extract_strings_from_data data)
  /\ (forall bs, Forall (fun b => printable_byte b = false) bs ->
                 kurohyou_csv_extractor.extract_strings_from_data bs = []).
Proof.
  unfold analyze_pepe_format.extract_strings,
    kurohyou_csv_extractor.extract_strings_from_data.
  split_and!.
  - rewrite (strings_loop_filter 4), (strings_loop_filter 3), filter_of_weaker_filter;
      [reflexivity|].
    intros s Hs. apply Nat.leb_le in Hs. apply Nat.leb_le. lia.
  - intros bs Hbs. unfold strings_loop. cbv zeta.
    assert (H : fold_left (strings_step 3) bs ([], []) = ([], [])).
    { induction Hbs as [|b bs Hb _ IH]; [reflexivity|].
      cbn [fold_left]. unfold strings_step at 2. rewrite Hb. exact IH. }
    rewrite H. reflexivity.
Qed.

(** ** The entry table of a container that has a [KSEQ] tag *)

Section EntryTableShape.

Import analyze_pepe_format.

Ltac unpack_case :=
  cbn [length]; split;
  [ intros [? H]; first [discriminate H | reflexivity]
  | intros H; first [discriminate H | eexists; reflexivity] ].

Lemma unpack_III_length (b : Py.bytes) :
  is_Some (unpack_III b) <-> length b = 12%nat.
Proof.
  unfold unpack_III.
  do 13 (destruct b as [|? b]; [unpack_case|]). unpack_case.
Qed.

Lemma unpack_II_length (b : Py.bytes) :
  is_Some (unpack_II b) <-> length b = 8%nat.
Proof.
  unfold unpack_II.
  do 9 (destruct b as [|? b]; [unpack_case|]). unpack_case.
Qed.

Lemma length_slice {A} (l : list A) (i j : nat) :
  length (Py.slice l i j) = Nat.min (j - i) (length l - i).
Proof. unfold Py.slice. rewrite length_take, length_drop. reflexivity. Qed.

Lemma table_loop_lookup (fuel : nat) (data : Py.bytes) (kseq_pos : Z)
    (pos entry_count i : nat) (e : entry) :
  table_loop fuel data kseq_pos pos entry_count !! i = Some e ->
  index e = (entry_count + i)%nat
  /\ position e = (pos + 12 * i)%nat
  /\ unpack_III (Py.slice data (position e) (position e + 12))
     = Some (hash_id e, offset e, size e).
Proof.
  revert pos entry_count i. induction fuel as [|fuel IH]; intros pos entry_count i;
    [intros H; destruct i; discriminate H|].
  rewrite table_loop_S.
  destruct (_ && _); [|intros H; destruct i; discriminate H].
  destruct (unpack_III (Py.slice data pos (pos + 12))) as [[[h o] sz]|] eqn:E;
    [|intros H; destruct i; discriminate H].
  destruct (plausible data o sz); [|intros H; destruct i; discriminate H].
  destruct i as [|i]; cbn [lookup list_lookup].
  - intros [= <-]. cbn [index position hash_id offset size].
    split_and!; [lia | lia | exact E].
  - intros H. apply IH in H as (? & ? & ?). split_and!; [lia | lia | assumption].
Qed.

(** Where the table ends before its 50th entry, the next record starts at or
    after [kseq_pos], is cut short by the end of the buffer, or fails the
    test. *)
Lemma table_loop_stop (fuel : nat) (data : Py.bytes) (kseq_pos : Z)
    (pos entry_count : nat) :
  (50 <= fuel + entry_count)%nat ->
  let n := length (table_loop fuel data kseq_pos pos entry_count) in
  (entry_count <= 50 -> entry_count + n <= 50)%nat
  /\ ((entry_count + n < 50)%nat ->
      kseq_pos <= Z.of_nat (pos + 12 * n)
      \/ match unpack_III (Py.slice data (pos + 12 * n) (pos + 12 * n + 12)) with
         | Some (_, o, sz) => plausible data o sz = false
         | None => True
         end).
Proof.
  revert pos entry_count. induction fuel as [|fuel IH]; intros pos entry_count Hfuel.
  - cbn. lia.
  - rewrite table_loop_S.
    destruct (Z.ltb_spec (Z.of_nat pos) kseq_pos) as [Hpos|Hpos];
      [|cbn [andb length]; rewrite Nat.mul_0_r, !Nat.add_0_r; split; [lia | intros _; left; lia]].
    destruct (Nat.ltb_spec entry_count 50) as [Hc|Hc];
      [|cbn [andb length]; split; lia].
    cbn [andb].
    destruct (unpack_III (Py.slice data pos (pos + 12))) as [[[h o] sz]|] eqn:E.
    + destruct (plausible data o sz) eqn:Hp.
      * cbn [length]. specialize (IH (pos + 12)%nat (S entry_count)).
        destruct IH as [IH1 IH2]; [lia|]. cbv zeta in IH1, IH2.
        set (n := length _) in *. split; [lia|]. intros Hn.
        replace (pos + 12 * S n)%nat with (pos + 12 + 12 * n)%nat by lia.
        apply IH2. lia.
      * cbn [length]. rewrite Nat.mul_0_r, !Nat.add_0_r. split; [lia|].
        intros _. right. rewrite E. exact Hp.
    + cbn [length]. rewrite Nat.mul_0_r, !Nat.add_0_r. split; [lia|].
      intros _. right. rewrite E. exact I.
Qed.

Lemma Returns_inj {A} (a b : A) : Returns a = Returns b -> a = b.
Proof. intros H. injection H. trivial. Qed.

(** X7.  When [analyze_elpk_format] returns, its entries are the records read
    from offset 20 on, 12 bytes each, numbered from 0: each one passed the
    test of a valid entry and starts before the first [KSEQ] tag; there are
    at most 50; and the table ends before its 50th entry only where there is
    no tag at all, or the next record starts at or after the tag, or the next
    record fails the test.  A record cut short by the end of the buffer never
    ends the table: the [struct.error] handler of the loop is not reached. *)
Theorem entry_table_is_the_plausible_prefix (data : Py.bytes) (es : list entry) :
  analyze_elpk_format data = Returns es ->
  (length es <= 50)%nat
  /\ (forall i e, es !! i = Some e ->
        index e = i /\ position e = (20 + 12 * i)%nat
        /\ unpack_III (Py.slice data (position e) (position e + 12))
           = Some (hash_id e, offset e, size e)
        /\ 0 < offset e < Z.of_nat (length data)
        /\ 0 < size e < 10000
        /\ exists p, Py.find KSEQ data 0 = Some p /\ (position e < p)%nat)
  /\ ((length es < 50)%nat ->
      match Py.find KSEQ data 0 with
      | None => es = []
      | Some p =>
          (p <= 20 + 12 * length es)%nat
          \/ exists h o sz,
               unpack_III (Py.slice data (20 + 12 * length es) (20 + 12 * length es + 12))
               = Some (h, o, sz)
               /\ plausible data o sz = false
      end).
Proof.
  unfold analyze_elpk_format.
  destruct (unpack_III (Py.slice data 8 20)) as [hv|]; [|discriminate].
  cbv zeta. unfold Py.find_Z.
  destruct (Py.find KSEQ data 0) as [p|] eqn:Hfind.
  - destruct (Z.eqb_spec (Z.of_nat p) (-1)); [lia|]. cbn [negb].
    rewrite Nat2Z.id.
    destruct (bool_decide _) eqn:Hread; [|discriminate].
    apply bool_decide_eq_true in Hread. apply unpack_II_length in Hread.
    rewrite length_slice in Hread.
    intros Hes. apply Returns_inj in Hes. subst es.
    pose proof (table_loop_stop 50 data (Z.of_nat p) pointer_start 0 ltac:(lia)) as [Hn Hstop].
    cbv zeta in Hn, Hstop. unfold pointer_start in *.
    set (es := table_loop 50 data (Z.of_nat p) 20 0) in *.
    split_and!.
    + lia.
    + intros i e Hi. pose proof (list_elem_of_lookup_2 _ _ _ Hi) as Hin.
      apply list_elem_of_In, table_loop_entries in Hin as (Ho & Hs & Hp & _ & _).
      apply table_loop_lookup in Hi as (Hidx & Hposn & Hrec).
      split_and!; try lia; [exact Hrec | exists p; split; [reflexivity | lia]].
    + intros Hlt. destruct Hstop as [Hle | Hrec]; [lia | left; lia|].
      destruct (Nat.le_gt_cases p (20 + 12 * length es)) as [?|Hgt]; [left; assumption|].
      right.
      destruct (unpack_III _) as [[[h o] sz]|] eqn:E; [eauto|].
      exfalso.
      assert (Hsome : is_Some (unpack_III (Py.slice data (20 + 12 * length es)
                                             (20 + 12 * length es + 12)))).
      { apply unpack_III_length. rewrite length_slice. lia. }
      rewrite E in Hsome. destruct Hsome as [? ?]. discriminate.
  - cbn [negb Z.eqb]. rewrite table_loop_no_kseq. intros Hes. apply Returns_inj in Hes. subst es.
    split_and!; [cbn; lia | intros i e H; discriminate | reflexivity].
Qed.

(** X8.  [analyze_elpk_format] leaves with [struct.error] exactly when the
    buffer has fewer than 20 bytes or fewer than 8 bytes follow its first
    [KSEQ] tag; otherwise it returns. *)
Theorem header_reads_fail_on_short_buffers (data : Py.bytes) :
  analyze_elpk_format data = Raises
  <-> (length data < 20)%nat
      \/ exists p, Py.find KSEQ data 0 = Some p /\ (length data < p + 12)%nat.
Proof.
  unfold analyze_elpk_format.
  pose proof (unpack_III_length (Py.slice data 8 20)) as H3.
  rewrite length_slice in H3.
  destruct (unpack_III (Py.slice data 8 20)) as [hv|].
  - assert (20 <= length data)%nat by (destruct H3 as [H3 _]; specialize (H3 ltac:(eauto)); lia).
    cbv zeta. unfold Py.find_Z.
    destruct (Py.find KSEQ data 0) as [p|] eqn:Hfind.
    + destruct (Z.eqb_spec (Z.of_nat p) (-1)); [lia|]. cbn [negb].
      rewrite Nat2Z.id.
      pose proof (unpack_II_length (Py.slice data (p + 4) (p + 12))) as H2.
      rewrite length_slice in H2.
      apply find_Some in Hfind as (_ & Hocc & _).
      apply occurs_fits in Hocc; [|exact KSEQ_nonempty]. 
      change (length KSEQ) with 4%nat in Hocc.
      destruct (bool_decide _) eqn:Hread.
      * apply bool_decide_eq_true in Hread. apply H2 in Hread.
        split; [discriminate|]. intros [? | (q & [= <-] & ?)]; lia.
      * apply bool_decide_eq_false in Hread.
        split; [|reflexivity]. intros _. right. exists p. split; [reflexivity|].
        destruct (Nat.le_gt_cases (p + 12) (length data)); [|lia].
        exfalso. apply Hread, H2. lia.
    + cbn [negb Z.eqb]. split; [discriminate|].
      intros [? | (q & [= ] & ?)]. lia.
  - split; [|reflexivity]. intros _. left.
    destruct (Nat.le_gt_cases 20 (length data)); [|lia].
    exfalso. assert (Hs : @is_Some (Z * Z * Z) None) by (apply H3; lia).
    destruct Hs as [? ?]. discriminate.
Qed.
End EntryTableShape.

(** The witness of X7: the two records of [small_table] before its tag. *)
Lemma entry_table_is_the_plausible_prefix_witness :
  analyze_pepe_format.analyze_elpk_format small_table
  = Returns [{| analyze_pepe_format.index := 0; analyze_pepe_format.hash_id := 1;
                analyze_pepe_format.offset := 20; analyze_pepe_format.size := 12;
                analyze_pepe_format.position := 20 |};
             {| analyze_pepe_format.index := 1; analyze_pepe_format.hash_id := 2;
                analyze_pepe_format.offset := 44; analyze_pepe_format.size := 8;
                analyze_pepe_format.position := 32 |}]
  /\ (2 <= 50)%nat.
Proof.
  assert (H : analyze_pepe_format.analyze_elpk_format small_table
              = Returns [{| analyze_pepe_format.index := 0; analyze_pepe_format.hash_id := 1;
                            analyze_pepe_format.offset := 20; analyze_pepe_format.size := 12;
                            analyze_pepe_format.position := 20 |};
                         {| analyze_pepe_format.index := 1; analyze_pepe_format.hash_id := 2;
                            analyze_pepe_format.offset := 44; analyze_pepe_format.size := 8;
                            analyze_pepe_format.position := 32 |}])
    by (vm_compute; reflexivity).
  split; [exact H | exact (proj1 (entry_table_is_the_plausible_prefix _ _ H))].
Defined.

(** ** The three kinds of printable strings *)

Section Categories.

Import analyze_pepe_format.

Lemma categorize_fold (strings : list Py.str) (acc : categories) :
  fold_left categorize_step strings acc
  = {| dialogue_strings :=
         dialogue_strings acc ++ List.filter is_dialogue_string strings;
       command_strings :=
         command_strings acc
         ++ List.filter (fun s => negb (is_dialogue_string s) && is_command_string s)
              strings;
       name_strings :=
         name_strings acc
         ++ List.filter (fun s => negb (is_dialogue_string s)
                                  && negb (is_command_string s) && is_name_string s)
              strings |}.
Proof.
  revert acc. induction strings as [|s strings IH]; intros acc.
  - cbn [fold_left List.filter]. rewrite !app_nil_r. destruct acc; reflexivity.
  - cbn [fold_left List.filter]. rewrite IH. unfold categorize_step.
    destruct (is_dialogue_string s); cbn [negb andb dialogue_strings command_strings name_strings];
      [rewrite <- app_assoc; reflexivity|].
    destruct (is_command_string s); cbn [negb andb dialogue_strings command_strings name_strings];
      [rewrite <- app_assoc; reflexivity|].
    destruct (is_name_string s); cbn [negb andb dialogue_strings command_strings name_strings];
      [rewrite <- app_assoc; reflexivity|].
    reflexivity.
Qed.

(** X9.  The categorisation of [analyze_elpk_format] keeps the order of the
    strings and puts each string in one list at most: the dialogues are the
    strings longer than 50 characters or holding one of [. ! ?]; the commands
    are the other strings that are upper case, hold [_] or hold one of
    [play], [bgm], [amb_]; the names are the remaining strings of 4 to 29
    characters.  A string of the buffer that lands in no list has 30 to 50
    characters. *)
Theorem strings_fall_in_one_list_at_most (data : Py.bytes) :
  let strings := extract_strings data in
  let c := categorize strings in
  dialogue_strings c = List.filter is_dialogue_string strings
  /\ command_strings c
     = List.filter (fun s => negb (is_dialogue_string s) && is_command_string s) strings
  /\ name_strings c
     = List.filter (fun s => negb (is_dialogue_string s) && negb (is_command_string s)
                             && (length s <? 30)%nat) strings
  /\ (forall s, ~ (In s (dialogue_strings c) /\ In s (command_strings c))
                /\ ~ (In s (dialogue_strings c) /\ In s (name_strings c))
                /\ ~ (In s (command_strings c) /\ In s (name_strings c)))
  /\ (forall s, In s strings ->
                ~ In s (dialogue_strings c) -> ~ In s (command_strings c) ->
                ~ In s (name_strings c) ->
                (30 <= length s <= 50)%nat).
Proof.
  cbv zeta. unfold categorize. rewrite categorize_fold.
  cbn [dialogue_strings command_strings name_strings app].
  assert (Hlen : forall s, In s (extract_strings data) -> (4 <= length s)%nat).
  { intros s Hs. apply strings_loop_sound in Hs. tauto. }
  assert (Hname : forall s, In s (extract_strings data) ->
                            is_name_string s = (length s <? 30)%nat).
  { intros s Hs. apply Hlen in Hs. unfold is_name_string.
    destruct (Nat.ltb_spec 3 (length s)); [|lia]. apply andb_true_r. }
  split_and!.
  - reflexivity.
  - reflexivity.
  - apply filter_ext_in. intros s Hs. rewrite (Hname s Hs). reflexivity.
  - intros s. rewrite !filter_In, !andb_true_iff, !negb_true_iff.
    split_and!; intros H; destruct H as [H1 H2]; destruct (is_dialogue_string s);
      destruct (is_command_string s); intuition discriminate.
  - intros s Hs. rewrite !filter_In, !andb_true_iff, !negb_true_iff.
    rewrite (Hname s Hs). intros Hd Hc Hn.
    destruct (is_dialogue_string s) eqn:Ed; [exfalso; apply Hd; auto|].
    destruct (is_command_string s) eqn:Ec; [exfalso; apply Hc; auto|].
    destruct (Nat.ltb_spec (length s) 30); [exfalso; apply Hn; auto|].
    unfold is_dialogue_string in Ed. rewrite !orb_false_iff in Ed.
    destruct Ed as [[[E _] _] _]. apply Nat.ltb_ge in E. lia.
Qed.

End Categories.

(** ** Where the recovered texts come from *)

Section Windows.

Variable isprintable : Z -> bool.

Lemma length_hex_upper (bs : Py.bytes) :
  String.length (Py.hex_upper bs) = (2 * length bs)%nat.
Proof.
  induction bs as [|b bs IH]; [reflexivity|].
  change (String.length (Py.hex_upper (b :: bs)))
    with (S (S (String.length (Py.hex_upper bs)))).
  rewrite IH. cbn [length]. lia.
Qed.

Lemma accept_sequence_fields (min_len : nat) (sequence : Py.bytes) (offset : nat)
    (r : recovered) :
  accept_sequence isprintable min_len sequence offset = Some r ->
  hex_of r = Py.hex_upper sequence
  /\ source_offset r = offset
  /\ decoded_text r = clean_text_of isprintable (hex_of r)
  /\ (1 <= length (decoded_text r))%nat
  /\ (min_len <= length (decoded_text r))%nat.
Proof.
  intros H. apply accept_sequence_Some in H as (-> & _ & H1 & H2).
  unfold hex_of, source_offset, decoded_text, clean_text_of in *. cbn [fst snd] in *.
  split_and!; [reflexivity | reflexivity | reflexivity | exact H1 | exact H2].
Qed.

Lemma even_candidate_lengths (n : nat) : In n candidate_lengths -> Nat.Even n.
Proof.
  unfold candidate_lengths. cbn [In]. intros H.
  exists (n / 2)%nat. decompose [or] H; subst; try reflexivity. contradiction.
Qed.

(** The windows of the loop: at even offsets, one after the other. *)
Lemma sliding_window_loop_windows (fuel min_len : nat) (data : Py.bytes) (i : nat) :
  Nat.Even i ->
  let rs := sliding_window_loop fuel isprintable min_len data i in
  Forall (fun r => (i <= source_offset r)%nat) rs
  /\ from_windows isprintable min_len data rs.
Proof.
  unfold from_windows.
  revert i. induction fuel as [|fuel IH]; intros i Hi; cbv zeta.
  - cbn [sliding_window_loop]. split_and!; constructor.
  - rewrite sliding_window_loop_S.
    destruct (_ <? _); [|split_and!; constructor].
    destruct (try_lengths _ _ _ _ _) as [[r n]|] eqn:E.
    + apply try_lengths_Some in E as (Hn & Hfit & Hacc).
      apply accept_sequence_fields in Hacc as (Hhex & Hoff & Htext & _ & Hlen).
      destruct (IH (i + n)%nat) as (IH0 & IH1 & IH2).
      { apply Nat.Even_Even_add; [exact Hi | apply even_candidate_lengths, Hn]. }
      cbv zeta in IH0, IH1, IH2.
      split_and!.
      * constructor; [lia|].
        eapply Forall_impl; [exact IH0|]. cbv beta. intros r' ?. lia.
      * constructor; [|exact IH1].
        split; [rewrite Hoff; exact Hi|].
        exists n. unfold read_from. rewrite Hoff.
        split_and!; [exact Hn | exact Hfit | exact Hhex | exact Htext | exact Hlen].
      * constructor; [exact IH2|].
        eapply Forall_impl; [exact IH0|]. cbv beta.
        intros r' Hle. unfold window_before.
        rewrite Hhex, length_hex_upper, length_slice, Hoff.
        replace (2 * Nat.min (i + n - i) (length data - i))%nat with (n * 2)%nat by lia.
        rewrite Nat.div_mul by lia. exact Hle.
    + destruct (IH (i + 2)%nat) as (IH0 & IH1 & IH2).
      { apply Nat.Even_Even_add; [exact Hi | exists 1%nat; reflexivity]. }
      cbv zeta in IH0, IH1, IH2. split_and!; [|exact IH1|exact IH2].
      eapply Forall_impl; [exact IH0|]. cbv beta. intros r' ?. lia.
Qed.

(** X10.  Strategy A reads every result from a window of the buffer: the window
    starts at the even source offset of the result, has one of the lengths
    20, 40, 60, 80, 100, 150, 200 and fits in the buffer; the hex string of
    the result is that of the bytes of the window; the text is what the hex
    string decodes to, cleaned and stripped, of one character or more in the
    main program and of two or more in [correct_utf16_extractor.py].  The
    results come in the order of their windows, and no two windows overlap. *)
Theorem strategy_A_reads_disjoint_windows (data : Py.bytes) :
  from_windows isprintable 1 data
    (kurohyou_csv_extractor.find_japanese_text_in_data isprintable data)
  /\ from_windows isprintable 2 data
       (correct_utf16_extractor.find_japanese_text_sequences isprintable data).
Proof.
  split; apply sliding_window_loop_windows; exists 0%nat; reflexivity.
Qed.

Lemma find_all_next (fuel : nat) (sub : Py.bytes) (step : nat) (data : Py.bytes)
    (start i p q : nat) :
  find_all fuel sub step data start !! i = Some p ->
  find_all fuel sub step data start !! S i = Some q ->
  Py.find sub data (p + step) = Some q.
Proof.
  revert start i. induction fuel as [|fuel IH]; intros start i;
    [intros H; destruct i; discriminate H|].
  cbn [find_all].
  destruct (Py.find sub data start) as [pos|]; [|intros H; destruct i; discriminate H].
  destruct i as [|i].
  - intros [= ->]. change ((p :: ?l) !! 1%nat) with (l !! 0%nat).
    destruct fuel as [|fuel']; [discriminate|]. cbn [find_all].
    destruct (Py.find sub data (p + step)) as [pos'|]; [|discriminate].
    intros [= ->]. reflexivity.
  - change ((pos :: ?l) !! S i) with (l !! i).
    change ((pos :: ?l) !! S (S i)) with (l !! S i). apply IH.
Qed.

Lemma between_terminators_pairs (data : Py.bytes) (positions : list nat) (r : recovered) :
  In r (correct_utf16_extractor.between_terminators isprintable data positions) ->
  exists i p q,
    positions !! i = Some p /\ positions !! S i = Some q
    /\ (p + 2 + 4 < q)%nat
    /\ accept_sequence isprintable 1 (Py.slice data (p + 2) q) (p + 2) = Some r.
Proof.
  induction positions as [|p rest IH]; [simpl; tauto|].
  cbn [correct_utf16_extractor.between_terminators].
  destruct rest as [|q rest']; [simpl; tauto|].
  intros H. apply in_app_or in H as [H | H].
  - destruct (Z.ltb_spec 4 (Z.of_nat q - Z.of_nat (p + 2))) as [Hlt|]; [|contradiction].
    destruct (accept_sequence isprintable 1 (Py.slice data (p + 2) q) (p + 2))
      as [r'|] eqn:E; [|contradiction].
    destruct H as [<- | []]. exists 0%nat, p, q.
    split_and!; [reflexivity | reflexivity | lia | exact E].
  - apply IH in H as (i & p' & q' & ? & ? & ? & ?). exists (S i), p', q'.
    split_and!; assumption.
Qed.

(** X11.  Strategy B reads every result from the bytes between two terminators:
    a pair of zero bytes at [p], and the first pair of zero bytes found from
    [p + 2] on, at [q].  More than four bytes lie between them; the source
    offset of the result is [p + 2], its hex string is that of the bytes up
    to [q], and its text is what the hex string decodes to, cleaned and
    stripped, and is not empty. *)
Theorem strategy_B_reads_between_terminators (data : Py.bytes) (r : recovered) :
  In r (correct_utf16_extractor.find_japanese_by_null_terminators isprintable data) ->
  exists p q, between_zero_pairs isprintable data r p q.
Proof.
  unfold correct_utf16_extractor.find_japanese_by_null_terminators.
  intros H. apply between_terminators_pairs in H as (i & p & q & Hp & Hq & Hlen & Hacc).
  exists p, q. unfold correct_utf16_extractor.null_positions in Hp, Hq.
  pose proof (find_all_next _ _ _ _ _ _ _ _ Hp Hq) as Hnext.
  apply find_Some in Hnext as (_ & Hoq & Hnone).
  apply list_elem_of_lookup_2, list_elem_of_In, find_all_sound in Hp as [_ Hop]; [|lia].
  apply accept_sequence_fields in Hacc as (Hhex & Hoff & Htext & Hone & _).
  unfold between_zero_pairs, read_from. rewrite Hoff.
  split_and!; try assumption.
  - reflexivity.
  - apply occurs_fits in Hoq; [|discriminate].
    change (length correct_utf16_extractor.null_pattern) with 2%nat in Hoq. lia.
  - rewrite Hhex. f_equal. f_equal. lia.
Qed.

End Windows.

Section Terminators.

Variables (sub : Py.bytes) (step : nat).
Hypothesis step_positive : (0 < step)%nat.
Hypothesis sub_nonempty : sub <> [].

(** Every occurrence from [start] on lies less than [step] bytes after a
    recorded one. *)
Lemma find_all_covers (data : Py.bytes) (fuel start q : nat) :
  (length data < fuel + start)%nat ->
  (start <= q)%nat -> occurs sub data q ->
  exists p, In p (find_all fuel sub step data start) /\ (p <= q < p + step)%nat.
Proof.
  revert start. induction fuel as [|fuel IH]; intros start Hfuel Hq Hocc.
  - apply occurs_fits in Hocc; [|exact sub_nonempty]. lia.
  - cbn [find_all]. destruct (Py.find sub data start) as [p|] eqn:E.
    + pose proof E as E'. apply find_Some in E' as (Hle & Hop & Hmin).
      destruct (Nat.lt_ge_cases q p) as [Hlt|Hge]; [exfalso; apply (Hmin q); [lia | exact Hocc]|].
      destruct (Nat.lt_ge_cases q (p + step)) as [Hin|Hout].
      * exists p. split; [left; reflexivity | lia].
      * destruct (IH (p + step)%nat) as (p' & Hp' & ?); [lia | lia | exact Hocc|].
        exists p'. split; [right; exact Hp' | assumption].
    + exfalso. eapply find_None; [exact sub_nonempty | exact E | exact Hq | exact Hocc].
Qed.

End Terminators.

(** X12.  The terminators Strategy B records are offsets of pairs of zero bytes,
    in ascending order and two bytes or more apart; a pair of zero bytes of
    the buffer is either recorded or starts one byte after a recorded one. *)
Theorem terminators_cover_the_zero_pairs (data : Py.bytes) :
  let positions := correct_utf16_extractor.null_positions data in
  StronglySorted (fun p q => (p + 2 <= q)%nat) positions
  /\ (forall p, In p positions -> occurs correct_utf16_extractor.null_pattern data p)
  /\ (forall q, occurs correct_utf16_extractor.null_pattern data q ->
                In q positions \/ (exists p, In p positions /\ q = (p + 1)%nat)).
Proof.
  cbv zeta. unfold correct_utf16_extractor.null_positions. split_and!.
  - apply find_all_sorted. lia.
  - intros p H. apply find_all_sound in H; [tauto | lia].
  - intros q H.
    destruct (find_all_covers correct_utf16_extractor.null_pattern 2 ltac:(lia)
                ltac:(discriminate) data (S (length data)) 0 q) as (p & Hp & Hq);
      [lia | lia | exact H|].
    destruct (Nat.eq_dec q p) as [->|Hne]; [left; exact Hp|].
    right. exists p. split; [exact Hp | lia].
Qed.

(** The witness of X11: the ten kana between the two terminators of
    [two_copies]. *)
Lemma strategy_B_reads_between_terminators_witness :
  exists p q,
    between_zero_pairs (fun _ => true) two_copies
      (Py.hex_upper (Py.encode_utf16_le_bmp kana), kana, 2%nat) p q.
Proof.
  apply strategy_B_reads_between_terminators. vm_compute. left. reflexivity.
Defined.

(** ** What the decoder returns *)

Section Decoder.

Lemma byte_val_range (b : byte) : 0 <= Py.byte_val b < 256.
Proof. unfold Py.byte_val. pose proof (Byte.to_N_bounded b). lia. Qed.

Lemma code_units_spec (n : nat) (bs : Py.bytes) (us : list Z) :
  (length bs <= n)%nat ->
  Py.code_units bs = Some us ->
  length bs = (2 * length us)%nat /\ Forall (fun u => 0 <= u < 0x10000) us.
Proof.
  revert bs us. induction n as [|n IH]; intros bs us Hn.
  - destruct bs; [|cbn [length] in Hn; lia]. intros [= <-]. split; [reflexivity | constructor].
  - destruct bs as [|lo [|hi rest]].
    + intros [= <-]. split; [reflexivity | constructor].
    + discriminate.
    + cbn [Py.code_units]. destruct (Py.code_units rest) as [us'|] eqn:E; [|discriminate].
      intros [= <-]. cbn [length] in Hn.
      destruct (IH rest us' ltac:(lia) E) as [Hl Hr].
      split; [cbn [length]; lia|]. constructor; [|exact Hr].
      pose proof (byte_val_range lo). pose proof (byte_val_range hi). lia.
Qed.

Lemma scalars_spec (n : nat) (us : list Z) (s : Py.str) :
  (length us <= n)%nat ->
  Forall (fun u => 0 <= u < 0x10000) us ->
  Py.scalars us = Some s ->
  (length s <= length us)%nat /\ Forall scalar_value s.
Proof.
  revert us s. induction n as [|n IH]; intros us s Hn Hus.
  - destruct us; [|cbn [length] in Hn; lia]. intros [= <-]. split; [lia | constructor].
  - destruct Hus as [|u rest Hu Hrest]; [intros [= <-]; split; [lia | constructor]|].
    cbn [Py.scalars length] in *. unfold Py.is_high_surrogate, Py.is_low_surrogate.
    destruct ((0xD800 <=? u) && (u <=? 0xDBFF)) eqn:Hhigh.
    + apply andb_true_iff in Hhigh as [H1 H2]. apply Z.leb_le in H1, H2.
      destruct Hrest as [|v rest' Hv Hrest']; [discriminate|].
      destruct ((0xDC00 <=? v) && (v <=? 0xDFFF)) eqn:Hlow; [|discriminate].
      apply andb_true_iff in Hlow as [H3 H4]. apply Z.leb_le in H3, H4.
      fold (Py.scalars rest').
      destruct (Py.scalars rest') as [s'|] eqn:E; [|discriminate].
      intros [= <-]. cbn [length] in *.
      destruct (IH rest' s' ltac:(lia) Hrest' E) as [Hl Hs].
      split; [lia|]. constructor; [unfold scalar_value; lia | exact Hs].
    + destruct ((0xDC00 <=? u) && (u <=? 0xDFFF)) eqn:Hlow; [discriminate|].
      fold (Py.scalars rest).
      destruct (Py.scalars rest) as [s'|] eqn:E; [|discriminate].
      intros [= <-]. cbn [length].
      destruct (IH rest s' ltac:(lia) Hrest E) as [Hl Hs].
      split; [lia|]. constructor; [|exact Hs].
      apply andb_false_iff in Hhigh, Hlow. rewrite !Z.leb_gt in Hhigh, Hlow.
      unfold scalar_value. lia.
Qed.

Lemma decode_utf16_le_spec (raw : Py.bytes) (s : Py.str) :
  Py.decode_utf16_le raw = Some s ->
  Nat.Even (length raw) /\ (2 * length s <= length raw)%nat /\ Forall scalar_value s.
Proof.
  unfold Py.decode_utf16_le. destruct (Py.code_units raw) as [us|] eqn:E; [|discriminate].
  cbn [mbind option_bind]. intros Hs.
  apply (code_units_spec (length raw)) in E as [Hl Hus]; [|lia].
  apply (scalars_spec (length us)) in Hs as [Hls Hsc]; [|lia|exact Hus].
  split_and!; [exists (length us); lia | lia | exact Hsc].
Qed.

Lemma length_rstrip_by (p : Z -> bool) (s : Py.str) :
  (length (Py.rstrip_by p s) <= length s)%nat.
Proof.
  destruct (rstrip_by_prefix p s) as (t & Hs & _).
  rewrite Hs at 2. rewrite length_app. lia.
Qed.

(** X13.  On the hex string of any bytes, what [decode_utf16le_japanese]
    returns is a string of Unicode scalar values, one for every two bytes at
    most, that does not end with U+0000; an odd number of bytes gives the
    empty string, and so does a string that is not hexadecimal. *)
Theorem decoder_returns_scalar_values (raw : Py.bytes) :
  let decoded := decode_utf16le_japanese (Py.hex_upper raw) in
  Forall scalar_value decoded
  /\ (2 * length decoded <= length raw)%nat
  /\ last decoded <> Some 0
  /\ (Nat.Odd (length raw) -> decoded = [])
  /\ (forall hex_bytes, Py.fromhex hex_bytes = None ->
                        decode_utf16le_japanese hex_bytes = []).
Proof.
  cbv zeta. rewrite decode_hex_upper.
  destruct (Py.decode_utf16_le raw) as [s|] eqn:E.
  - apply decode_utf16_le_spec in E as (Heven & Hlen & Hsc).
    split_and!.
    + apply Forall_forall. intros c Hc. apply list_elem_of_In in Hc.
      apply rstrip_by_In in Hc.
      rewrite Forall_forall in Hsc. apply Hsc, list_elem_of_In, Hc.
    + pose proof (length_rstrip_by (Z.eqb 0) s). unfold Py.rstrip_nul. lia.
    + intros H. apply rstrip_by_last in H. discriminate.
    + intros Hodd. exfalso. destruct Heven as [a Ha], Hodd as [b Hb]. lia.
    + intros h Hh. unfold decode_utf16le_japanese. rewrite Hh. reflexivity.
  - split_and!; [constructor | cbn; lia | discriminate | reflexivity|].
    intros h Hh. unfold decode_utf16le_japanese. rewrite Hh. reflexivity.
Qed.

(** X14.  A string of code points of the Basic Multilingual Plane that are not
    surrogates, encoded as UTF-16-LE and written in upper-case hex, decodes to
    itself without its trailing U+0000 characters. *)
Theorem decoder_inverts_the_encoding (s : Py.str) :
  Forall one_unit s ->
  decode_utf16le_japanese (Py.hex_upper (Py.encode_utf16_le_bmp s)) = Py.rstrip_nul s.
Proof.
  intros Hs. rewrite decode_hex_upper, decode_encode by exact Hs. reflexivity.
Qed.

End Decoder.

(** The witness of X14: ten kana. *)
Lemma decoder_inverts_the_encoding_witness :
  decode_utf16le_japanese (Py.hex_upper (Py.encode_utf16_le_bmp kana)) = Py.rstrip_nul kana.
Proof. apply decoder_inverts_the_encoding. exact kana_one_unit. Defined.

(** ** The texts that are kept *)

Section CleanTexts.

Variable isprintable : Z -> bool.

Lemma clean_text_of_spec (hex_string : string) :
  let text := clean_text_of isprintable hex_string in
  Py.strip text = text
  /\ Forall (fun c => isprintable c || is_japanese c = true) text
  /\ (forall c, head text = Some c -> Py.isspace c = false)
  /\ (forall c, last text = Some c -> Py.isspace c = false).
Proof.
  cbv zeta. unfold clean_text_of. split_and!.
  - apply strip_idempotent.
  - apply Forall_forall. intros c Hc. apply list_elem_of_In, strip_In in Hc.
    apply filter_In in Hc as [_ Hc]. exact Hc.
  - intros c. unfold Py.strip. apply lstrip_by_head.
  - intros c Hc. unfold Py.strip in Hc. apply lstrip_by_last in Hc.
    apply rstrip_by_last in Hc. exact Hc.
Qed.

(** X15.  The text of every result of Strategy A (in either script), of
    Strategy B and of the merge can be computed again from the hex string of
    the result: it is what the hex string decodes to, without the characters
    that are neither printable nor Japanese, stripped.  So it is not changed
    by stripping it again, holds printable or Japanese characters only, and
    neither begins nor ends with white space. *)
Theorem recovered_text_is_clean (data : Py.bytes) (r : recovered) :
  In r (kurohyou_csv_extractor.find_japanese_text_in_data isprintable data)
  \/ In r (correct_utf16_extractor.find_japanese_text_sequences isprintable data)
  \/ In r (correct_utf16_extractor.find_japanese_by_null_terminators isprintable data)
  \/ In r (correct_utf16_extractor.extract_japanese_from_pack_correct isprintable data) ->
  decoded_text r = clean_text_of isprintable (hex_of r)
  /\ Py.strip (decoded_text r) = decoded_text r
  /\ Forall (fun c => isprintable c || is_japanese c = true) (decoded_text r)
  /\ (forall c, head (decoded_text r) = Some c -> Py.isspace c = false)
  /\ (forall c, last (decoded_text r) = Some c -> Py.isspace c = false).
Proof.
  intros H.
  assert (Hacc : exists min_len sequence offset,
             accept_sequence isprintable min_len sequence offset = Some r).
  { destruct H as [H | [H | [H | H]]].
    - apply sliding_window_loop_In in H as (j & n & _ & _ & _ & Hacc). eauto.
    - apply sliding_window_loop_In in H as (j & n & _ & _ & _ & Hacc). eauto.
    - apply between_terminators_In in H as (s & e & Hacc). eauto.
    - apply unique_from_In, in_app_or in H as [H | H].
      + apply sliding_window_loop_In in H as (j & n & _ & _ & _ & Hacc). eauto.
      + apply between_terminators_In in H as (s & e & Hacc). eauto. }
  destruct Hacc as (m & s & o & Hacc).
  apply accept_sequence_fields in Hacc as (_ & _ & Htext & _).
  rewrite Htext. split; [reflexivity|]. apply clean_text_of_spec.
Qed.

Lemma unique_from_idempotent (seen : gset Py.str) (all_texts : list recovered) :
  correct_utf16_extractor.unique_from seen
    (correct_utf16_extractor.unique_from seen all_texts)
  = correct_utf16_extractor.unique_from seen all_texts.
Proof.
  revert seen. induction all_texts as [|r rest IH]; intros seen; [reflexivity|].
  rewrite unique_from_cons.
  destruct (bool_decide _ && _) eqn:E; [|apply IH].
  rewrite unique_from_cons, E, IH. reflexivity.
Qed.

(** X16.  The merge is stable: the loop that drops the repeated texts changes
    nothing when it is run on its own result.  It returns no more results
    than the two strategies together, and none only when both strategies
    return none. *)
Theorem merge_is_stable (data : Py.bytes) :
  let sequences := correct_utf16_extractor.find_japanese_text_sequences isprintable data in
  let null_texts :=
    correct_utf16_extractor.find_japanese_by_null_terminators isprintable data in
  let unique_texts :=
    correct_utf16_extractor.extract_japanese_from_pack_correct isprintable data in
  correct_utf16_extractor.unique_from ∅ unique_texts = unique_texts
  /\ (length unique_texts <= length sequences + length null_texts)%nat
  /\ (unique_texts = [] <-> sequences = [] /\ null_texts = []).
Proof.
  cbv zeta. unfold correct_utf16_extractor.extract_japanese_from_pack_correct. cbv zeta.
  set (all_texts := _ ++ _).
  split_and!.
  - apply unique_from_idempotent.
  - rewrite <- length_app. apply sublist_length, unique_from_sublist.
  - split.
    + intros Hnil. apply app_eq_nil. fold all_texts.
      destruct all_texts as [|r rest] eqn:E; [reflexivity|]. exfalso.
      assert (Hin : In r all_texts) by (rewrite E; left; reflexivity).
      pose proof Hin as Hacc. apply all_texts_accepted in Hacc as (m & s & o & Hacc).
      apply accept_sequence_Some in Hacc as (_ & _ & Hlen & _).
      destruct (unique_from_covers ∅ all_texts r Hin) as (r' & Hr' & _);
        [apply not_elem_of_empty | exact Hlen|].
      rewrite E, Hnil in Hr'. exact Hr'.
    + intros [HA HB]. subst all_texts. rewrite HA, HB. reflexivity.
Qed.

End CleanTexts.

(** The witness of X15: the ten kana Strategy A recovers from [kana_buffer]. *)
Lemma recovered_text_is_clean_witness :
  Py.strip (decoded_text (Py.hex_upper kana_buffer, kana, 0%nat))
  = decoded_text (Py.hex_upper kana_buffer, kana, 0%nat).
Proof.
  apply (recovered_text_is_clean (fun _ => false) kana_buffer).
  left. vm_compute. left. reflexivity.
Defined.

(** ** The lines of a PACK file *)

Section PackLines.

Import kurohyou_csv_extractor.

Variable isprintable : Z -> bool.

Lemma pack_lines_from_zip (i : nat) (japanese_texts : list recovered) :
  Forall (fun r => exists min_len sequence offset,
                     accept_sequence isprintable min_len sequence offset = Some r)
         japanese_texts ->
  pack_lines_from i japanese_texts
  = zip_with line_of (seq (i + 1) (length japanese_texts)) japanese_texts.
Proof.
  intros H. revert i. induction H as [|r rest (m & s & o & Hacc) _ IH]; intros i;
    [reflexivity|].
  apply accept_sequence_Some in Hacc as (Hr & _ & Hlen & _).
  assert (Hstrip : Py.strip (decoded_text r) = decoded_text r).
  { rewrite Hr. unfold decoded_text. cbn [fst snd]. apply strip_idempotent. }
  destruct r as [[h d] off]. unfold decoded_text in Hstrip, Hlen. simpl in Hstrip, Hlen.
  cbn [pack_lines_from length seq zip_with]. rewrite Hstrip.
  destruct d as [|c d]; [simpl in Hlen; lia|].
  cbn [Py.truthy andb]. cbn [length Nat.leb].
  rewrite IH. replace (S i + 1)%nat with (S (i + 1)) by lia. reflexivity.
Qed.

(** X17.  On a decompressed buffer [_extract_pack_data] returns one line for
    every result of Strategy A, in the same order: the test in its loop
    rejects none, so the lines are numbered 1, 2, 3, ... without a gap.  A
    line holds the text, the hex string and the source offset of its result
    and the length of the text; the total of characters is the sum of these
    lengths, one or more for every line; the size recorded is that of the
    buffer.  When the decompression failed it returns nothing. *)
Theorem pack_lines_are_numbered_without_gaps (data : Py.bytes) :
  let japanese_texts := find_japanese_text_in_data isprintable data in
  (exists d,
     _extract_pack_data isprintable (Some data) = Some d
     /\ pack_lines d
        = zip_with line_of (seq 1 (length japanese_texts)) japanese_texts
     /\ map pack_line_id (pack_lines d) = seq 1 (length (pack_lines d))
     /\ pack_total_chars d
        = list_sum (map (fun r => length (decoded_text r)) japanese_texts)
     /\ (length (pack_lines d) <= pack_total_chars d)%nat
     /\ decompressed_size d = length data)
  /\ _extract_pack_data isprintable None = None.
Proof.
  cbv zeta. split; [|reflexivity].
  eexists. split; [reflexivity|]. cbn [pack_lines pack_total_chars decompressed_size].
  pose proof (find_japanese_text_in_data_accepted isprintable data) as Hacc.
  rewrite (pack_lines_from_zip 0 _ Hacc). cbn [Nat.add].
  set (rs := find_japanese_text_in_data isprintable data) in *.
  assert (Hids : forall k, map pack_line_id (zip_with line_of (seq k (length rs)) rs)
                           = seq k (length rs)).
  { induction rs as [|r rs IH]; intros k; [reflexivity|].
    cbn [length seq zip_with map]. rewrite IH; [reflexivity|].
    inversion Hacc; assumption. }
  assert (Hlen : forall k, length (zip_with line_of (seq k (length rs)) rs) = length rs).
  { intros k. rewrite length_zip_with, length_seq. lia. }
  assert (Hchars : forall k, map length_chars (zip_with line_of (seq k (length rs)) rs)
                             = map (fun r => length (decoded_text r)) rs).
  { clear Hids Hlen. induction rs as [|r rs IH]; intros k; [reflexivity|].
    cbn [length seq zip_with map]. rewrite IH; [reflexivity|].
    inversion Hacc; assumption. }
  split_and!.
  - reflexivity.
  - rewrite Hlen. apply Hids.
  - rewrite Hchars. reflexivity.
  - rewrite Hlen, Hchars. clear Hids Hlen Hchars.
    induction Hacc as [|r rs (m & s & o & Hr) _ IH]; [cbn; lia|].
    apply accept_sequence_Some in Hr as (_ & _ & H1 & _).
    cbn [length map].
    change (list_sum (?x :: ?l)) with (x + list_sum l)%nat. lia.
  - reflexivity.
Qed.

End PackLines.

(** ** The sections of a container *)

Section Sections.

Import analyze_pack_format.

Lemma occurs_in_slice (sub data : Py.bytes) (i j k : nat) :
  sub <> [] -> occurs sub (Py.slice data i j) k ->
  occurs sub data (i + k) /\ (i + k + length sub <= j)%nat.
Proof.
  intros Hne H. pose proof (occurs_fits _ _ _ Hne H) as Hfit.
  rewrite length_slice in Hfit.
  assert (0 < length sub)%nat by (destruct sub; [congruence | cbn [length]; lia]).
  split; [|lia].
  unfold occurs in *. apply starts_with_take in H. apply starts_with_take.
  rewrite <- H at 2. unfold Py.slice.
  rewrite skipn_firstn_comm, drop_drop, take_take.
  f_equal. lia.
Qed.

Lemma occurs_slice_start (sub data : Py.bytes) (i j : nat) :
  occurs sub data i -> (i + length sub <= j)%nat -> occurs sub (Py.slice data i j) 0.
Proof.
  unfold occurs. intros H Hj. apply starts_with_take in H. apply starts_with_take.
  rewrite drop_0. unfold Py.slice. rewrite take_take.
  rewrite <- H at 2. f_equal. lia.
Qed.

Lemma kseq_sections_fst (data : Py.bytes) (positions : list nat) :
  map fst (kseq_sections data positions) = positions.
Proof.
  induction positions as [|p rest IH]; [reflexivity|].
  cbn [kseq_sections map fst]. rewrite IH. reflexivity.
Qed.

Lemma kseq_sections_concat (data : Py.bytes) (positions : list nat) :
  StronglySorted (fun p q => (p + 4 <= q)%nat) positions ->
  Forall (fun p => (p <= length data)%nat) positions ->
  concat (map snd (kseq_sections data positions))
  = drop (default (length data) (head positions)) data.
Proof.
  intros Hs. induction Hs as [|p rest Hs IH Hall]; intros Hfit.
  - cbn. rewrite drop_all. reflexivity.
  - inversion Hfit as [|? ? Hp Hrest]; subst.
    cbn [kseq_sections map snd concat head default]. unfold id. rewrite (IH Hrest).
    destruct rest as [|q rest'].
    + cbn [head default]. rewrite drop_all, app_nil_r. unfold Py.slice.
      apply take_ge. rewrite length_drop. lia.
    + cbn [head default]. unfold id. inversion Hall as [|? ? Hq _]; subst.
      unfold Py.slice. replace (p + (q - p) - p)%nat with (q - p)%nat by lia.
      replace q with (p + (q - p))%nat at 2 by lia.
      rewrite <- drop_drop. apply take_drop.
Qed.

Lemma kseq_sections_one_tag (data : Py.bytes) (positions : list nat) (lo : nat) :
  StronglySorted (fun p q => (p + 4 <= q)%nat) positions ->
  Forall (fun p => (lo <= p)%nat) positions ->
  (forall q, In q positions -> occurs KSEQ data q) ->
  (forall q, occurs KSEQ data q -> (lo <= q)%nat -> In q positions) ->
  Forall (fun s => occurs KSEQ s.2 0 /\ forall k, (0 < k)%nat -> ~ occurs KSEQ s.2 k)
         (kseq_sections data positions).
Proof.
  intros Hs. revert lo. induction Hs as [|p rest Hs IH Hall];
    intros lo Hlo Hsound Hcomplete; [constructor|].
  inversion Hlo as [|? ? Hlop _]; subst.
  cbn [kseq_sections]. constructor.
  - cbn [snd].
    assert (Hp : occurs KSEQ data p) by (apply Hsound; left; reflexivity).
    pose proof (occurs_fits _ _ _ KSEQ_nonempty Hp) as Hfit.
    change (length KSEQ) with 4%nat in Hfit.
    split.
    + apply occurs_slice_start; [exact Hp|]. change (length KSEQ) with 4%nat.
      destruct rest as [|q rest']; [lia|].
      inversion Hall; subst. lia.
    + intros k Hk Hocc. apply occurs_in_slice in Hocc as [Hocc Hend]; [|exact KSEQ_nonempty].
      change (length KSEQ) with 4%nat in Hend.
      assert (Hin : In (p + k)%nat (p :: rest)) by (apply Hcomplete; [exact Hocc | lia]).
      destruct Hin as [Heq | Hin]; [lia|].
      destruct rest as [|q rest']; [contradiction|].
      inversion Hall as [|? ? Hq _]; subst.
      assert (q <= p + k)%nat; [|lia].
      destruct Hin as [<- | Hin]; [lia|].
      inversion Hs as [|? ? _ Hall']; subst.
      rewrite Forall_forall in Hall'. apply list_elem_of_In, Hall' in Hin. lia.
  - apply (IH (p + 1)%nat).
    + eapply Forall_impl; [exact Hall|]. cbv beta. intros q ?. lia.
    + intros q Hq. apply Hsound. right. exact Hq.
    + intros q Hq Hle.
      destruct (Hcomplete q Hq ltac:(lia)) as [<- | Hin]; [lia | exact Hin].
Qed.

(** X18.  The sections [analyze_elpk_structure] cuts are the buffer from its
    first [KSEQ] tag to its end, in pieces: put end to end they give those
    bytes back, every section begins with the tag at its recorded offset, and
    no section holds a second tag. *)
Theorem sections_tile_the_buffer (data : Py.bytes) :
  let positions := kseq_positions data in
  let sections := kseq_sections data positions in
  map fst sections = positions
  /\ concat (map snd sections) = drop (default (length data) (head positions)) data
  /\ Forall (fun s => Py.slice s.2 0 4 = KSEQ
                      /\ forall k, (0 < k)%nat -> Py.slice s.2 k (k + 4) <> KSEQ) sections.
Proof.
  cbv zeta.
  assert (Hsorted : StronglySorted (fun p q => (p + 4 <= q)%nat) (kseq_positions data))
    by (apply find_all_sorted; lia).
  split_and!.
  - apply kseq_sections_fst.
  - apply kseq_sections_concat; [exact Hsorted|].
    apply Forall_forall. intros p Hp. apply list_elem_of_In, kseq_positions_spec in Hp.
    apply occurs_fits in Hp; [lia | exact KSEQ_nonempty].
  - eapply Forall_impl.
    + apply (kseq_sections_one_tag data (kseq_positions data) 0 Hsorted).
      * apply Forall_forall. intros; lia.
      * intros q. apply kseq_positions_spec.
      * intros q Hq _. apply kseq_positions_spec, Hq.
    + cbv beta. intros s [H0 Hk]. split.
      * apply (occurs_slice KSEQ) in H0. exact H0.
      * intros k Hpos Hs. apply (Hk k Hpos). apply (occurs_slice KSEQ). exact Hs.
Qed.

End Sections.

(** ** The outcome of the analysis of a PACK file *)

Section PackAnalysis.

Import analyze_pack_format.

Lemma sorted_tags_fit (positions : list nat) (lo n : nat) :
  StronglySorted (fun p q => (p + 4 <= q)%nat) positions ->
  Forall (fun p => (lo <= p)%nat /\ (p + 4 <= n)%nat) positions ->
  positions = [] \/ (lo + 4 * length positions <= n)%nat.
Proof.
  intros Hs. revert lo. induction Hs as [|p rest Hs IH Hall]; intros lo Hfit;
    [left; reflexivity|].
  right. inversion Hfit as [|? ? [Hlo Hp] Hrest]; subst.
  destruct (IH (p + 4)%nat) as [-> | Hle].
  - apply Forall_forall. intros q Hq. rewrite Forall_forall in Hall, Hrest.
    split; [apply Hall, Hq | apply Hrest, Hq].
  - cbn [length]. lia.
  - cbn [length]. lia.
Qed.

Lemma elpk_structure_result (data : Py.bytes) (r : analysis) :
  analyze_elpk_structure data = Some r ->
  Py.slice data 0 4 = ELPK
  /\ total_size r = length data
  /\ (4 <= total_size r)%nat
  /\ n_kseq_sections r = length (kseq_positions data)
  /\ (4 * n_kseq_sections r <= total_size r)%nat.
Proof.
  unfold analyze_elpk_structure.
  destruct (bool_decide (Py.slice data 0 4 = ELPK)) eqn:E; [|discriminate].
  apply bool_decide_eq_true in E. cbn [negb]. intros [= <-].
  cbn [total_size n_kseq_sections].
  assert (4 <= length data)%nat.
  { apply (f_equal length) in E. rewrite length_slice in E.
    change (length ELPK) with 4%nat in E. lia. }
  split_and!; [exact E | reflexivity | assumption | reflexivity|].
  destruct (sorted_tags_fit (kseq_positions data) 0 (length data)) as [-> | Hle].
  - apply find_all_sorted. lia.
  - apply Forall_forall. intros p Hp. apply list_elem_of_In, kseq_positions_spec in Hp.
    apply occurs_fits in Hp; [|exact KSEQ_nonempty].
    change (length KSEQ) with 4%nat in Hp. lia.
  - cbn [length]. lia.
  - lia.
Qed.

(** X19.  [analyze_pack_file] returns a result only for a file that begins with
    the GZIP magic and decompresses to a buffer that begins with [ELPK]; the
    result records the size of the buffer, four bytes or more, and as the
    number of sections the number of [KSEQ] tags, with four bytes of the
    buffer for each.  It fails, dividing by zero, exactly when the file has
    the GZIP magic and decompresses to nothing; it returns nothing exactly
    when the magic is wrong, the decompression failed, or the buffer is not
    empty and does not begin with [ELPK]. *)
Theorem pack_analysis_outcomes (magic : Py.bytes) (decompressed_data : option Py.bytes) :
  (forall r, analyze_pack_file magic decompressed_data = Returns r <->
             magic = [x1f; x8b]
             /\ exists data, decompressed_data = Some data
                             /\ analyze_elpk_structure data = Some r)
  /\ (forall r, analyze_pack_file magic decompressed_data = Returns r ->
                exists data, decompressed_data = Some data
                             /\ Py.slice data 0 4 = ELPK
                             /\ total_size r = length data
                             /\ (4 <= total_size r)%nat
                             /\ n_kseq_sections r = length (kseq_positions data)
                             /\ (4 * n_kseq_sections r <= total_size r)%nat)
  /\ (analyze_pack_file magic decompressed_data = Raises <->
      magic = [x1f; x8b] /\ decompressed_data = Some [])
  /\ (analyze_pack_file magic decompressed_data = ReturnsNone <->
      magic <> [x1f; x8b] \/ decompressed_data = None
      \/ exists data, decompressed_data = Some data /\ data <> []
                      /\ Py.slice data 0 4 <> ELPK).
Proof.
  assert (Hnone : forall data, analyze_elpk_structure data = None
                               <-> Py.slice data 0 4 <> ELPK).
  { intros data. unfold analyze_elpk_structure.
    destruct (bool_decide (Py.slice data 0 4 = ELPK)) eqn:E.
    - apply bool_decide_eq_true in E. split; [discriminate | congruence].
    - apply bool_decide_eq_false in E. split; [intros _; exact E | reflexivity]. }
  unfold analyze_pack_file.
  destruct (bool_decide (magic = [x1f; x8b])) eqn:Emagic; cbn [negb].
  2:{ apply bool_decide_eq_false in Emagic. split_and!.
      - intros r. split; [discriminate | intros [? _]; contradiction].
      - discriminate.
      - split; [discriminate | intros [? _]; contradiction].
      - split; [auto | reflexivity]. }
  apply bool_decide_eq_true in Emagic.
  destruct decompressed_data as [data|].
  2:{ split_and!.
      - intros r. split; [discriminate | intros (_ & d & [=] & _)].
      - discriminate.
      - split; [discriminate | intros [_ [=]]].
      - split; [auto | reflexivity]. }
  destruct data as [|b data].
  { cbn [length Nat.eqb]. split_and!.
    - intros r. split; [discriminate|]. intros (_ & d & [= <-] & H).
      apply elpk_structure_result in H as (H & _). discriminate H.
    - discriminate.
    - split; [auto | reflexivity].
    - split; [discriminate|]. intros [H | [[=] | (d & [= <-] & H & _)]]; congruence. }
  cbn [length Nat.eqb].
  destruct (analyze_elpk_structure (b :: data)) as [r0|] eqn:E.
  - split_and!.
    + intros r. split.
      * intros [= <-]. split; [exact Emagic|]. eauto.
      * intros (_ & d & [= <-] & H). congruence.
    + intros r [= <-]. exists (b :: data). split; [reflexivity|].
      apply elpk_structure_result, E.
    + split; [discriminate | intros [_ [=]]].
    + split; [discriminate|]. intros [H | [[=] | (d & [= <-] & _ & H)]]; [congruence|].
      apply Hnone in H. congruence.
  - split_and!.
    + intros r. split; [discriminate|]. intros (_ & d & [= <-] & H). congruence.
    + discriminate.
    + split; [discriminate | intros [_ [=]]].
    + split; [|reflexivity]. intros _. right. right. exists (b :: data).
      split_and!; [reflexivity | discriminate | apply Hnone, E].
Qed.

End PackAnalysis.

(** ** The texts of a section *)

Section SectionTexts.

Import analyze_pack_format.

Lemma flush_In (min_length : nat) (texts : list Py.str) (current_text t : Py.str) :
  In t (flush min_length texts current_text) ->
  In t texts
  \/ ((min_length <= length current_text)%nat
      /\ decode_special_japanese current_text = Some t).
Proof.
  unfold flush. destruct (Nat.leb_spec min_length (length current_text)) as [Hlen|_];
    [|auto].
  intros Ht. apply in_app_or in Ht as [Ht | Ht]; [auto|].
  destruct (decode_special_japanese current_text) as [d|]; [|contradiction].
  destruct Ht as [<- | []]. auto.
Qed.

(** The loop of a section, beside the loop of [extract_strings] run with
    [min_length] 2: the same current string, and every text made from a
    string of the other loop. *)
Lemma section_fold_simulation (data : Py.bytes) (st st' : list Py.str * Py.str) :
  st.2 = st'.2 ->
  (forall t, In t st.1 ->
             exists run, In run st'.1 /\ decode_special_japanese run = Some t) ->
  let f := fold_left section_step data st in
  let g := fold_left (strings_step 2) data st' in
  f.2 = g.2
  /\ (forall t, In t f.1 ->
                exists run, In run g.1 /\ decode_special_japanese run = Some t).
Proof.
  revert st st'. induction data as [|b data IH]; intros st st' Hcur Htexts; cbv zeta.
  - split; assumption.
  - cbn [fold_left]. apply IH.
    + unfold section_step, strings_step, printable_byte. cbv zeta.
      destruct (Z.eqb_spec (Py.byte_val b) 0) as [H0|H0].
      * rewrite H0. reflexivity.
      * destruct ((32 <=? Py.byte_val b) && (Py.byte_val b <=? 126));
          cbn [snd]; [rewrite Hcur|]; reflexivity.
    + assert (Hflush : forall m t, (2 <= m)%nat ->
                In t (flush m st.1 st.2) ->
                exists run,
                  In run (if (2 <=? length st'.2)%nat then st'.1 ++ [st'.2] else st'.1)
                  /\ decode_special_japanese run = Some t).
      { intros m t Hm Ht. apply flush_In in Ht as [Ht | [Hlen Hdec]].
        - destruct (Htexts t Ht) as (run & Hrun & Hd). exists run. split; [|exact Hd].
          destruct (_ <=? _)%nat; [apply in_or_app; left|]; exact Hrun.
        - exists st.2. split; [|exact Hdec]. rewrite <- Hcur.
          destruct (Nat.leb_spec 2 (length st.2)); [|lia].
          apply in_or_app. right. left. reflexivity. }
      unfold section_step, strings_step, printable_byte. cbv zeta.
      destruct (Z.eqb_spec (Py.byte_val b) 0) as [H0|H0].
      * rewrite H0. cbn [Z.leb andb fst]. intros t. apply Hflush. lia.
      * destruct ((32 <=? Py.byte_val b) && (Py.byte_val b <=? 126)); cbn [fst].
        -- exact Htexts.
        -- intros t. apply Hflush. lia.
Qed.

(** X20.  Every text [extract_japanese_from_section] returns is made from a run
    of printable ASCII bytes of the section that cannot be extended on
    either side and has two characters or more: the text is the run itself,
    which then has three characters or more and holds a letter, or the run
    behind the mark of an encoded text. *)
Theorem section_texts_come_from_runs (section_data : Py.bytes) (t : Py.str) :
  In t (extract_japanese_from_section section_data) ->
  exists run,
    maximal_run section_data run
    /\ (2 <= length run)%nat
    /\ decode_special_japanese run = Some t
    /\ (t = Py.lit "[JAPONÉS_CODIFICADO] " ++ run
        \/ (t = run /\ (3 <= length run)%nat /\ existsb isalpha_ascii run = true)).
Proof.
  unfold extract_japanese_from_section. cbv zeta. intros H.
  destruct (section_fold_simulation section_data ([], []) ([], []) eq_refl)
    as [Hcur Htexts]; [intros ? []|]. cbv zeta in Hcur, Htexts.
  assert (Hrun : exists run, In run (strings_loop 2 section_data)
                             /\ decode_special_japanese run = Some t).
  { unfold strings_loop. cbv zeta.
    apply flush_In in H as [H | [Hlen Hdec]].
    - destruct (Htexts t H) as (run & Hrun & Hd). exists run. split; [|exact Hd].
      destruct (_ <=? _)%nat; [apply in_or_app; left|]; exact Hrun.
    - rewrite Hcur in Hlen, Hdec. eexists. split; [|exact Hdec].
      destruct (Nat.leb_spec 2 (length (fold_left (strings_step 2) section_data ([], [])).2));
        [|lia].
      apply in_or_app. right. left. reflexivity. }
  destruct Hrun as (run & Hin & Hdec). exists run.
  apply strings_loop_sound in Hin as [Hlen Hmax].
  split_and!; [exact Hmax | exact Hlen | exact Hdec|].
  unfold decode_special_japanese in Hdec.
  destruct (_ || _); [left; congruence|].
  destruct (_ && _) eqn:E; [|discriminate].
  apply andb_true_iff in E as [E1 E2]. apply Nat.leb_le in E1.
  right. split_and!; [congruence | exact E1 | exact E2].
Qed.

End SectionTexts.

(** The witness of X20: a section of a tag and three letters. *)
Lemma section_texts_come_from_runs_witness :
  exists run,
    maximal_run (KSEQ ++ [x41; x42; x43; x00]) run
    /\ (2 <= length run)%nat
    /\ analyze_pack_format.decode_special_japanese run
       = Some (Py.lit "[JAPONÉS_CODIFICADO] KSEQABC")
    /\ (Py.lit "[JAPONÉS_CODIFICADO] KSEQABC" = Py.lit "[JAPONÉS_CODIFICADO] " ++ run
        \/ (Py.lit "[JAPONÉS_CODIFICADO] KSEQABC" = run /\ (3 <= length run)%nat
            /\ existsb analyze_pack_format.isalpha_ascii run = true)).
Proof.
  apply section_texts_come_from_runs. vm_compute. left. reflexivity.
Defined.

(** ** The distribution of the identifiers *)

Section HashDistribution.

Import analyze_pepe_format.

Lemma Qle_bool_false (x y : Q) : Qle_bool x y = false <-> (y < x)%Q.
Proof.
  rewrite <- not_true_iff_false, Qle_bool_iff. split.
  - apply Qnot_le_lt.
  - apply Qlt_not_le.
Qed.

Lemma fold_min_le (l : list Z) (h : Z) :
  fold_left Z.min l h <= h /\ Forall (fun x => fold_left Z.min l h <= x) l.
Proof.
  revert h. induction l as [|a l IH]; intros h; [split; [cbn; lia | constructor]|].
  cbn [fold_left]. destruct (IH (Z.min h a)) as [H1 H2].
  split; [lia|]. constructor; [lia | exact H2].
Qed.

Lemma fold_max_ge (l : list Z) (h : Z) :
  h <= fold_left Z.max l h /\ Forall (fun x => x <= fold_left Z.max l h) l.
Proof.
  revert h. induction l as [|a l IH]; intros h; [split; [cbn; lia | constructor]|].
  cbn [fold_left]. destruct (IH (Z.max h a)) as [H1 H2].
  split; [lia|]. constructor; [lia | exact H2].
Qed.

Lemma count_consecutive_cons (a b : Z) (l : list Z) :
  count_consecutive (a :: b :: l)
  = ((if (b - a =? 1)%Z then 1 else 0) + count_consecutive (b :: l))%nat.
Proof. reflexivity. Qed.

Lemma count_consecutive_le (hash_values : list Z) :
  (count_consecutive hash_values <= length hash_values - 1)%nat.
Proof.
  induction hash_values as [|a [|b l] IH]; [cbn; lia | cbn; lia|].
  rewrite count_consecutive_cons. cbn [length] in *.
  destruct (b - a =? 1); lia.
Qed.

Lemma count_consecutive_all (hash_values : list Z) :
  (forall i a b, hash_values !! i = Some a -> hash_values !! S i = Some b -> b = a + 1) ->
  count_consecutive hash_values = (length hash_values - 1)%nat.
Proof.
  induction hash_values as [|a [|b l] IH]; intros Hstep; [reflexivity | reflexivity|].
  rewrite count_consecutive_cons, IH.
  - rewrite (Hstep 0%nat a b eq_refl eq_refl).
    replace (a + 1 - a) with 1 by lia. cbn [Z.eqb Pos.eqb length]. lia.
  - intros i x y Hx Hy. apply (Hstep (S i)); assumption.
Qed.

(** X21.  [analyze_hash_distribution] reports nothing for an empty table and
    does not fail on it.  For any other table the least and the greatest
    identifier bound every identifier and their difference is not negative;
    fewer neighbours differ by one than there are entries; and a table of one
    or two entries is never called sequential, not even when its identifiers
    are consecutive: identifiers that go up by one are called sequential
    exactly when there are three entries or more. *)
Theorem hash_distribution_report (entries : list entry) :
  (analyze_hash_distribution entries = None <-> entries = [])
  /\ (forall report, analyze_hash_distribution entries = Some report ->
        Forall (fun e => least_hash report <= hash_id e <= greatest_hash report) entries
        /\ hash_range report = greatest_hash report - least_hash report
        /\ 0 <= hash_range report
        /\ (consecutive_pairs report < length entries)%nat
        /\ (sequential report = true -> (3 <= length entries)%nat)
        /\ ((forall i a b, map hash_id entries !! i = Some a ->
                           map hash_id entries !! S i = Some b -> b = a + 1) ->
            (sequential report = true <-> (3 <= length entries)%nat))).
Proof.
  unfold analyze_hash_distribution.
  assert (Hlen : length (map hash_id entries) = length entries) by apply length_map.
  assert (Hall : Forall (fun x => In x (map hash_id entries)) (map hash_id entries))
    by (apply Forall_forall; intros x Hx; apply list_elem_of_In; exact Hx).
  pose proof (count_consecutive_le (map hash_id entries)) as Hle.
  pose proof (count_consecutive_all (map hash_id entries)) as Hseq.
  destruct (map hash_id entries) as [|h rest] eqn:E.
  - split; [split; [intros _; destruct entries; [reflexivity | discriminate] | reflexivity]|].
    discriminate.
  - split; [split; [discriminate | intros ->; discriminate]|].
    intros report Hr. apply (inj Some) in Hr. subst report. cbv zeta.
    cbn [least_hash greatest_hash hash_range consecutive_pairs sequential].
    destruct (fold_min_le rest h) as [Hmin Hmins].
    destruct (fold_max_ge rest h) as [Hmax Hmaxs].
    set (pairs := count_consecutive (h :: rest)) in *.
    assert (Hverdict : negb (Qle_bool (inject_Z (Z.of_nat pairs))
                               (inject_Z (Z.of_nat (length (h :: rest))) * (1 # 2))) = true
                       <-> (length (h :: rest) < 2 * pairs)%nat).
    { rewrite negb_true_iff, Qle_bool_false. unfold Qlt, Qmult, inject_Z.
      cbn [Qnum Qden]. lia. }
    rewrite Hverdict. rewrite Hlen in *.
    split_and!.
    + apply Forall_forall. intros e He.
      assert (Hin : In (hash_id e) (h :: rest)).
      { rewrite <- E. apply in_map, list_elem_of_In, He. }
      rewrite Forall_forall in Hmins, Hmaxs.
      destruct Hin as [<- | Hin]; [lia|].
      apply list_elem_of_In in Hin.
      specialize (Hmins _ Hin). specialize (Hmaxs _ Hin). lia.
    + reflexivity.
    + lia.
    + cbn [length] in *. lia.
    + lia.
    + intros Hstep. rewrite (Hseq Hstep) in *. lia.
Qed.

End HashDistribution.

(** ** The thresholds of the timing test *)

(** X22.  [test_analysis_thresholds] calls a duration very fast only under 15
    frames, so it marks as failed the two examples of 15 and 18 frames that
    its own table expects to be very fast, and as passed the other two. *)
Theorem threshold_examples_disagree_with_the_thresholds :
  (forall duration,
     test_fotogramas.category duration = Py.lit "muy rápido" <-> duration < 15)
  /\ test_fotogramas.test_analysis_thresholds = [false; false; true; true].
Proof.
  split; [|vm_compute; reflexivity].
  intros duration. unfold test_fotogramas.category.
  destruct (Z.ltb_spec duration 15); [tauto|].
  destruct (duration <=? 60); [|destruct (duration <=? 90)];
    (split; [intros Hc; vm_compute in Hc; discriminate Hc | lia]).
Qed.
